(** * Traffic-safety data warehouse: the ETL pipeline and the fact-table builder

    A shallow embedding of [code/etl.py], [code/creat_fact_table.py],
    [code/fix_driver_age.py], [code/association_mining.py],
    [code/fix_time_issues.py], [code/missing_value_analysis.py] and
    [code/data_quality_check.py].

    A pandas DataFrame is a list of rows (a record per table), in row order.
    A cell that pandas may hold as a number, a string or a missing value is a
    [pyval]; a numeric column with missing values is an [option], a float a
    rational [Qc].  A Python [dict] is a [gmap], a [set] a [gset].  A step that
    can raise returns an [option], [None] being the exception. *)

From Stdlib Require Import Ascii ZArith QArith Qcanon Lia.
From stdpp Require Import base option list strings gmap sorting.

Local Open Scope string_scope.
Local Open Scope Z_scope.

(** ** Python and pandas primitives *)

Module Py.

(** A cell value: an integer, a string, the float NaN or [None]. *)
Inductive pyval : Type :=
  | PyInt (z : Z)
  | PyStr (s : string)
  | PyNaN
  | PyNone.

#[global] Instance pyval_eq_dec : EqDecision pyval.
Proof. solve_decision. Defined.

#[global] Instance pyval_countable : Countable pyval.
Proof.
  refine (inj_countable'
            (fun v => match v with
                      | PyInt z => inl z
                      | PyStr s => inr (inl s)
                      | PyNaN => inr (inr true)
                      | PyNone => inr (inr false)
                      end)
            (fun e => match e with
                      | inl z => PyInt z
                      | inr (inl s) => PyStr s
                      | inr (inr true) => PyNaN
                      | inr (inr false) => PyNone
                      end) _).
  by intros [].
Defined.

(** [v == k] for an integer literal [k]. *)
Definition eq_int (v : pyval) (k : Z) : bool :=
  match v with
  | PyInt z => z =? k
  | _ => false
  end.

(** [v in [k1, k2, ...]] for a list of integer literals. *)
Definition in_ints (v : pyval) (ks : list Z) : bool :=
  existsb (eq_int v) ks.

(** [pd.isna(v)]. *)
Definition isna (v : pyval) : bool :=
  match v with
  | PyNaN | PyNone => true
  | _ => false
  end.

(** [sub in s] on strings. *)
Fixpoint contains (sub s : string) : bool :=
  String.prefix sub s ||
  match s with
  | EmptyString => false
  | String _ s' => contains sub s'
  end.

(** *** Decimal text of integers *)

Definition digit_char (d : Z) : ascii :=
  match d with
  | 0 => "0" | 1 => "1" | 2 => "2" | 3 => "3" | 4 => "4"
  | 5 => "5" | 6 => "6" | 7 => "7" | 8 => "8" | _ => "9"
  end%char.

(** The value of a decimal digit, from its code (48 to 57). *)
Definition digit_val (c : ascii) : option Z :=
  let code := Z.of_N (N_of_ascii c) in
  if (48 <=? code) && (code <=? 57) then Some (code - 48) else None.

(** The digits of [n >= 0], most significant first, in front of [acc]. *)
Fixpoint digits (fuel : nat) (n : Z) (acc : string) : string :=
  match fuel with
  | O => acc
  | S fuel' =>
      let acc' := String (digit_char (n mod 10)) acc in
      if n <? 10 then acc' else digits fuel' (n / 10) acc'
  end.

(** A number of digits no [n >= 0] exceeds. *)
Definition digits_fuel (n : Z) : nat := S (Z.to_nat (Z.log2 n)).

(** [str(z)] *)
Definition str_of_Z (z : Z) : string :=
  if z <? 0 then String "-" (digits (digits_fuel (- z)) (- z) "")
  else digits (digits_fuel z) z "".

Definition is_sign (c : ascii) : bool :=
  match c with
  | "+" | "-" => true
  | _ => false
  end%char.

Fixpoint zeros (n : nat) : string :=
  match n with
  | O => ""
  | S n' => String "0" (zeros n')
  end.

(** [s.zfill(width)]: zeros on the left up to [width], after a leading sign. *)
Definition zfill (width : nat) (s : string) : string :=
  let fill := zeros (width - String.length s) in
  match s with
  | String c rest => if is_sign c then String c (fill +:+ rest) else fill +:+ s
  | EmptyString => fill
  end.

Fixpoint parse_digits (s : string) (acc : Z) : option Z :=
  match s with
  | EmptyString => Some acc
  | String c s' =>
      match digit_val c with
      | Some d => parse_digits s' (10 * acc + d)
      | None => None
      end
  end.

(** [int(s)] for the literals an optional sign and decimal digits make;
    [None] is the [ValueError].  (Python also accepts surrounding blanks and
    single underscores between digits; [str] of an integer has neither.) *)
Definition parse_int (s : string) : option Z :=
  match s with
  | String "-" (String _ _ as s') => Z.opp <$> parse_digits s' 0
  | String "+" (String _ _ as s') => parse_digits s' 0
  | String _ _ => parse_digits s 0
  | EmptyString => None
  end.

(** [astype(str)] of a cell. *)
Definition astype_str (v : pyval) : string :=
  match v with
  | PyInt z => str_of_Z z
  | PyStr s => s
  | PyNaN => "nan"
  | PyNone => "None"
  end.

(** *** Frames *)

(** [Series.median()]: missing values are skipped; the middle value of the
    sorted rest, or the mean of the two middle values; NaN ([None]) when
    nothing is left. *)
Definition median (values : list Qc) : option Qc :=
  let sorted := merge_sort Qcle values in
  let n := length sorted in
  if Nat.even n then
    match n with
    | O => None
    | _ =>
        lo ← sorted !! (n / 2 - 1)%nat;
        hi ← sorted !! (n / 2)%nat;
        Some ((lo + hi) / Q2Qc 2)%Qc
    end
  else sorted !! (n / 2)%nat.

(** [left.merge(right, on=..., how="left")]: every left row, in order, once
    per matching right row (in the right frame's order), or once with the
    right columns missing. *)
Definition merge_left {A B C : Type} (on : A -> B -> bool)
    (matched : A -> B -> C) (unmatched : A -> C)
    (left : list A) (right : list B) : list C :=
  flat_map (fun a =>
              match List.filter (on a) right with
              | [] => [unmatched a]
              | bs => map (matched a) bs
              end) left.

(** [df.drop_duplicates(subset=key)] keeps the first row of each key. *)
Fixpoint drop_duplicates_from {A K : Type} `{EqDecision K}
    (key : A -> K) (seen : list K) (df : list A) : list A :=
  match df with
  | [] => []
  | a :: df' =>
      if bool_decide (key a ∈ seen) then drop_duplicates_from key seen df'
      else a :: drop_duplicates_from key (key a :: seen) df'
  end.

Definition drop_duplicates {A K : Type} `{EqDecision K} (key : A -> K) (df : list A)
    : list A :=
  drop_duplicates_from key [] df.

(** [column.unique()]: the values of a column in the order of their first
    appearance. *)
Definition unique {A : Type} `{EqDecision A} (column : list A) : list A :=
  drop_duplicates id column.

(** [df.groupby(key).agg(count, sum)]: one entry per key that is not
    missing, holding the number of rows of the group that [counted] accepts
    and the sum of their [amount]s.  The grouped frame is read back only by a
    left merge on the key, which is a lookup. *)
Definition groupby_agg {A K : Type} `{Countable K}
    (key : A -> option K) (counted : A -> bool) (amount : A -> Z)
    (df : list A) : gmap K (Z * Z) :=
  foldr (fun a groups =>
           match key a with
           | Some k =>
               let '(n, total) := default (0, 0) (groups !! k) in
               <[k := ((if counted a then n + 1 else n), total + amount a)]> groups
           | None => groups
           end) ∅ df.

(** *** Text *)

(** A character of a text is a code point below U+0100.  [isspace] holds of
    the characters that [str.strip()] removes: U+0009 to U+000D, U+001C to
    U+0020, U+0085 and U+00A0. *)
Definition isspace (c : ascii) : bool :=
  let n := Z.of_N (N_of_ascii c) in
  ((9 <=? n) && (n <=? 13)) || ((28 <=? n) && (n <=? 32)) || (n =? 133) || (n =? 160).

(** A character that [\d] matches: a decimal digit, 0 to 9 alone below
    U+0100. *)
Definition isdecimal (c : ascii) : bool :=
  match digit_val c with
  | Some _ => true
  | None => false
  end.

(** A character of which [str.isdigit()] holds: a decimal digit or one of the
    superscripts two, three and one (U+00B2, U+00B3, U+00B9). *)
Definition isdigit_char (c : ascii) : bool :=
  let n := Z.of_N (N_of_ascii c) in
  isdecimal c || (n =? 178) || (n =? 179) || (n =? 185).

Fixpoint all_chars (p : ascii -> bool) (s : string) : bool :=
  match s with
  | EmptyString => true
  | String c s' => p c && all_chars p s'
  end.

(** [bool(s)]: a text is true when it is not empty. *)
Definition nonempty (s : string) : bool :=
  match s with
  | EmptyString => false
  | String _ _ => true
  end.

(** [s.isdigit()] *)
Definition isdigit (s : string) : bool := nonempty s && all_chars isdigit_char s.

Fixpoint lstrip (s : string) : string :=
  match s with
  | EmptyString => EmptyString
  | String c s' => if isspace c then lstrip s' else s
  end.

Fixpoint rstrip (s : string) : string :=
  match s with
  | EmptyString => EmptyString
  | String c s' =>
      match rstrip s' with
      | EmptyString => if isspace c then EmptyString else String c EmptyString
      | rest => String c rest
      end
  end.

(** [s.strip()] *)
Definition strip (s : string) : string := rstrip (lstrip s).

(** [s.replace(old, new)] for two characters. *)
Fixpoint replace_char (old new : ascii) (s : string) : string :=
  match s with
  | EmptyString => EmptyString
  | String c s' => String (if Ascii.eqb c old then new else c) (replace_char old new s')
  end.

(** [s.replace(old, '', 1)] for a character. *)
Fixpoint remove_first (old : ascii) (s : string) : string :=
  match s with
  | EmptyString => EmptyString
  | String c s' => if Ascii.eqb c old then s' else String c (remove_first old s')
  end.

(** [s.split(sep)] for a character: the fields between the separators, one
    more than there are separators. *)
Fixpoint split_on (sep : ascii) (s : string) : list string :=
  match s with
  | EmptyString => [EmptyString]
  | String c s' =>
      if Ascii.eqb c sep then EmptyString :: split_on sep s'
      else
        match split_on sep s' with
        | field :: fields => String c field :: fields
        | [] => [String c EmptyString]
        end
  end.

(** [value.replace('.', '', 1).isdigit()], with the test that [value] is not
    empty in front of it. *)
Definition looks_numeric (value : string) : bool :=
  nonempty value && isdigit (remove_first "." value).

(** [float(value)] for a text that [looks_numeric]: decimal digits around at
    most one point, at least one of them, give the number; a superscript digit
    raises ([None]).  The float is kept as the decimal fraction it is read
    from. *)
Definition float_of_decimal (value : string) : option Qc :=
  match split_on "." value with
  | [whole] =>
      if nonempty whole then (fun n => Q2Qc (inject_Z n)) <$> parse_digits whole 0
      else None
  | [whole; fraction] =>
      if nonempty whole || nonempty fraction then
        n ← parse_digits whole 0;
        m ← parse_digits fraction 0;
        Some (Q2Qc (inject_Z n + Qmake m (Z.to_pos (10 ^ Z.of_nat (String.length fraction)))))
      else None
  | _ => None
  end.

(** The line feed. *)
Definition newline : ascii := ascii_of_nat 10.

(** *** [int()] of a text *)

(** The white space that [int()] skips at either end of a text: U+0009 to
    U+000D, the blank, U+0085 and U+00A0 (not U+001C to U+001F, which
    [str.strip()] removes). *)
Definition int_space (c : ascii) : bool :=
  let n := Z.of_N (N_of_ascii c) in
  ((9 <=? n) && (n <=? 13)) || (n =? 32) || (n =? 133) || (n =? 160).

Fixpoint skip_spaces (s : string) : string :=
  match s with
  | EmptyString => EmptyString
  | String c s' => if int_space c then skip_spaces s' else s
  end.

Fixpoint drop_trailing_spaces (s : string) : string :=
  match s with
  | EmptyString => EmptyString
  | String c s' =>
      match drop_trailing_spaces s' with
      | EmptyString => if int_space c then EmptyString else String c EmptyString
      | rest => String c rest
      end
  end.

(** The digits of a literal without its underscores; [None] when a
    character is neither a decimal digit nor an underscore, when an underscore
    stands first, last or next to another one, and when there is no digit.
    [after_digit] tells that the character before was a digit. *)
Fixpoint literal_digits (after_digit : bool) (s : string) : option string :=
  match s with
  | EmptyString => if after_digit then Some EmptyString else None
  | String c s' =>
      if Ascii.eqb c "_" then
        if after_digit then literal_digits false s' else None
      else if isdecimal c then String c <$> literal_digits true s'
      else None
  end.

(** [int(s)] in base 10: white space at either end, one optional sign,
    decimal digits with single underscores between them; [None] is the
    [ValueError]. *)
Definition int_of_text (s : string) : option Z :=
  match drop_trailing_spaces (skip_spaces s) with
  | String "-" rest => ds ← literal_digits false rest; Z.opp <$> parse_digits ds 0
  | String "+" rest => ds ← literal_digits false rest; parse_digits ds 0
  | literal => ds ← literal_digits false literal; parse_digits ds 0
  end.

End Py.

Import Py.

(** ** [code/etl.py] *)

Module Etl.

(** [get_season(month)] *)
Definition get_season (month : pyval) : string :=
  if in_ints month [12; 1; 2] then "Summer"
  else if in_ints month [3; 4; 5] then "Autumn"
  else if in_ints month [6; 7; 8] then "Winter"
  else "Spring".

(** *** The loaded frames and the year filter *)

(** A row of [fatal_crash] after [clean_missing_values] and
    [pd.to_numeric(..., errors='coerce')]: [Year] is an integer or NaN,
    [Month] an integer, [Number Fatalities] an integer or NaN. *)
Record crash_record : Type := {
  Crash_ID : pyval;
  State : pyval;
  Month : Z;
  Year : option Z;
  Dayweek : pyval;
  Time : pyval;
  Crash_Type : pyval;
  Number_Fatalities : option Z;
  Bus_Involvement : pyval;
  Heavy_Rigid_Truck_Involvement : pyval;
  Articulated_Truck_Involvement : pyval;
  Speed_Limit : pyval;
  National_Remoteness_Areas : pyval;
  SA4_Name_2021 : pyval;
  National_LGA_Name_2021 : pyval;
  National_Road_Type : pyval;
  Christmas_Period : pyval;
  Easter_Period : pyval;
  Day_of_week : pyval;
  Time_of_Day : pyval
}.

(** A row of [fatalities] after the same two steps. *)
Record fatality_record : Type := {
  f_Crash_ID : pyval;
  f_Year : option Z;
  f_Road_User : pyval;
  f_Gender : pyval;
  f_Age : option Qc;
  f_Age_Group : pyval
}.

(** [(df['Year'] >= 2001) & (df['Year'] <= 2023)]; a NaN year fails both. *)
Definition in_window (year : option Z) : bool :=
  match year with
  | Some y => (2001 <=? y) && (y <=? 2023)
  | None => false
  end.

Definition filter_crashes (fatal_crash : list crash_record) : list crash_record :=
  List.filter (fun c => in_window (Year c)) fatal_crash.

Definition set_Time (c : crash_record) (time : pyval) : crash_record :=
  {| Crash_ID := Crash_ID c; State := State c; Month := Month c; Year := Year c;
     Dayweek := Dayweek c; Time := time; Crash_Type := Crash_Type c;
     Number_Fatalities := Number_Fatalities c;
     Bus_Involvement := Bus_Involvement c;
     Heavy_Rigid_Truck_Involvement := Heavy_Rigid_Truck_Involvement c;
     Articulated_Truck_Involvement := Articulated_Truck_Involvement c;
     Speed_Limit := Speed_Limit c;
     National_Remoteness_Areas := National_Remoteness_Areas c;
     SA4_Name_2021 := SA4_Name_2021 c;
     National_LGA_Name_2021 := National_LGA_Name_2021 c;
     National_Road_Type := National_Road_Type c;
     Christmas_Period := Christmas_Period c; Easter_Period := Easter_Period c;
     Day_of_week := Day_of_week c; Time_of_Day := Time_of_Day c |}.

(** [fatal_crash['Time'].dtype == 'object']: the column holds a string (or
    [None]) somewhere. *)
Definition is_object (column : list pyval) : bool :=
  existsb (fun v => match v with
                    | PyStr _ | PyNone => true
                    | _ => false
                    end) column.

(** [s.replace(':', '')] *)
Fixpoint remove_colons (s : string) : string :=
  match s with
  | EmptyString => EmptyString
  | String c s' => if Ascii.eqb c ":" then remove_colons s' else String c (remove_colons s')
  end.

(** The four steps on a cell of [Time]: to text, without colons, padded to
    four characters, a colon between the first two and the next two. *)
Definition standard_time (v : pyval) : pyval :=
  let s := zfill 4 (remove_colons (astype_str v)) in
  PyStr (String.substring 0 2 s +:+ ":" +:+ String.substring 2 2 s).

(** The step under [if fatal_crash['Time'].dtype == 'object'], on a frame
    whose [Time] column has that dtype or not. *)
Definition standardize_time (dtype_object : bool) (fatal_crash : list crash_record)
    : list crash_record :=
  if dtype_object
  then (fun c => set_Time c (standard_time (Time c))) <$> fatal_crash
  else fatal_crash.

(** [fatal_crash] as the dimensions are extracted from it: filtered by year,
    with its [Time] column standardized.  The dtype of the column is that of
    the loaded column, which the year filter keeps: the rows left in the window
    are standardized when any loaded row holds a text.  ([Date] is kept as text
    where it is used; [pd.to_datetime] is not modelled.) *)
Definition prepare_crashes (fatal_crash : list crash_record) : list crash_record :=
  standardize_time (is_object (Time <$> fatal_crash)) (filter_crashes fatal_crash).

(** [set(fatal_crash['Crash ID'].unique())] *)
Definition valid_crash_ids (fatal_crash : list crash_record) : gset pyval :=
  list_to_set (Crash_ID <$> fatal_crash).

(** The year filter on [fatalities], then [isin(valid_crash_ids)].  Membership
    is equality of cells: a fatality without [Crash ID] is kept here when a
    crash lacks its identifier too, where [isin] may drop it, so the rows of
    the program are among the rows of this frame. *)
Definition filter_fatalities (fatalities : list fatality_record)
    (fatal_crash : list crash_record) : list fatality_record :=
  let fatalities := List.filter (fun f => in_window (f_Year f)) fatalities in
  List.filter (fun f => bool_decide (f_Crash_ID f ∈ valid_crash_ids fatal_crash)) fatalities.

(** [Year.astype(str) + '-' + Month.astype(str).str.zfill(2)], the text of
    both [Date] (followed by ['-01']) and [Year-Month]. *)
Definition year_text (year : option Z) : string :=
  match year with
  | Some y => str_of_Z y
  | None => "nan"
  end.

Definition year_month (c : crash_record) : string :=
  year_text (Year c) +:+ "-" +:+ zfill 2 (str_of_Z (Month c)).

(** *** Dimensions 1, 2, 3, 5 and 7 *)

Record location_row : Type := {
  loc_Crash_ID : pyval;
  loc_State : pyval;
  loc_National_Remoteness_Areas : pyval;
  loc_SA4_Name_2021 : pyval;
  loc_National_LGA_Name_2021 : pyval
}.

#[global] Instance location_row_eq_dec : EqDecision location_row.
Proof. solve_decision. Defined.

(** [fillna('Unknown')] on a cell. *)
Definition fillna_unknown (v : pyval) : pyval :=
  if isna v then PyStr "Unknown" else v.

Definition location_dim (fatal_crash : list crash_record) : list location_row :=
  drop_duplicates id
    ((fun c => {| loc_Crash_ID := Crash_ID c;
                  loc_State := State c;
                  loc_National_Remoteness_Areas := National_Remoteness_Areas c;
                  loc_SA4_Name_2021 := fillna_unknown (SA4_Name_2021 c);
                  loc_National_LGA_Name_2021 := fillna_unknown (National_LGA_Name_2021 c) |})
       <$> fatal_crash).

Record vehicle_row : Type := {
  veh_Crash_ID : pyval;
  veh_Bus_Involvement : pyval;
  veh_Heavy_Rigid_Truck_Involvement : pyval;
  veh_Articulated_Truck_Involvement : pyval
}.

#[global] Instance vehicle_row_eq_dec : EqDecision vehicle_row.
Proof. solve_decision. Defined.

Definition vehicle_dim (fatal_crash : list crash_record) : list vehicle_row :=
  drop_duplicates id
    ((fun c => {| veh_Crash_ID := Crash_ID c;
                  veh_Bus_Involvement := Bus_Involvement c;
                  veh_Heavy_Rigid_Truck_Involvement := Heavy_Rigid_Truck_Involvement c;
                  veh_Articulated_Truck_Involvement := Articulated_Truck_Involvement c |})
       <$> fatal_crash).

Record road_condition_row : Type := {
  road_Crash_ID : pyval;
  road_Speed_Limit : pyval;
  road_National_Road_Type : pyval
}.

#[global] Instance road_condition_row_eq_dec : EqDecision road_condition_row.
Proof. solve_decision. Defined.

Definition road_condition_dim (fatal_crash : list crash_record) : list road_condition_row :=
  drop_duplicates id
    ((fun c => {| road_Crash_ID := Crash_ID c;
                  road_Speed_Limit := Speed_Limit c;
                  road_National_Road_Type := National_Road_Type c |})
       <$> fatal_crash).

Record time_row : Type := {
  time_Crash_ID : pyval;
  time_Month : Z;
  time_Year : option Z;
  time_Dayweek : pyval;
  time_Time : pyval;
  time_Day_of_week : pyval;
  time_Time_of_Day : pyval;
  time_Christmas_Period : pyval;
  time_Easter_Period : pyval;
  time_Date : string
}.

#[global] Instance time_row_eq_dec : EqDecision time_row.
Proof. solve_decision. Defined.

Definition time_dim (fatal_crash : list crash_record) : list time_row :=
  drop_duplicates id
    ((fun c => {| time_Crash_ID := Crash_ID c;
                  time_Month := Month c;
                  time_Year := Year c;
                  time_Dayweek := Dayweek c;
                  time_Time := Time c;
                  time_Day_of_week := Day_of_week c;
                  time_Time_of_Day := Time_of_Day c;
                  time_Christmas_Period := Christmas_Period c;
                  time_Easter_Period := Easter_Period c;
                  time_Date := year_month c +:+ "-01" |})
       <$> fatal_crash).

Record crash_type_row : Type := {
  ct_Crash_ID : pyval;
  ct_Crash_Type : pyval;
  ct_Number_Fatalities : option Z
}.

#[global] Instance crash_type_row_eq_dec : EqDecision crash_type_row.
Proof. solve_decision. Defined.

Definition crash_type_dim (fatal_crash : list crash_record) : list crash_type_row :=
  drop_duplicates id
    ((fun c => {| ct_Crash_ID := Crash_ID c;
                  ct_Crash_Type := Crash_Type c;
                  ct_Number_Fatalities := Number_Fatalities c |})
       <$> fatal_crash).

(** *** Dimension 4: drivers, with the age repair *)

Record driver_row : Type := {
  drv_Crash_ID : pyval;
  drv_Road_User : pyval;
  drv_Gender : pyval;
  drv_Age : option Qc;
  drv_Age_Group : pyval
}.

#[global] Instance driver_row_eq_dec : EqDecision driver_row.
Proof. solve_decision. Defined.

Definition set_Age (r : driver_row) (age : option Qc) : driver_row :=
  {| drv_Crash_ID := drv_Crash_ID r;
     drv_Road_User := drv_Road_User r;
     drv_Gender := drv_Gender r;
     drv_Age := age;
     drv_Age_Group := drv_Age_Group r |}.

(** [driver_dim['Age'].median()] *)
Definition overall_median (driver_dim : list driver_row) : option Qc :=
  median (omap drv_Age driver_dim).

(** [driver_dim[driver_dim['Age Group'] == age_group]['Age'].median()] *)
Definition group_median (driver_dim : list driver_row) (age_group : pyval) : option Qc :=
  median (omap drv_Age
            (List.filter (fun r => bool_decide (drv_Age_Group r = age_group)) driver_dim)).

(** [age_group == 'Unknown' or age_group == '-9']; [fix_driver_age.py] tests
    'Unknown' alone. *)
Definition is_unknown (unknown : list string) (age_group : pyval) : bool :=
  match age_group with
  | PyStr g => bool_decide (g ∈ unknown)
  | _ => false
  end.

(** The body of the loop that fills [age_group_mapping]. *)
Definition mapping_step (unknown : list string) (driver_dim : list driver_row)
    (mapping : gmap pyval (option Qc)) (age_group : pyval) : gmap pyval (option Qc) :=
  if is_unknown unknown age_group then mapping
  else <[age_group := group_median driver_dim age_group]> mapping.

(** [age_group_mapping]: the loop over
    [driver_dim['Age Group'].dropna().unique()]. *)
Definition age_group_mapping (unknown : list string) (driver_dim : list driver_row)
    : gmap pyval (option Qc) :=
  foldl (mapping_step unknown driver_dim) ∅
        (unique (List.filter (fun g => negb (isna g)) (drv_Age_Group <$> driver_dim))).

(** [get_median_age(age_group)] *)
Definition get_median_age (unknown : list string) (driver_dim : list driver_row)
    (mapping : gmap pyval (option Qc)) (age_group : pyval) : option Qc :=
  if isna age_group || is_unknown unknown age_group then overall_median driver_dim
  else default (overall_median driver_dim) (mapping !! age_group).

(** The assignment to [driver_dim.loc[driver_dim['Age'].isnull(), 'Age']]:
    the right-hand side is computed on the frame as it stands, then the ages
    missing are written all at once. *)
Definition assign_group_medians (unknown : list string) (driver_dim : list driver_row)
    : list driver_row :=
  let mapping := age_group_mapping unknown driver_dim in
  (fun r => match drv_Age r with
            | None => set_Age r (get_median_age unknown driver_dim mapping (drv_Age_Group r))
            | Some _ => r
            end) <$> driver_dim.

(** [driver_dim['Age'].fillna(overall_median)] *)
Definition fillna_Age (value : option Qc) (driver_dim : list driver_row) : list driver_row :=
  (fun r => match drv_Age r with
            | None => set_Age r value
            | Some _ => r
            end) <$> driver_dim.

(** The block under [if driver_dim['Age'].isnull().sum() > 0]: after the
    assignment the median of the column is taken anew for [fillna]. *)
Definition fix_missing_ages (unknown : list string) (driver_dim : list driver_row)
    : list driver_row :=
  if existsb (fun r => bool_decide (drv_Age r = None)) driver_dim then
    let driver_dim := assign_group_medians unknown driver_dim in
    let overall_median := overall_median driver_dim in
    fillna_Age overall_median driver_dim
  else driver_dim.

Definition unknown_labels : list string := ["Unknown"; "-9"].

Definition driver_dim (fatalities : list fatality_record) : list driver_row :=
  drop_duplicates id
    (fix_missing_ages unknown_labels
       ((fun f => {| drv_Crash_ID := f_Crash_ID f;
                     drv_Road_User := f_Road_User f;
                     drv_Gender := f_Gender f;
                     drv_Age := f_Age f;
                     drv_Age_Group := f_Age_Group f |})
          <$> fatalities)).

(** *** Dimension 8: seasons *)

Record season_row : Type := {
  sea_Year : option Z;
  sea_Month : Z;
  sea_Season : string;
  sea_Quarter : Z;
  sea_Is_Holiday_Season : Z;
  sea_Is_School_Holiday : Z;
  sea_Tourism_Season : string;
  sea_Date : string;
  sea_Season_ID : string
}.

(** [fatal_crash[['Year', 'Month']].drop_duplicates()] *)
Definition year_month_combinations (fatal_crash : list crash_record) : list (option Z * Z) :=
  drop_duplicates id ((fun c => (Year c, Month c)) <$> fatal_crash).

(** The body of the loop over [year_month_combinations], and the
    [Season_ID] column added to the frame built from [season_rows]. *)
Definition season_of (ym : option Z * Z) : season_row :=
  let year := ym.1 in
  let month := ym.2 in
  let quarter := (month - 1) / 3 + 1 in
  {| sea_Year := year;
     sea_Month := month;
     sea_Season := get_season (PyInt month);
     sea_Quarter := quarter;
     sea_Is_Holiday_Season := if in_ints (PyInt month) [11; 12; 1] then 1 else 0;
     sea_Is_School_Holiday := if in_ints (PyInt month) [1; 4; 7; 9; 10] then 1 else 0;
     sea_Tourism_Season :=
       if in_ints (PyInt month) [12; 1; 2] then "Peak"
       else if in_ints (PyInt month) [6; 7] then "Secondary Peak"
       else "Off Peak";
     sea_Date := year_text year +:+ "-" +:+ zfill 2 (str_of_Z month) +:+ "-01";
     sea_Season_ID := year_text year +:+ "_" +:+ str_of_Z quarter |}.

Definition season_dim (fatal_crash : list crash_record) : list season_row :=
  season_of <$> year_month_combinations fatal_crash.

(** *** Dimension 6: population by remoteness area *)

Definition remoteness_categories : list string :=
  ["Major Cities"; "Inner Regional"; "Outer Regional"; "Remote"; "Very Remote"].

Definition states : list string :=
  ["NSW"; "Vic"; "Qld"; "SA"; "WA"; "Tas"; "NT"; "ACT"].

(** A row of [remoteness_df]. *)
Record remoteness_row : Type := {
  ref_State : string;
  ref_Remoteness_Category : string;
  ref_Remoteness_Area : string;
  ref_Population : Qc
}.

(** The row appended to [remoteness_data] for a state, a category and the
    first numeric token of the category's line. *)
Definition remoteness_record (state category : string) (value : Qc) : remoteness_row :=
  {| ref_State := state;
     ref_Remoteness_Category := category;
     ref_Remoteness_Area := category +:+ " Australia (" +:+ state +:+ ")";
     ref_Population := value |}.

(** The loop over [remoteness_df.iterrows()] for one area: the exact and the
    partial branch assign [best_match] and [break]; the category-and-state
    branch assigns and goes on. *)
Fixpoint match_rows (area : string) (rows : list remoteness_row)
    (best_match : option remoteness_row) : option remoteness_row :=
  match rows with
  | [] => best_match
  | row :: rest =>
      let ref_area := ref_Remoteness_Area row in
      if String.eqb area ref_area then Some row
      else if contains ref_area area then Some row
      else if contains (ref_Remoteness_Category row) area
              && contains (ref_State row) area
      then match_rows area rest (Some row)
      else match_rows area rest best_match
  end.

(** [mapping]: the first loop over [unique_remoteness]; cells that are not
    strings are skipped. *)
Fixpoint build_mapping (unique_remoteness : list pyval) (remoteness_df : list remoteness_row)
    (mapping : gmap string remoteness_row) : gmap string remoteness_row :=
  match unique_remoteness with
  | [] => mapping
  | PyStr area :: rest =>
      match match_rows area remoteness_df None with
      | Some best_match => build_mapping rest remoteness_df (<[area := best_match]> mapping)
      | None => build_mapping rest remoteness_df mapping
      end
  | _ :: rest => build_mapping rest remoteness_df mapping
  end.

(** A row of the population dimension. *)
Record population_entry : Type := {
  pop_Remoteness_Area : string;
  pop_State : string;
  pop_Population : option Qc;
  pop_Data_Source : string
}.

(** [state = 'Unknown'; for s in states: if s in area: state = s; break] *)
Definition state_of_area (area : string) : string :=
  match List.find (fun s => contains s area) states with
  | Some s => s
  | None => "Unknown"
  end.

Definition entry_of (area : string) (population : option Qc) : population_entry :=
  {| pop_Remoteness_Area := area;
     pop_State := state_of_area area;
     pop_Population := population;
     pop_Data_Source := match population with
                        | Some _ => "Reference Data"
                        | None => "Derived"
                        end |}.

(** [remoteness_entries], both branches of [if not remoteness_df.empty]. *)
Definition remoteness_entries (unique_remoteness : list pyval)
    (remoteness_df : list remoteness_row) : list population_entry :=
  match remoteness_df with
  | [] =>
      omap (fun area => match area with
                        | PyStr a => Some (entry_of a None)
                        | _ => None
                        end) unique_remoteness
  | _ =>
      let mapping := build_mapping unique_remoteness remoteness_df ∅ in
      omap (fun area => match area with
                        | PyStr a => Some (entry_of a (ref_Population <$> mapping !! a))
                        | _ => None
                        end) unique_remoteness
  end.

(** [fatal_crash['National Remoteness Areas'].dropna().unique()] *)
Definition unique_remoteness (fatal_crash : list crash_record) : list pyval :=
  unique (List.filter (fun v => negb (isna v)) (National_Remoteness_Areas <$> fatal_crash)).

(** [population_dimension.csv]: the entries, or, when there is none, the
    distinct pairs of [State] and [National Remoteness Areas]. *)
Inductive population_frame : Type :=
  | PopulationEntries (entries : list population_entry)
  | PopulationBasic (pairs : list (pyval * pyval)).

Definition population_dim (fatal_crash : list crash_record)
    (remoteness_df : list remoteness_row) : population_frame :=
  match remoteness_entries (unique_remoteness fatal_crash) remoteness_df with
  | [] =>
      PopulationBasic
        (drop_duplicates id
           (List.filter (fun sa => negb (isna sa.1) && negb (isna sa.2))
              ((fun c => (State c, National_Remoteness_Areas c)) <$> fatal_crash)))
  | entries => PopulationEntries entries
  end.

(** *** The LGA dimension *)

(** A row of [lga_df]. *)
Record lga_reference_row : Type := {
  LGA_Code : string;
  LGA_Name : string;
  LGA_Population : Qc
}.

(** A row of [lga_dimension.csv]. *)
Record lga_entry : Type := {
  lga_LGA_Name : string;
  lga_Population : option Qc;
  lga_Data_Source : string
}.

(** [fatal_crash['National LGA Name 2021'].dropna().unique()] *)
Definition unique_lgas (fatal_crash : list crash_record) : list pyval :=
  unique (List.filter (fun v => negb (isna v)) (National_LGA_Name_2021 <$> fatal_crash)).

(** [lga_entries], both branches of [if not lga_df.empty].  [str.contains]
    searches its argument as a regular expression: [regex_search pat s] stands
    for that search of [pat] in [s]. *)
Definition lga_entries (regex_search : string -> string -> bool)
    (unique_lgas : list pyval) (lga_df : list lga_reference_row) : list lga_entry :=
  omap (fun lga =>
          match lga with
          | PyStr name =>
              if String.eqb name "Unknown" then None
              else
                match List.filter (fun row => regex_search name (LGA_Name row)) lga_df with
                | row :: _ =>
                    Some {| lga_LGA_Name := name;
                            lga_Population := Some (LGA_Population row);
                            lga_Data_Source := "Reference Data" |}
                | [] =>
                    Some {| lga_LGA_Name := name;
                            lga_Population := None;
                            lga_Data_Source := "Derived" |}
                end
          | _ => None
          end) unique_lgas.

(** *** The fact table *)

Record fact_row : Type := {
  fact_Crash_ID : pyval;
  fact_State : pyval;
  fact_Number_Fatalities : option Z;
  fact_Year : option Z;
  fact_Month : Z;
  fact_Date : string;
  fact_Monthly_Crash_Count : option Z;
  fact_Monthly_Fatality_Count : option Z;
  fact_Season : option string;
  fact_Season_ID : option string
}.

#[global] Instance fact_row_eq_dec : EqDecision fact_row.
Proof. solve_decision. Defined.

(** [fatal_crash.groupby('Year-Month').agg(Monthly_Crash_Count=('Crash ID',
    'count'), Monthly_Fatality_Count=('Number Fatalities', 'sum'))] *)
Definition monthly_counts (fatal_crash : list crash_record) : gmap string (Z * Z) :=
  groupby_agg (fun c => Some (year_month c))
              (fun c => negb (isna (Crash_ID c)))
              (fun c => default 0 (Number_Fatalities c)) fatal_crash.

(** The three left merges: with [fatal_crash[['Crash ID', 'Year-Month']]] on
    [Crash ID], with [monthly_counts] on [Year-Month], with [season_lookup]
    on [Year] and [Month]; then [Year-Month] is dropped and duplicate rows are
    removed. *)
Definition fact_table (fatal_crash : list crash_record) (season_dim : list season_row)
    : list fact_row :=
  let counts := monthly_counts fatal_crash in
  let with_key : list (crash_record * option string) :=
    merge_left (fun c c' => bool_decide (Crash_ID c = Crash_ID c'))
               (fun c c' => (c, Some (year_month c'))) (fun c => (c, None))
               fatal_crash fatal_crash in
  let with_counts : list (crash_record * option (Z * Z)) :=
    (fun ck => (ck.1, ck.2 ≫= (fun k => counts !! k))) <$> with_key in
  let row (cn : crash_record * option (Z * Z)) (s : option season_row) : fact_row :=
    {| fact_Crash_ID := Crash_ID cn.1;
       fact_State := State cn.1;
       fact_Number_Fatalities := Number_Fatalities cn.1;
       fact_Year := Year cn.1;
       fact_Month := Month cn.1;
       fact_Date := year_month cn.1 +:+ "-01";
       fact_Monthly_Crash_Count := fst <$> cn.2;
       fact_Monthly_Fatality_Count := snd <$> cn.2;
       fact_Season := sea_Season <$> s;
       fact_Season_ID := sea_Season_ID <$> s |} in
  drop_duplicates id
    (merge_left (fun cn s => bool_decide (Year cn.1 = sea_Year s)
                             && bool_decide (Month cn.1 = sea_Month s))
                (fun cn s => row cn (Some s)) (fun cn => row cn None)
                with_counts season_dim).

(** *** The run *)

Record outputs : Type := {
  out_location : list location_row;
  out_vehicle : list vehicle_row;
  out_road_condition : list road_condition_row;
  out_driver : list driver_row;
  out_time : list time_row;
  out_population : population_frame;
  out_lga : list lga_entry;
  out_crash_type : list crash_type_row;
  out_season : list season_row;
  out_fact : list fact_row
}.

(** The module body from the year filter on, given the two loaded frames and
    the two reference frames.  The tables are those the run writes when no step
    raises; the steps that can raise outside the [try] of the loading part
    ([pd.to_datetime], a name that is no regular expression) are not modelled.
    [out_lga] is written only when it has a row. *)
Definition run (regex_search : string -> string -> bool)
    (fatal_crash : list crash_record) (fatalities : list fatality_record)
    (remoteness_df : list remoteness_row) (lga_df : list lga_reference_row) : outputs :=
  let fatal_crash := prepare_crashes fatal_crash in
  let fatalities := filter_fatalities fatalities fatal_crash in
  let season_dim := season_dim fatal_crash in
  {| out_location := location_dim fatal_crash;
     out_vehicle := vehicle_dim fatal_crash;
     out_road_condition := road_condition_dim fatal_crash;
     out_driver := driver_dim fatalities;
     out_time := time_dim fatal_crash;
     out_population := population_dim fatal_crash remoteness_df;
     out_lga := lga_entries regex_search (unique_lgas fatal_crash) lga_df;
     out_crash_type := crash_type_dim fatal_crash;
     out_season := season_dim;
     out_fact := fact_table fatal_crash season_dim |}.

(** *** Loading: column names and the two reference files *)

(** [clean_column_names]: [col.strip().replace('\n', ' ')] on every name. *)
Definition clean_column_name (col : string) : string :=
  replace_char newline " " (strip col).

Definition clean_column_names (columns : list string) : list string :=
  clean_column_name <$> columns.

(** The header row of the LGA file is the first line that holds 'LGA',
    'Code' and 'Name'. *)
Definition is_lga_header (line : string) : bool :=
  contains "LGA" line && contains "Code" line && contains "Name" line.

(** [lines[header_row + 1:]], or [None] when [header_row] stays -1. *)
Fixpoint lines_after_header (lines : list string) : option (list string) :=
  match lines with
  | [] => None
  | line :: rest => if is_lga_header line then Some rest else lines_after_header rest
  end.

(** The body of the loop over the lines that follow the header: a line with
    more than two fields whose first three, stripped, are a code, a name and
    a number gives a row; a [float] that raises skips the line. *)
Definition lga_record (line : string) : option lga_reference_row :=
  match split_on "," (strip line) with
  | code :: name :: population :: _ =>
      let code := strip code in
      let name := strip name in
      let population := strip population in
      if nonempty code && nonempty name && looks_numeric population then
        value ← float_of_decimal population;
        Some {| LGA_Code := code; LGA_Name := name; LGA_Population := value |}
      else None
  | _ => None
  end.

(** [lga_df], from the lines of [local_government_areas.csv]. *)
Definition lga_data (lines : list string) : list lga_reference_row :=
  match lines_after_header lines with
  | Some rest => omap lga_record rest
  | None => []
  end.

(** [state_indices[state] = i] on a dict, which keeps its keys in the order
    in which they were first set. *)
Fixpoint dict_set (state : string) (i : nat) (state_indices : list (string * nat))
    : list (string * nat) :=
  match state_indices with
  | [] => [(state, i)]
  | (s, j) :: rest =>
      if String.eqb s state then (s, i) :: rest else (s, j) :: dict_set state i rest
  end.

(** The first loop over the lines of [remoteness_areas.csv]: a line that
    holds 'Australia' sets the index of the first state it holds. *)
Fixpoint find_states (i : nat) (lines : list string) (state_indices : list (string * nat))
    : list (string * nat) :=
  match lines with
  | [] => state_indices
  | line :: rest =>
      find_states (S i) rest
        match List.find (fun state => contains state line && contains "Australia" line)
                        states with
        | Some state => dict_set state i state_indices
        | None => state_indices
        end
  end.

Definition state_indices (lines : list string) : list (string * nat) :=
  find_states 0 lines [].

(** The loop over the values of a line: the first value that looks like a
    number is read; no record when there is none or [float] raises. *)
Definition first_population (line : string) : option Qc :=
  match List.find looks_numeric (strip <$> split_on "," (strip line)) with
  | Some value => float_of_decimal value
  | None => None
  end.

(** The loop over [range(start_idx, min(start_idx + 10, len(lines)))] for a
    state and a category: the first line that holds the category is the only
    one read. *)
Definition category_record (lines : list string) (state : string) (start_idx : nat)
    (category : string) : option remoteness_row :=
  match List.find (contains category) (take 10 (drop start_idx lines)) with
  | Some line => remoteness_record state category <$> first_population line
  | None => None
  end.

(** [remoteness_df], from the lines of [remoteness_areas.csv]. *)
Definition remoteness_data (lines : list string) : list remoteness_row :=
  flat_map (fun si => omap (category_record lines si.1 si.2) remoteness_categories)
           (state_indices lines).

End Etl.

(** ** [code/creat_fact_table.py] *)

Module CreatFactTable.

(** [crash_type_dimension.csv] *)
Record crash_row : Type := {
  c_crash_id : pyval;
  c_crash_type : pyval;
  c_fatalities : option Z
}.

(** [season_dimension.csv]: the columns [create_fact_table] reads. *)
Record season_row : Type := {
  s_year : Z;
  s_month : Z;
  s_season_id : pyval
}.

(** [driver_dimension.csv]: the columns [create_fact_table] reads. *)
Record driver_row : Type := {
  d_crash_id : pyval;
  d_driver_id : pyval
}.

(** [location_dimension.csv]: the columns [create_fact_table] reads. *)
Record location_row : Type := {
  l_location_id : pyval;
  l_state : option string
}.

(** [population_dimension.csv]: the columns [create_fact_table] reads. *)
Record population_row : Type := {
  p_population_id : pyval;
  p_state : option string;
  p_year : option Z
}.

(** A row of [fact_df].  A column holds [None] where a left merge found no
    partner (NaN), and before the step that adds it. *)
Record fact_row : Type := {
  fact_id : Z;
  crash_id : pyval;
  fatalities : option Z;
  year : Z;
  state : option string;
  season_id : option pyval;
  time_id : option Z;
  driver_count : option Z;
  location_id : option pyval;
  population_id : option pyval;
  yearly_crash_count : option Z;
  yearly_fatality_count : option Z
}.

(** [fact_df["crash_id"].astype(str).str[:4].astype(int)], which reads each
    text as [int()] does; [None] is the [ValueError] of [astype(int)]. *)
Definition decode_year (crash_id : pyval) : option Z :=
  int_of_text (String.substring 0 4 (astype_str crash_id)).

(** The dictionary given to [map]. *)
Definition jurisdictions : gmap string string :=
  list_to_map
    [("1", "NSW"); ("2", "VIC"); ("3", "QLD"); ("4", "SA");
     ("5", "WA"); ("6", "TAS"); ("7", "NT"); ("8", "ACT")].

(** [fact_df["crash_id"].astype(str).str[4].map({...})]; [None] is NaN. *)
Definition decode_state (crash_id : pyval) : option string :=
  match String.get 4 (astype_str crash_id) with
  | Some c => jurisdictions !! String c ""
  | None => None
  end.

(** Step 3: the copy of [crash_df] with [fact_id], [year] and [state]. *)
Definition base_row (i : nat) (c : crash_row) : option fact_row :=
  y ← decode_year (c_crash_id c);
  Some {| fact_id := Z.of_nat i + 1;
          crash_id := c_crash_id c;
          fatalities := c_fatalities c;
          year := y;
          state := decode_state (c_crash_id c);
          season_id := None; time_id := None; driver_count := None;
          location_id := None; population_id := None;
          yearly_crash_count := None; yearly_fatality_count := None |}.

(** [range(1, len(fact_df) + 1)] runs along the rows; one failing row fails
    the column. *)
Fixpoint base_rows_from (i : nat) (crash_df : list crash_row) : option (list fact_row) :=
  match crash_df with
  | [] => Some []
  | c :: rest =>
      r ← base_row i c;
      rs ← base_rows_from (S i) rest;
      Some (r :: rs)
  end.

Definition base_rows (crash_df : list crash_row) : option (list fact_row) :=
  base_rows_from 0 crash_df.

(** Step 4: [season_df["month"].astype(str).str.zfill(2)] and
    [(season_df["year"].astype(str) + season_df["month"]).astype(int)]. *)
Definition time_id_text (s : season_row) : string :=
  str_of_Z (s_year s) +:+ zfill 2 (str_of_Z (s_month s)).

Definition time_id_of (s : season_row) : option Z :=
  parse_int (time_id_text s).

Definition with_time_id (season_df : list season_row) : option (list (season_row * Z)) :=
  mapM (fun s => t ← time_id_of s; Some (s, t)) season_df.

Definition season_ref (season_df : list (season_row * Z)) : list (season_row * Z) :=
  drop_duplicates (fun st => s_year st.1) season_df.

Definition set_season (r : fact_row) (st : season_row * Z) : fact_row :=
  {| fact_id := fact_id r; crash_id := crash_id r; fatalities := fatalities r;
     year := year r; state := state r;
     season_id := Some (s_season_id st.1); time_id := Some st.2;
     driver_count := driver_count r;
     location_id := location_id r; population_id := population_id r;
     yearly_crash_count := yearly_crash_count r;
     yearly_fatality_count := yearly_fatality_count r |}.

Definition merge_season (fact_df : list fact_row) (ref : list (season_row * Z))
    : list fact_row :=
  merge_left (fun r st => bool_decide (year r = s_year st.1)) set_season id fact_df ref.

(** Step 7: [driver_df.groupby("crash_id")["driver_id"].count()], merged on
    [crash_id], then [fillna(0)]. *)
Definition group_key (v : pyval) : option pyval :=
  if isna v then None else Some v.

Definition has_driver_id (d : driver_row) : bool := negb (isna (d_driver_id d)).

Definition driver_counts (driver_df : list driver_row) : gmap pyval (Z * Z) :=
  groupby_agg (fun d => group_key (d_crash_id d))
              has_driver_id (fun _ => 0) driver_df.

Definition set_driver_count (r : fact_row) (n : option Z) : fact_row :=
  {| fact_id := fact_id r; crash_id := crash_id r; fatalities := fatalities r;
     year := year r; state := state r;
     season_id := season_id r; time_id := time_id r;
     driver_count := n;
     location_id := location_id r; population_id := population_id r;
     yearly_crash_count := yearly_crash_count r;
     yearly_fatality_count := yearly_fatality_count r |}.

(** The rows of the merge with [driver_counts], after [fillna(0)]. *)
Definition driver_count_join (fact_df : list fact_row) (driver_df : list driver_row)
    : list fact_row :=
  let counts := driver_counts driver_df in
  map (fun r =>
         let merged := group_key (crash_id r) ≫= (fun k => fst <$> counts !! k) in
         set_driver_count r (Some (default 0 merged))) fact_df.

(** A cell that holds a text. *)
Definition is_text (v : pyval) : bool :=
  match v with
  | PyStr _ => true
  | _ => false
  end.

(** The dtype of a column of identifiers as [read_csv] gives it: object for
    a column without rows and for a column that holds a text, a dtype of
    numbers otherwise. *)
Definition object_column (column : list pyval) : bool :=
  match column with
  | [] => true
  | _ :: _ => Etl.is_object column
  end.

(** The check that [merge] makes of the key [crash_id] before it joins.
    [left] is the column of [fact_df], [driver_column] that of [driver_df],
    whose values other than the missing ones are the keys of [driver_counts].
    With rows on one side only there is no check.  Else, when one column is
    of dtype object and the other of numbers, pandas raises a [ValueError]
    if the values of the object column are texts only (none but texts, also
    when there is none). *)
Definition crash_id_keys_merge (left driver_column : list pyval) : bool :=
  let keys := List.filter (fun v => negb (isna v)) driver_column in
  match left, keys with
  | [], _ :: _ | _ :: _, [] => true
  | _, _ =>
      match object_column left, object_column driver_column with
      | true, false => negb (forallb is_text left)
      | false, true => negb (forallb is_text keys)
      | _, _ => true
      end
  end.

(** [fact_df.merge(driver_counts, on="crash_id", how="left")] and
    [fillna(0)]; [None] is the [ValueError] of the check. *)
Definition merge_driver_count (fact_df : list fact_row) (driver_df : list driver_row)
    : option (list fact_row) :=
  if crash_id_keys_merge (crash_id <$> fact_df) (d_crash_id <$> driver_df)
  then Some (driver_count_join fact_df driver_df)
  else None.

(** Step 8: [fact_df.merge(location_df[["location_id", "state"]], on="state")]. *)
Definition set_location (r : fact_row) (l : location_row) : fact_row :=
  {| fact_id := fact_id r; crash_id := crash_id r; fatalities := fatalities r;
     year := year r; state := state r;
     season_id := season_id r; time_id := time_id r;
     driver_count := driver_count r;
     location_id := Some (l_location_id l); population_id := population_id r;
     yearly_crash_count := yearly_crash_count r;
     yearly_fatality_count := yearly_fatality_count r |}.

(** The rows of the merge on [state]: a missing state is a key like the
    others. *)
Definition location_join (fact_df : list fact_row) (location_df : list location_row)
    : list fact_row :=
  merge_left (fun r l => bool_decide (state r = l_state l)) set_location id fact_df location_df.

(** The check that [merge] makes of the key [state].  The column of
    [fact_df] is of dtype object; that of the dimension is read as a column of
    numbers when it has rows and no state in any of them.  With rows on both
    sides pandas then raises a [ValueError] if a row of [fact_df] has a
    state. *)
Definition state_keys_merge (left right : list (option string)) : bool :=
  match left, right with
  | _ :: _, _ :: _ =>
      negb (existsb (fun v => bool_decide (is_Some v)) left
            && forallb (fun v => bool_decide (v = None)) right)
  | _, _ => true
  end.

(** [fact_df.merge(location_df[["location_id", "state"]], on="state",
    how="left")]; [None] is the [ValueError] of the check. *)
Definition merge_location (fact_df : list fact_row) (location_df : list location_row)
    : option (list fact_row) :=
  if state_keys_merge (state <$> fact_df) (l_state <$> location_df)
  then Some (location_join fact_df location_df)
  else None.

(** Step 9: the merge with [population_df] on [state] and [year]. *)
Definition set_population (r : fact_row) (p : population_row) : fact_row :=
  {| fact_id := fact_id r; crash_id := crash_id r; fatalities := fatalities r;
     year := year r; state := state r;
     season_id := season_id r; time_id := time_id r;
     driver_count := driver_count r;
     location_id := location_id r; population_id := Some (p_population_id p);
     yearly_crash_count := yearly_crash_count r;
     yearly_fatality_count := yearly_fatality_count r |}.

(** The rows of the merge on [state] and [year]. *)
Definition population_join (fact_df : list fact_row) (population_df : list population_row)
    : list fact_row :=
  merge_left (fun r p => bool_decide (state r = p_state p)
                         && bool_decide (Some (year r) = p_year p))
             set_population id fact_df population_df.

(** [fact_df.merge(population_df[["population_id", "state", "year"]],
    on=["state", "year"], how="left")]: the key [state] is checked as in the
    merge before, the key [year] is a number on both sides. *)
Definition merge_population (fact_df : list fact_row) (population_df : list population_row)
    : option (list fact_row) :=
  if state_keys_merge (state <$> fact_df) (p_state <$> population_df)
  then Some (population_join fact_df population_df)
  else None.

(** Step 11: [fact_df.groupby("year").agg({"crash_id": "count",
    "fatalities": "sum"})], merged back on [year]. *)
Definition yearly_stats (fact_df : list fact_row) : gmap Z (Z * Z) :=
  groupby_agg (fun r => Some (year r))
              (fun r => negb (isna (crash_id r)))
              (fun r => default 0 (fatalities r)) fact_df.

Definition set_yearly (r : fact_row) (stats : option (Z * Z)) : fact_row :=
  {| fact_id := fact_id r; crash_id := crash_id r; fatalities := fatalities r;
     year := year r; state := state r;
     season_id := season_id r; time_id := time_id r;
     driver_count := driver_count r;
     location_id := location_id r; population_id := population_id r;
     yearly_crash_count := fst <$> stats;
     yearly_fatality_count := snd <$> stats |}.

Definition merge_yearly (fact_df : list fact_row) : list fact_row :=
  let stats := yearly_stats fact_df in
  map (fun r => set_yearly r (stats !! year r)) fact_df.

(** [fact_df] after step 11; [None] when [astype(int)] or a merge raised, in
    which case the function prints the error, writes no file and returns
    [False]. *)
Definition fact_frame (crash_df : list crash_row) (season_df : list season_row)
    (driver_df : list driver_row) (location_df : list location_row)
    (population_df : list population_row) : option (list fact_row) :=
  fact_df ← base_rows crash_df;
  seasons ← with_time_id season_df;
  let fact_df := merge_season fact_df (season_ref seasons) in
  fact_df ← merge_driver_count fact_df driver_df;
  fact_df ← merge_location fact_df location_df;
  fact_df ← merge_population fact_df population_df;
  Some (merge_yearly fact_df).

(** A row of [fact_table.csv], in [columns_order]. *)
Record output_row : Type := {
  o_fact_id : Z;
  o_crash_id : pyval;
  o_time_id : option Z;
  o_location_id : option pyval;
  o_road_condition_id : pyval;
  o_season_id : option pyval;
  o_vehicle_id : pyval;
  o_driver_count : option Z;
  o_population_id : option pyval;
  o_lga_id : pyval;
  o_fatalities : option Z;
  o_yearly_crash_count : option Z;
  o_yearly_fatality_count : option Z;
  o_crash_date : string
}.

(** The text given to [pd.to_datetime] for [crash_date]. *)
Definition crash_date_text (r : fact_row) : string :=
  str_of_Z (year r) +:+ "-01-01".

(** Steps 5, 6, 10 and 13: the stand-in keys copy [crash_id]; the columns are
    put in [columns_order]. *)
Definition select_columns (r : fact_row) (crash_date : string) : output_row :=
  {| o_fact_id := fact_id r;
     o_crash_id := crash_id r;
     o_time_id := time_id r;
     o_location_id := location_id r;
     o_road_condition_id := crash_id r;
     o_season_id := season_id r;
     o_vehicle_id := crash_id r;
     o_driver_count := driver_count r;
     o_population_id := population_id r;
     o_lga_id := crash_id r;
     o_fatalities := fatalities r;
     o_yearly_crash_count := yearly_crash_count r;
     o_yearly_fatality_count := yearly_fatality_count r;
     o_crash_date := crash_date |}.

(** Step 12: [to_datetime text] stands for [pd.to_datetime] on one text of the
    column, the date as it is written to the file, or [None] when it raises;
    one text that raises fails the column. *)
Definition with_crash_date (to_datetime : string -> option string)
    (fact_df : list fact_row) : option (list output_row) :=
  mapM (fun r => date ← to_datetime (crash_date_text r); Some (select_columns r date))
       fact_df.

(** [create_fact_table()]: the frame written to [output/fact_table.csv], or
    [None] when an exception is caught and the function returns [False]. *)
Definition create_fact_table (to_datetime : string -> option string)
    (crash_df : list crash_row) (season_df : list season_row)
    (driver_df : list driver_row) (location_df : list location_row)
    (population_df : list population_row) : option (list output_row) :=
  fact_frame crash_df season_df driver_df location_df population_df
    ≫= with_crash_date to_datetime.

End CreatFactTable.

(** ** [code/fix_driver_age.py] *)

Module FixDriverAge.

(** The script tests the label against 'Unknown' alone; the rest of its
    repair is the block of [etl.py]. *)
Definition unknown_labels : list string := ["Unknown"].

Definition fix_driver_age (driver_dim : list Etl.driver_row) : list Etl.driver_row :=
  Etl.fix_missing_ages unknown_labels driver_dim.

End FixDriverAge.

(** ** [code/association_mining.py] *)

Module AssociationMining.

(** The involvement columns of a row of [vehicle_df]. *)
Record vehicle_row : Type := {
  v_crash_id : pyval;
  v_Bus_Involvement : pyval;
  v_Heavy_Rigid_Truck_Involvement : pyval;
  v_Articulated_Truck_Involvement : pyval
}.

(** The lambda applied to each row to fill [vehicle_type]. *)
Definition vehicle_type (row : vehicle_row) : string :=
  if eq_int (v_Articulated_Truck_Involvement row) 1 then "Articulated Truck"
  else if eq_int (v_Heavy_Rigid_Truck_Involvement row) 1 then "Heavy Rigid Truck"
  else if eq_int (v_Bus_Involvement row) 1 then "Bus"
  else "Other".

End AssociationMining.

(** ** [code/fix_time_issues.py] *)

Module FixTimeIssues.

(** [re.match(r'^\d{2}:\d{2}$', s)]: two digits, a colon and two digits make
    the text, a line feed at its very end apart (which [$] matches in front
    of). *)
Definition time_pattern (s : string) : bool :=
  match s with
  | String h1 (String h2 (String sep (String m1 (String m2 rest)))) =>
      isdecimal h1 && isdecimal h2 && Ascii.eqb sep ":" && isdecimal m1 && isdecimal m2
      && (String.eqb rest "" || String.eqb rest (String newline ""))
  | _ => false
  end.

(** [time_dim['Time'].str.match(r'^\d{2}:\d{2}$', na=True)] on a cell of the
    column read as an object column: a cell that is not a text gives the [na]
    value. *)
Definition matches (time : pyval) : bool :=
  match time with
  | PyStr s => time_pattern s
  | _ => true
  end.

Definition set_time (r : Etl.time_row) (time : pyval) : Etl.time_row :=
  {| Etl.time_Crash_ID := Etl.time_Crash_ID r;
     Etl.time_Month := Etl.time_Month r;
     Etl.time_Year := Etl.time_Year r;
     Etl.time_Dayweek := Etl.time_Dayweek r;
     Etl.time_Time := time;
     Etl.time_Day_of_week := Etl.time_Day_of_week r;
     Etl.time_Time_of_Day := Etl.time_Time_of_Day r;
     Etl.time_Christmas_Period := Etl.time_Christmas_Period r;
     Etl.time_Easter_Period := Etl.time_Easter_Period r;
     Etl.time_Date := Etl.time_Date r |}.

(** [time_dim['Time'].str]: the accessor is there on a column of dtype
    object, which [read_csv] gives to a column that holds a text and to a
    column without rows; on a column of numbers it raises. *)
Definition has_str_accessor (column : list pyval) : bool :=
  match column with
  | [] => true
  | _ :: _ => Etl.is_object column
  end.

(** [time_dim[~time_dim['Time'].str.match(...)]] *)
Definition problem_records (time_dim : list Etl.time_row) : option (list Etl.time_row) :=
  if has_str_accessor (Etl.time_Time <$> time_dim)
  then Some (List.filter (fun r => negb (matches (Etl.time_Time r))) time_dim)
  else None.

(** The part of the script on the Time dimension: the problem records are
    selected, then "00:00" is assigned to their [Time]. *)
Definition fix_time_issues (time_dim : list Etl.time_row) : option (list Etl.time_row) :=
  _ ← problem_records time_dim;
  Some ((fun r => if matches (Etl.time_Time r) then r else set_time r (PyStr "00:00"))
          <$> time_dim).

End FixTimeIssues.

(** ** [code/missing_value_analysis.py] *)

Module MissingValueAnalysis.

(** [column.isnull().sum()] *)
Definition null_count (column : list pyval) : nat :=
  length (List.filter isna column).

(** The two [fillna('Unknown')] on the Location dimension. *)
Definition fill_missing_names (location_dim : list Etl.location_row)
    : list Etl.location_row :=
  (fun r => {| Etl.loc_Crash_ID := Etl.loc_Crash_ID r;
               Etl.loc_State := Etl.loc_State r;
               Etl.loc_National_Remoteness_Areas := Etl.loc_National_Remoteness_Areas r;
               Etl.loc_SA4_Name_2021 := Etl.fillna_unknown (Etl.loc_SA4_Name_2021 r);
               Etl.loc_National_LGA_Name_2021 :=
                 Etl.fillna_unknown (Etl.loc_National_LGA_Name_2021 r) |})
    <$> location_dim.

End MissingValueAnalysis.

(** ** [code/data_quality_check.py] *)

Module DataQualityCheck.

(** [df.duplicated(subset=key)]: a row is marked when a row before it has
    its key. *)
Fixpoint duplicated_from {A K : Type} `{EqDecision K}
    (key : A -> K) (seen : list K) (df : list A) : list bool :=
  match df with
  | [] => []
  | a :: df' => bool_decide (key a ∈ seen) :: duplicated_from key (key a :: seen) df'
  end.

Definition duplicated {A K : Type} `{EqDecision K} (key : A -> K) (df : list A)
    : list bool :=
  duplicated_from key [] df.

(** The ['duplicate_count'] of [check_duplicates]: [df.duplicated(...).sum()],
    on the key columns or, with [key] the whole row, on all columns. *)
Definition duplicate_count {A K : Type} `{EqDecision K} (key : A -> K) (df : list A)
    : nat :=
  length (List.filter (fun marked : bool => marked) (duplicated key df)).

(** The three numbers that [check_referential_integrity] reports for a key
    column without missing values: the keys of the two frames and the keys of
    the second that the first does not have. *)
Record integrity_report : Type := {
  unique_keys_df1 : nat;
  unique_keys_df2 : nat;
  orphaned_records : nat
}.

Definition orphans_in_df2 {K : Type} `{Countable K} (keys_df1 keys_df2 : list K) : gset K :=
  list_to_set keys_df2 ∖ list_to_set keys_df1.

Definition check_referential_integrity {K : Type} `{Countable K}
    (keys_df1 keys_df2 : list K) : integrity_report :=
  {| unique_keys_df1 := size (list_to_set keys_df1 : gset K);
     unique_keys_df2 := size (list_to_set keys_df2 : gset K);
     orphaned_records := size (orphans_in_df2 keys_df1 keys_df2) |}.

(** [time_dim[(time_dim['Year'] < 2001) | (time_dim['Year'] > 2023)]]; a
    missing year fails both comparisons. *)
Definition year_check (time_dim : list Etl.time_row) : list Etl.time_row :=
  List.filter (fun r => match Etl.time_Year r with
                        | Some y => (y <? 2001) || (2023 <? y)
                        | None => false
                        end) time_dim.

(** [time_dim[~time_dim['Time'].str.match(r'^\d{2}:\d{2}$', na=True)]], the
    test of [fix_time_issues.py]. *)
Definition time_format_issues (time_dim : list Etl.time_row)
    : option (list Etl.time_row) :=
  FixTimeIssues.problem_records time_dim.

End DataQualityCheck.

(** ** Sample tables *)

Module Samples.
Import Etl AssociationMining.

(** Two rows of the remoteness reference for one jurisdiction, in the order
    of [remoteness_categories]. *)
Definition remote_nsw : remoteness_row := remoteness_record "NSW" "Remote" (Q2Qc 31000).
Definition very_remote_nsw : remoteness_row := remoteness_record "NSW" "Very Remote" (Q2Qc 8000).
Definition remoteness_df_nsw : list remoteness_row := [remote_nsw; very_remote_nsw].

Definition truck_and_bus : vehicle_row :=
  {| v_crash_id := PyInt 20101001;
     v_Bus_Involvement := PyInt 1;
     v_Heavy_Rigid_Truck_Involvement := PyInt 0;
     v_Articulated_Truck_Involvement := PyInt 1 |}.

(** A crash of the loaded frame, given its identifier, year, month and
    number of fatalities. *)
Definition crash (id year month killed : Z) : crash_record :=
  {| Crash_ID := PyInt id; State := PyStr "NSW"; Month := month; Year := Some year;
     Dayweek := PyStr "Monday"; Time := PyStr "10:30"; Crash_Type := PyStr "Single";
     Number_Fatalities := Some killed; Bus_Involvement := PyStr "No";
     Heavy_Rigid_Truck_Involvement := PyStr "No";
     Articulated_Truck_Involvement := PyStr "No";
     Speed_Limit := PyInt 100;
     National_Remoteness_Areas := PyStr "Inner Regional Australia";
     SA4_Name_2021 := PyStr "Hunter Valley exc Newcastle";
     National_LGA_Name_2021 := PyStr "Cessnock";
     National_Road_Type := PyStr "Local Road";
     Christmas_Period := PyStr "No"; Easter_Period := PyStr "No";
     Day_of_week := PyStr "Weekday"; Time_of_Day := PyStr "Day" |}.

(** The same crash with another [Time]. *)
Definition crash_at (id year month : Z) (time : pyval) : crash_record :=
  set_Time (crash id year month 1) time.

(** A crash of 1999 whose time is a text and a crash of 2010 whose time is
    missing. *)
Definition crashes_text_out_of_window : list crash_record :=
  [crash 19991001 1999 2 3; crash_at 20101001 2010 1 PyNaN].

(** Three crashes in January 2010, two in February 2010, one in 1999. *)
Definition loaded_crashes : list crash_record :=
  [crash 20101001 2010 1 1; crash 20101002 2010 1 2; crash 20101003 2010 1 1;
   crash 20101004 2010 2 1; crash 20101005 2010 2 3; crash 19991001 1999 2 3].

Definition crashes_2010 : list crash_record := prepare_crashes loaded_crashes.

(** One row of the LGA reference. *)
Definition lga_df : list lga_reference_row :=
  [{| LGA_Code := "11720"; LGA_Name := "Cessnock"; LGA_Population := Q2Qc 63632 |}].

Definition january_2010 : CreatFactTable.season_row :=
  {| CreatFactTable.s_year := 2010;
     CreatFactTable.s_month := 1;
     CreatFactTable.s_season_id := PyStr "2010_1" |}.

Definition february_2010 : CreatFactTable.season_row :=
  {| CreatFactTable.s_year := 2010;
     CreatFactTable.s_month := 2;
     CreatFactTable.s_season_id := PyStr "2010_1" |}.

(** The dimension files read by [create_fact_table]: five crashes of 2010
    in New South Wales, three drivers for two of them. *)
Definition crash_df : list CreatFactTable.crash_row :=
  (fun ik => {| CreatFactTable.c_crash_id := PyInt ik.1;
                CreatFactTable.c_crash_type := PyStr "Single";
                CreatFactTable.c_fatalities := Some ik.2 |})
    <$> [(20101001, 1); (20101002, 2); (20101003, 1); (20101004, 1); (20101005, 3)].

Definition season_df : list CreatFactTable.season_row := [january_2010; february_2010].

Definition driver_df : list CreatFactTable.driver_row :=
  (fun ci => {| CreatFactTable.d_crash_id := PyInt ci.1;
                CreatFactTable.d_driver_id := PyInt ci.2 |})
    <$> [(20101001, 1); (20101001, 2); (20101003, 3)].

Definition location_df : list CreatFactTable.location_row :=
  [{| CreatFactTable.l_location_id := PyInt 1; CreatFactTable.l_state := Some "NSW" |}].

Definition population_df : list CreatFactTable.population_row :=
  [{| CreatFactTable.p_population_id := PyInt 1;
      CreatFactTable.p_state := Some "NSW";
      CreatFactTable.p_year := Some 2010 |}].

(** [pd.to_datetime] on texts that are dates already: the date is written
    back as it was read. *)
Definition iso_date (text : string) : option string := Some text.


(** A crash whose identifier has 9 in fifth place. *)
Definition crash_df_unmapped_state : list CreatFactTable.crash_row :=
  [{| CreatFactTable.c_crash_id := PyInt 20109001;
      CreatFactTable.c_crash_type := PyStr "Single";
      CreatFactTable.c_fatalities := Some 1 |}].

Definition fatality (id year : Z) (age : option Qc) (age_group : pyval) : fatality_record :=
  {| f_Crash_ID := PyInt id; f_Year := Some year; f_Road_User := PyStr "Driver";
     f_Gender := PyStr "Male"; f_Age := age; f_Age_Group := age_group |}.

(** Fatalities of a crash of 2010, of the crash of 1999, and one dated 2010
    whose crash is the crash of 1999. *)
Definition loaded_fatalities : list fatality_record :=
  [fatality 20101001 2010 (Some (Q2Qc 40)) (PyStr "40_to_64");
   fatality 19991001 1999 (Some (Q2Qc 30)) (PyStr "26_to_39");
   fatality 19991001 2010 (Some (Q2Qc 31)) (PyStr "26_to_39")].

Definition driver (age_group : pyval) (age : option Qc) : Etl.driver_row :=
  {| drv_Crash_ID := PyInt 20101001; drv_Road_User := PyStr "Driver";
     drv_Gender := PyStr "Male"; drv_Age := age; drv_Age_Group := age_group |}.

(** Known ages 20, 22 and 24 in one age group and a row of the group without
    age. *)
Definition drivers_17_to_25 : list Etl.driver_row :=
  [driver (PyStr "17_to_25") (Some (Q2Qc 20)); driver (PyStr "17_to_25") (Some (Q2Qc 22));
   driver (PyStr "17_to_25") (Some (Q2Qc 24)); driver (PyStr "17_to_25") None].

(** Rows without age in a group with known ages, in the unknown group and in
    a group in which no age is known. *)
Definition drivers_mixed : list Etl.driver_row :=
  [driver (PyStr "A") (Some (Q2Qc 10)); driver (PyStr "A") (Some (Q2Qc 30));
   driver (PyStr "B") (Some (Q2Qc 90));
   driver (PyStr "A") None; driver (PyStr "A") None;
   driver (PyStr "Unknown") None; driver (PyStr "C") None].

(** A crash of Victoria (2 in fifth place), and a Population dimension whose
    state was derived from an area name of Victoria. *)
Definition crash_df_victoria : list CreatFactTable.crash_row :=
  [{| CreatFactTable.c_crash_id := PyInt 20102001;
      CreatFactTable.c_crash_type := PyStr "Single";
      CreatFactTable.c_fatalities := Some 1 |}].

Definition population_df_victoria : list CreatFactTable.population_row :=
  [{| CreatFactTable.p_population_id := PyInt 1;
      CreatFactTable.p_state := Some (Etl.state_of_area "Inner Regional Australia (Vic)");
      CreatFactTable.p_year := Some 2010 |}].

(** A Time dimension in which every time is the text of a missing time. *)
Definition time_dim_missing_times : list Etl.time_row :=
  (fun r => FixTimeIssues.set_time r (PyStr "0n:an")) <$> Etl.time_dim crashes_2010.

(** A known age under the label '-9', a row of that label without age, and a
    known age in another group. *)
Definition drivers_minus_nine : list Etl.driver_row :=
  [driver (PyStr "-9") (Some (Q2Qc 10)); driver (PyStr "-9") None;
   driver (PyStr "A") (Some (Q2Qc 50))].

(** The lines of a remoteness file for one state. *)
Definition remoteness_lines : list string :=
  ["New South Wales, Australia (NSW)";
   "Major Cities,5000000";
   "Inner Regional,1400000";
   "Outer Regional,440000";
   "Remote,31000";
   "Very Remote,8000"].

(** The lines of an LGA file: a title, the header, an area padded with
    blanks, a line without population and a line whose name holds a comma. *)
Definition lga_lines : list string :=
  ["Population by area";
   "LGA Code,LGA Name,Population";
   "10050, Albury ,56093";
   "10180,Armidale,";
   "11720,Cessnock, City of,63632"].

(** Two Driver rows of one crash, the second without [driver_id]. *)
Definition driver_df_missing_driver_id : list CreatFactTable.driver_row :=
  [{| CreatFactTable.d_crash_id := PyInt 20101001; CreatFactTable.d_driver_id := PyInt 1 |};
   {| CreatFactTable.d_crash_id := PyInt 20101001; CreatFactTable.d_driver_id := PyNaN |}].







End Samples.

(** * Vocabulary of the statements *)

(** The labels [get_season] and [vehicle_type] answer with. *)
Definition season_labels : list string := ["Summer"; "Autumn"; "Winter"; "Spring"].

Definition vehicle_labels : list string :=
  ["Articulated Truck"; "Heavy Rigid Truck"; "Bus"; "Other"].

(** The months that one of the three tests of [get_season] names. *)
Definition named_months : list Z := [12; 1; 2; 3; 4; 5; 6; 7; 8].

(** A row on which the matching loop stops: the exact or the partial test
    holds. *)
Definition breaks_on (area : string) (row : Etl.remoteness_row) : bool :=
  String.eqb area (Etl.ref_Remoteness_Area row)
  || contains (Etl.ref_Remoteness_Area row) area.

(** The rows of a group, their count and their total. *)
Definition group_rows {A K : Type} `{EqDecision K} (key : A -> option K) (k : K)
    (df : list A) : list A :=
  List.filter (fun a => bool_decide (key a = Some k)) df.

Definition count_rows {A : Type} (counted : A -> bool) (df : list A) : Z :=
  Z.of_nat (length (List.filter counted df)).

Definition total {A : Type} (amount : A -> Z) (df : list A) : Z :=
  foldr (fun a acc => amount a + acc) 0 df.

(** A row of [fact_df] whose [year] and [state] are those decoded from its
    [crash_id]. *)
Definition decoded (r : CreatFactTable.fact_row) : Prop :=
  CreatFactTable.decode_year (CreatFactTable.crash_id r) = Some (CreatFactTable.year r) /\
  CreatFactTable.state r = CreatFactTable.decode_state (CreatFactTable.crash_id r).

(** A row of [fact_df] that has the identifier of a row of [crash_df]. *)
Definition from_crash_df (crash_df : list CreatFactTable.crash_row)
    (r : CreatFactTable.fact_row) : Prop :=
  exists c, In c crash_df /\ CreatFactTable.c_crash_id c = CreatFactTable.crash_id r.

(** The Driver rows of a crash. *)
Definition drivers_of (driver_df : list CreatFactTable.driver_row) (id : pyval)
    : list CreatFactTable.driver_row :=
  List.filter (fun d => bool_decide (CreatFactTable.d_crash_id d = id)) driver_df.

(** A row whose [driver_count] is the number of Driver rows of its crash that
    have a [driver_id]. *)
Definition drivers_counted (driver_df : list CreatFactTable.driver_row)
    (r : CreatFactTable.fact_row) : Prop :=
  CreatFactTable.driver_count r
  = Some (count_rows CreatFactTable.has_driver_id
            (drivers_of driver_df (CreatFactTable.crash_id r))).




Definition killed (r : CreatFactTable.fact_row) : Z :=
  default 0 (CreatFactTable.fatalities r).

(** [fact_df] before the yearly merge, from the copy of [crash_df] and the
    season frame with its [time_id]. *)
Definition before_yearly (rows : list CreatFactTable.fact_row)
    (seasons : list (CreatFactTable.season_row * Z))
    (driver_df : list CreatFactTable.driver_row)
    (location_df : list CreatFactTable.location_row)
    (population_df : list CreatFactTable.population_row) : list CreatFactTable.fact_row :=
  CreatFactTable.population_join
    (CreatFactTable.location_join
       (CreatFactTable.driver_count_join
          (CreatFactTable.merge_season rows (CreatFactTable.season_ref seasons)) driver_df)
       location_df)
    population_df.







(** A year column holding a year from 2001 to 2023. *)
Definition within_window (year : option Z) : Prop :=
  exists y, year = Some y /\ 2001 <= y <= 2023.

(** An identifier of a loaded crash whose year is in the window. *)
Definition crash_in_window (fatal_crash : list Etl.crash_record) (id : pyval) : Prop :=
  exists c, In c fatal_crash /\ Etl.Crash_ID c = id /\ within_window (Etl.Year c).

(** An area named by a loaded crash whose year is in the window. *)
Definition area_in_window (fatal_crash : list Etl.crash_record) (area : pyval) : Prop :=
  exists c, In c fatal_crash /\ Etl.National_Remoteness_Areas c = area /\
            within_window (Etl.Year c).

(** An LGA named by a loaded crash whose year is in the window. *)
Definition lga_in_window (fatal_crash : list Etl.crash_record) (lga : pyval) : Prop :=
  exists c, In c fatal_crash /\ Etl.National_LGA_Name_2021 c = lga /\
            within_window (Etl.Year c).

(** The rows of the population dimension, each with its area. *)
Definition population_areas (p : Etl.population_frame) : list pyval :=
  match p with
  | Etl.PopulationEntries entries => (fun e => PyStr (Etl.pop_Remoteness_Area e)) <$> entries
  | Etl.PopulationBasic pairs => snd <$> pairs
  end.

(** The age of a row as a fraction. *)
Definition age_value (r : Etl.driver_row) : option Q := this <$> Etl.drv_Age r.

(** A row that the matching loop remembers without stopping: its category
    and its state are both parts of the area. *)
Definition falls_back_on (area : string) (row : Etl.remoteness_row) : bool :=
  contains (Etl.ref_Remoteness_Category row) area && contains (Etl.ref_State row) area.

(** The row the loop ends with: the first row it stops on, or else the last
    row it remembered. *)
Definition chosen_row (area : string) (rows : list Etl.remoteness_row)
    : option Etl.remoteness_row :=
  match List.find (breaks_on area) rows with
  | Some row => Some row
  | None => last (List.filter (falls_back_on area) rows)
  end.

(** The entry of an area that is a text, with the population of the row the
    loop ends with. *)
Definition entry_by_matching (remoteness_df : list Etl.remoteness_row) (area : pyval)
    : option Etl.population_entry :=
  match area with
  | PyStr a =>
      Some (Etl.entry_of a (Etl.ref_Population <$> Etl.match_rows a remoteness_df None))
  | _ => None
  end.

(** The name of a reference area. *)
Definition area_name (category state : string) : string :=
  category +:+ " Australia (" +:+ state +:+ ")".

(** The jurisdictions that the fact-table builder writes in capitals and the
    ETL does not. *)
Definition capital_names : list string := ["VIC"; "QLD"; "TAS"].

(** A row of [fact_df] that stands for the row of [crash_df] its [fact_id]
    counts. *)
Definition numbered (crash_df : list CreatFactTable.crash_row)
    (r : CreatFactTable.fact_row) : Prop :=
  exists i c, crash_df !! i = Some c /\
    CreatFactTable.fact_id r = Z.of_nat i + 1 /\
    CreatFactTable.crash_id r = CreatFactTable.c_crash_id c /\
    CreatFactTable.fatalities r = CreatFactTable.c_fatalities c.

(** The first row of the Season dimension for a year. *)
Definition first_season_of_year (season_df : list CreatFactTable.season_row) (y : Z)
    : option CreatFactTable.season_row :=
  List.find (fun s => bool_decide (y = CreatFactTable.s_year s)) season_df.

(** The key of the merge with the Population dimension. *)
Definition population_key (p : CreatFactTable.population_row) : option string * option Z :=
  (CreatFactTable.p_state p, CreatFactTable.p_year p).

(** A frame that holds a row of the crash [id]. *)
Definition carries (id : pyval) (fact_df : list CreatFactTable.fact_row) : Prop :=
  exists r, In r fact_df /\ CreatFactTable.crash_id r = id.

(** A row whose season keys are those of the first season row of its
    year. *)
Definition season_keyed (season_df : list CreatFactTable.season_row)
    (r : CreatFactTable.fact_row) : Prop :=
  CreatFactTable.season_id r
    = (CreatFactTable.s_season_id
         <$> first_season_of_year season_df (CreatFactTable.year r)) /\
  CreatFactTable.time_id r
    = first_season_of_year season_df (CreatFactTable.year r) ≫= CreatFactTable.time_id_of.

(** The text of a [Time] cell without its colons. *)
Definition colon_free (time : pyval) : string := Etl.remove_colons (astype_str time).

(** The quarter of a month. *)
Definition quarter_of (month : Z) : Z := (month - 1) / 3 + 1.

(** The first row of the LGA reference in whose name an LGA name is found. *)
Definition first_lga_match (regex_search : string -> string -> bool)
    (lga_df : list Etl.lga_reference_row) (name : string) : option Etl.lga_reference_row :=
  head (List.filter (fun row => regex_search name (Etl.LGA_Name row)) lga_df).

(** A row with a known age, and a row without. *)
Definition has_age (r : Etl.driver_row) : Prop := is_Some (Etl.drv_Age r).

Definition lacks_age (r : Etl.driver_row) : Prop := Etl.drv_Age r = None.

(** The state and the category of a reference row. *)
Definition reference_key (row : Etl.remoteness_row) : string * string :=
  (Etl.ref_State row, Etl.ref_Remoteness_Category row).

(** A text without white space at either end. *)
Definition stripped (s : string) : Prop := strip s = s.

(** A text without the given character. *)
Definition free_of (c : ascii) (s : string) : Prop :=
  all_chars (fun c' => negb (Ascii.eqb c' c)) s = true.

(** A row whose age, when it has one, lies between two bounds. *)
Definition age_between (lo hi : Qc) (r : Etl.driver_row) : Prop :=
  forall a, Etl.drv_Age r = Some a -> (lo <= a)%Qc /\ (a <= hi)%Qc.

(** A crash whose [Time] is a text of five characters with a colon in the
    middle. *)
Definition timed (c : Etl.crash_record) : Prop :=
  exists t, Etl.Time c = PyStr t /\ String.length t = 5%nat /\
            String.get 2 t = Some ":"%char.

(** * Properties *)

Import Etl AssociationMining.

(** ** Season assignment ([get_season]) *)

Lemma in_ints_app v ks1 ks2 :
  in_ints v (ks1 ++ ks2) = in_ints v ks1 || in_ints v ks2.
Proof. unfold in_ints. apply existsb_app. Qed.

Lemma in_ints_false_iff v ks :
  in_ints v ks = false <-> forall k, In k ks -> v <> PyInt k.
Proof.
  unfold in_ints. induction ks as [|k0 ks IH]; simpl.
  - split; [intros _ k [] | reflexivity].
  - rewrite orb_false_iff, IH. split.
    + intros [Hk0 Hks] k [<- | Hin]; [| by apply Hks].
      intros ->. simpl in Hk0. by rewrite Z.eqb_refl in Hk0.
    + intros H. split; [| intros k Hin; apply H; by right].
      destruct v as [z| | |]; simpl; try reflexivity.
      apply Z.eqb_neq. intros ->. by apply (H k0); [left |].
Qed.

(** C10. [get_season] is total: it answers one of the four labels on every
    value, and every value that is not one of the integers 12, 1, 2, 3, 4, 5,
    6, 7, 8 (so 9, 10, 11, but also 0, 13, a string, NaN or None) is labelled
    "Spring"; a Season row built from such a month carries "Spring". *)
Theorem get_season_catch_all (month : pyval) :
  In (get_season month) season_labels /\
  ((forall k, In k named_months -> month <> PyInt k) -> get_season month = "Spring") /\
  (forall year m, (forall k, In k named_months -> m <> k) ->
     sea_Season (season_of (year, m)) = "Spring").
Proof.
  assert (Hdefault : forall v, (forall k, In k named_months -> v <> PyInt k) ->
                               get_season v = "Spring").
  { intros v H. apply in_ints_false_iff in H.
    change named_months with ([12; 1; 2] ++ [3; 4; 5] ++ [6; 7; 8])%list in H.
    rewrite !in_ints_app, !orb_false_iff in H. destruct H as (H1 & H2 & H3).
    unfold get_season. by rewrite H1, H2, H3. }
  split; [| split].
  - unfold get_season.
    repeat (destruct (in_ints month _); [simpl; tauto |]). simpl; tauto.
  - apply Hdefault.
  - intros year m Hm. cbn [season_of sea_Season fst snd]. apply Hdefault.
    intros k Hk [= ->]. by apply (Hm k).
Qed.

Lemma get_season_catch_all_witness :
  (forall k, In k named_months -> PyInt 13 <> PyInt k) /\ get_season (PyInt 13) = "Spring".
Proof.
  assert (H : forall k, In k named_months -> PyInt 13 <> PyInt k).
  { intros k Hin Heq. injection Heq as <-. simpl in Hin.
    repeat (destruct Hin as [Hin | Hin]; [discriminate Hin |]). exact Hin. }
  split; [exact H | exact (proj1 (proj2 (get_season_catch_all (PyInt 13))) H)].
Defined.

Example get_season_invalid_months :
  get_season (PyInt 0) = "Spring" /\ get_season PyNaN = "Spring" /\
  get_season PyNone = "Spring" /\ get_season (PyStr "12") = "Spring".
Proof. repeat split. Qed.

Example get_season_valid_months :
  map (fun m => get_season (PyInt m)) [1; 2; 3; 4; 5; 6; 7; 8; 9; 10; 11; 12]
  = ["Summer"; "Summer"; "Autumn"; "Autumn"; "Autumn"; "Winter"; "Winter"; "Winter";
     "Spring"; "Spring"; "Spring"; "Summer"].
Proof. reflexivity. Qed.

(** ** Vehicle classification ([vehicle_type]) *)

(** C8. Each row gets exactly one of the four categories, the first flag
    equal to 1 in the order Articulated Truck, Heavy Rigid Truck, Bus deciding
    it; a row with both the articulated-truck and the bus flag set is an
    "Articulated Truck". *)
Theorem vehicle_type_priority (row : vehicle_row) :
  In (vehicle_type row) vehicle_labels /\
  (eq_int (v_Articulated_Truck_Involvement row) 1 = true ->
     vehicle_type row = "Articulated Truck") /\
  (eq_int (v_Articulated_Truck_Involvement row) 1 = false ->
   eq_int (v_Heavy_Rigid_Truck_Involvement row) 1 = true ->
     vehicle_type row = "Heavy Rigid Truck") /\
  (eq_int (v_Articulated_Truck_Involvement row) 1 = false ->
   eq_int (v_Heavy_Rigid_Truck_Involvement row) 1 = false ->
   eq_int (v_Bus_Involvement row) 1 = true ->
     vehicle_type row = "Bus") /\
  (eq_int (v_Articulated_Truck_Involvement row) 1 = false ->
   eq_int (v_Heavy_Rigid_Truck_Involvement row) 1 = false ->
   eq_int (v_Bus_Involvement row) 1 = false ->
     vehicle_type row = "Other") /\
  (v_Articulated_Truck_Involvement row = PyInt 1 -> v_Bus_Involvement row = PyInt 1 ->
     vehicle_type row = "Articulated Truck").
Proof.
  unfold vehicle_type.
  destruct (eq_int (v_Articulated_Truck_Involvement row) 1) eqn:Ha,
           (eq_int (v_Heavy_Rigid_Truck_Involvement row) 1) eqn:Hh,
           (eq_int (v_Bus_Involvement row) 1) eqn:Hb;
    repeat split; simpl; try tauto; try discriminate;
    intros Ha' _; rewrite Ha' in Ha; discriminate Ha.
Qed.

Lemma vehicle_type_priority_witness :
  v_Articulated_Truck_Involvement Samples.truck_and_bus = PyInt 1 /\
  v_Bus_Involvement Samples.truck_and_bus = PyInt 1 /\
  vehicle_type Samples.truck_and_bus = "Articulated Truck".
Proof.
  split; [reflexivity |]. split; [reflexivity |].
  exact (proj2 (proj2 (proj2 (proj2 (proj2 (vehicle_type_priority Samples.truck_and_bus)))))
           eq_refl eq_refl).
Defined.

(** ** Remoteness-area matching ([match_rows]) *)

(** The loop returns the first row on which it stops, whatever was assigned
    before it. *)
Lemma match_rows_first_break area pre row post best :
  forallb (fun r => negb (breaks_on area r)) pre = true ->
  breaks_on area row = true ->
  match_rows area (pre ++ row :: post) best = Some row.
Proof.
  revert best. induction pre as [|r pre IH]; intros best Hpre Hrow; simpl in *.
  - unfold breaks_on in Hrow.
    destruct (String.eqb area (ref_Remoteness_Area row)); [reflexivity |].
    simpl in Hrow. by rewrite Hrow.
  - apply andb_true_iff in Hpre as [Hr Hpre]. unfold breaks_on in Hr.
    apply negb_true_iff, orb_false_iff in Hr as [-> ->].
    destruct (_ && _); by apply IH.
Qed.

(** C1. On the reference rows "Remote Australia (NSW)" and "Very Remote
    Australia (NSW)", in the order in which the categories are listed, the
    area "Very Remote Australia (NSW)" has an exact reference row, yet the loop
    stops on the row that is only a substring of it and the population entry
    carries that row's population. *)
Theorem exact_match_preempted_by_substring :
  let area := "Very Remote Australia (NSW)" in
  In Samples.very_remote_nsw Samples.remoteness_df_nsw /\
  ref_Remoteness_Area Samples.very_remote_nsw = area /\
  ref_Remoteness_Area Samples.remote_nsw <> area /\
  contains (ref_Remoteness_Area Samples.remote_nsw) area = true /\
  match_rows area Samples.remoteness_df_nsw None = Some Samples.remote_nsw /\
  pop_Population <$> remoteness_entries [PyStr area] Samples.remoteness_df_nsw
    = [Some (ref_Population Samples.remote_nsw)].
Proof.
  cbv zeta. split; [right; left; reflexivity |].
  split; [reflexivity |]. split; [discriminate |].
  split; [reflexivity |]. split; [reflexivity |]. vm_compute. reflexivity.
Qed.

(** With the rows in the other order the exact row is met first and wins. *)
Example exact_match_when_first :
  match_rows "Very Remote Australia (NSW)"
    [Samples.very_remote_nsw; Samples.remote_nsw] None = Some Samples.very_remote_nsw.
Proof. reflexivity. Qed.

(** ** Decimal text: [str], [zfill] and [int] *)

Section DecimalText.

Local Open Scope Z_scope.




Lemma app_cons c (s t : string) : String c s +:+ t = String c (s +:+ t).
Proof. reflexivity. Qed.


















End DecimalText.

(** ** Season and time identifiers *)

Import CreatFactTable.





Example season_ids_2010 :
  map (fun s => (sea_Year s, sea_Month s, sea_Season s, sea_Season_ID s))
      (season_dim Samples.crashes_2010)
  = [(Some 2010, 1, "Summer", "2010_1"); (Some 2010, 2, "Summer", "2010_1")].
Proof. vm_compute. reflexivity. Qed.

(** ** Frames: left merges, duplicates and grouped aggregates *)

Section Frames.

Context {A B C : Type}.

Lemma in_merge_left (on : A -> B -> bool) (matched : A -> B -> C) (unmatched : A -> C)
    (left : list A) (right : list B) (c : C) :
  In c (merge_left on matched unmatched left right) <->
  exists a, In a left /\
    ((exists b, In b right /\ on a b = true /\ c = matched a b) \/
     (List.filter (on a) right = [] /\ c = unmatched a)).
Proof.
  unfold merge_left. rewrite in_flat_map. split.
  - intros (a & Ha & Hc). exists a. split; [done |].
    destruct (List.filter (on a) right) as [|b bs] eqn:Hf.
    + right. destruct Hc as [<- | []]. by split.
    + left. apply in_map_iff in Hc as (b' & <- & Hb').
      rewrite <- Hf in Hb'. apply filter_In in Hb' as [Hb' Hon]. by exists b'.
  - intros (a & Ha & [(b & Hb & Hon & ->) | (Hf & ->)]); exists a; (split; [done |]).
    + assert (Hin : In b (List.filter (on a) right)) by by apply filter_In.
      destruct (List.filter (on a) right); [destruct Hin |].
      by apply in_map.
    + rewrite Hf. by left.
Qed.

(** What holds of every left row and is kept by both ways of completing a
    row holds of every merged row. *)
Lemma merge_left_Forall (P : A -> Prop) (Q : C -> Prop) (on : A -> B -> bool)
    (matched : A -> B -> C) (unmatched : A -> C) (left : list A) (right : list B) :
  (forall a b, P a -> Q (matched a b)) ->
  (forall a, P a -> Q (unmatched a)) ->
  Forall P left -> Forall Q (merge_left on matched unmatched left right).
Proof.
  intros Hm Hu Hall. apply Forall_forall. intros c Hc%list_elem_of_In.
  rewrite Forall_forall in Hall.
  apply in_merge_left in Hc as (a & Ha%list_elem_of_In & [(b & _ & _ & ->) | (_ & ->)]);
    auto.
Qed.

(** A left merge in which every left row has one match is a map. *)
Lemma merge_left_one_match (on : A -> B -> bool) (matched : A -> B -> C)
    (unmatched : A -> C) (left : list A) (right : list B) (partner : A -> B) :
  (forall a, In a left -> List.filter (on a) right = [partner a]) ->
  merge_left on matched unmatched left right = (fun a => matched a (partner a)) <$> left.
Proof.
  unfold merge_left. induction left as [|a left IH]; intros Hone; [done |].
  simpl. rewrite (Hone a) by by left. simpl. f_equal.
  apply IH. intros a' Ha'. apply Hone. by right.
Qed.

End Frames.

Lemma filter_none {X : Type} (p : X -> bool) (l : list X) :
  (forall b, In b l -> p b = false) -> List.filter p l = [].
Proof.
  induction l as [|b l IH]; intros Hnone; [done |].
  simpl. rewrite (Hnone b) by by left. apply IH. intros b' Hb'. apply Hnone. by right.
Qed.

(** In a frame without two rows of one key, a row is the only row of its
    key. *)
Lemma filter_own_key {X Y : Type} `{EqDecision Y} (f : X -> Y) (l : list X) (a : X) :
  NoDup (f <$> l) -> In a l ->
  List.filter (fun b => bool_decide (f a = f b)) l = [a].
Proof.
  induction l as [|x l IH]; [by intros _ [] |].
  simpl. intros [Hx Hnd]%NoDup_cons Ha.
  assert (Hnone : forall b, In b l -> f x <> f b).
  { intros b Hb Heq. apply Hx. rewrite Heq. apply list_elem_of_fmap.
    exists b. split; [done | by apply list_elem_of_In]. }
  destruct Ha as [-> | Ha].
  - rewrite bool_decide_eq_true_2 by done. f_equal.
    apply filter_none. intros b Hb. apply bool_decide_eq_false_2. by apply Hnone.
  - rewrite bool_decide_eq_false_2 by (intros Heq; by apply (Hnone a Ha)).
    by apply IH.
Qed.

Section Duplicates.

Context {A K : Type} `{EqDecision K}.

Lemma in_drop_duplicates_from (key : A -> K) (seen : list K) (df : list A) (a : A) :
  In a (drop_duplicates_from key seen df) -> In a df.
Proof.
  revert seen. induction df as [|b df IH]; intros seen; simpl; [done |].
  destruct (bool_decide (key b ∈ seen)).
  - intros Hin. right. by apply (IH seen).
  - intros [-> | Hin]; [by left | right; by apply (IH (key b :: seen))].
Qed.

(** A row that survives [drop_duplicates] is a row of the frame. *)
Lemma in_drop_duplicates (key : A -> K) (df : list A) (a : A) :
  In a (drop_duplicates key df) -> In a df.
Proof. apply in_drop_duplicates_from. Qed.

Lemma drop_duplicates_from_keys (key : A -> K) (seen : list K) (df : list A) :
  NoDup (key <$> drop_duplicates_from key seen df) /\
  forall a, In a (drop_duplicates_from key seen df) -> key a ∉ seen.
Proof.
  revert seen. induction df as [|b df IH]; intros seen; simpl.
  - split; [constructor | intros a []].
  - destruct (bool_decide_reflect (key b ∈ seen)) as [Hseen | Hnew]; [apply IH |].
    destruct (IH (key b :: seen)) as [Hnd Hfresh]. split.
    + simpl. constructor; [| done].
      intros (a & Hkey & Ha%list_elem_of_In)%list_elem_of_fmap.
      apply (Hfresh a Ha). rewrite <- Hkey. by left.
    + intros a [<- | Ha]; [done |].
      intros Hin. apply (Hfresh a Ha). by right.
Qed.

Lemma drop_duplicates_from_complete (key : A -> K) (seen : list K) (df : list A) (a : A) :
  In a df -> key a ∈ seen \/ key a ∈ key <$> drop_duplicates_from key seen df.
Proof.
  revert seen. induction df as [|b df IH]; intros seen; simpl; [done |].
  intros [-> | Ha].
  - destruct (bool_decide_reflect (key a ∈ seen)); [by left | right; by left].
  - destruct (bool_decide_reflect (key b ∈ seen)); [by apply IH |].
    destruct (IH (key b :: seen) Ha) as [[-> | Hseen]%elem_of_cons | Hkept].
    + right. by left.
    + by left.
    + right. by right.
Qed.

(** Every key of the frame is the key of a row that is kept. *)
Lemma drop_duplicates_complete (key : A -> K) (df : list A) (a : A) :
  In a df -> key a ∈ key <$> drop_duplicates key df.
Proof.
  intros Ha. destruct (drop_duplicates_from_complete key [] df a Ha) as [Hnil | Hkept];
    [by apply not_elem_of_nil in Hnil | exact Hkept].
Qed.

(** After [drop_duplicates(subset=key)] no two rows share a key. *)
Lemma drop_duplicates_NoDup (key : A -> K) (df : list A) :
  NoDup (key <$> drop_duplicates key df).
Proof. apply drop_duplicates_from_keys. Qed.

Lemma drop_duplicates_from_id (key : A -> K) (seen : list K) (df : list A) :
  NoDup (key <$> df) -> (forall a, In a df -> key a ∉ seen) ->
  drop_duplicates_from key seen df = df.
Proof.
  revert seen. induction df as [|b df IH]; intros seen Hnd Hfresh; simpl; [done |].
  simpl in Hnd. apply NoDup_cons in Hnd as [Hb Hnd].
  rewrite bool_decide_eq_false_2 by (apply Hfresh; by left).
  f_equal. apply IH; [done |].
  intros a Ha [Heq | Hin]%elem_of_cons.
  - apply Hb. rewrite <- Heq. apply list_elem_of_fmap. exists a.
    split; [done | by apply list_elem_of_In].
  - apply (Hfresh a); [by right | done].
Qed.

(** A frame without two rows of one key is left as it is. *)
Lemma drop_duplicates_id (key : A -> K) (df : list A) :
  NoDup (key <$> df) -> drop_duplicates key df = df.
Proof.
  intros Hnd. apply drop_duplicates_from_id; [done |].
  intros a _ Hin. by apply not_elem_of_nil in Hin.
Qed.

End Duplicates.

(** [unique] keeps every value once. *)
Lemma elem_of_unique {A : Type} `{EqDecision A} (column : list A) (a : A) :
  a ∈ unique column <-> a ∈ column.
Proof.
  unfold unique. split.
  - intros Ha%list_elem_of_In. by apply list_elem_of_In, (in_drop_duplicates id).
  - intros Ha%list_elem_of_In. pose proof (drop_duplicates_complete id column a Ha) as Hin.
    by rewrite list_fmap_id in Hin.
Qed.

Lemma NoDup_unique {A : Type} `{EqDecision A} (column : list A) : NoDup (unique column).
Proof.
  pose proof (drop_duplicates_NoDup id column) as Hnd. by rewrite list_fmap_id in Hnd.
Qed.

Section Groups.

Context {A K : Type} `{Countable K}.
Variables (key : A -> option K) (counted : A -> bool) (amount : A -> Z).

(** The entry of a key in the grouped frame: the count and the total of the
    rows of that key; no entry when no row has the key. *)
Lemma groupby_agg_lookup (df : list A) (k : K) :
  groupby_agg key counted amount df !! k =
    match group_rows key k df with
    | [] => None
    | g => Some (count_rows counted g, total amount g)
    end.
Proof.
  induction df as [|a df IH]; [reflexivity |].
  unfold group_rows in *. cbn [groupby_agg foldr List.filter].
  fold (groupby_agg key counted amount df).
  destruct (key a) as [k' |] eqn:Hkey.
  - destruct (decide (k' = k)) as [-> | Hne].
    + rewrite bool_decide_eq_true_2 by done.
      destruct (default (0, 0) (groupby_agg key counted amount df !! k))
        as [n sum] eqn:Hold.
      rewrite lookup_insert_eq. f_equal.
      rewrite IH in Hold.
      assert (Hn : (n, sum) = (count_rows counted
                      (List.filter (fun a => bool_decide (key a = Some k)) df),
                    total amount
                      (List.filter (fun a => bool_decide (key a = Some k)) df))).
      { destruct (List.filter _ df); simpl in Hold; by rewrite <- Hold. }
      injection Hn as -> ->. unfold count_rows, total. cbn [List.filter foldr].
      destruct (counted a); cbn [length]; f_equal; lia.
    + rewrite bool_decide_eq_false_2 by congruence.
      destruct (default _ _). by rewrite lookup_insert_ne.
  - rewrite bool_decide_eq_false_2 by congruence. exact IH.
Qed.


End Groups.

(** ** The fact-table builder ([create_fact_table]) *)

Section FactFrame.

Lemma decode_year_not_na id y : decode_year id = Some y -> isna id = false.
Proof. destruct id; (reflexivity || discriminate). Qed.

Lemma base_rows_from_decoded i crash_df rows :
  base_rows_from i crash_df = Some rows ->
  Forall (fun r => decoded r /\ from_crash_df crash_df r) rows.
Proof.
  revert i rows. induction crash_df as [|c crash_df IH]; intros i rows; simpl.
  - intros [= <-]. constructor.
  - unfold base_row.
    destruct (decode_year (c_crash_id c)) as [y |] eqn:Hy; [| discriminate].
    simpl. destruct (base_rows_from (S i) crash_df) as [rs |] eqn:Hrs; [| discriminate].
    simpl. intros [= <-]. constructor.
    + split; [by split |]. exists c. split; [by left | reflexivity].
    + eapply Forall_impl; [by eapply IH |].
      intros r [Hr (c' & Hc' & Hid)]. split; [done |]. exists c'. split; [by right | done].
Qed.


Lemma merge_season_Forall (P : fact_row -> Prop) fact_df ref :
  (forall r st, P r -> P (set_season r st)) ->
  Forall P fact_df -> Forall P (merge_season fact_df ref).
Proof. intros Hset. by apply merge_left_Forall. Qed.

Lemma location_join_Forall (P : fact_row -> Prop) fact_df location_df :
  (forall r l, P r -> P (set_location r l)) ->
  Forall P fact_df -> Forall P (location_join fact_df location_df).
Proof. intros Hset. by apply merge_left_Forall. Qed.

Lemma population_join_Forall (P : fact_row -> Prop) fact_df population_df :
  (forall r p, P r -> P (set_population r p)) ->
  Forall P fact_df -> Forall P (population_join fact_df population_df).
Proof. intros Hset. by apply merge_left_Forall. Qed.

Lemma driver_count_join_Forall (P : fact_row -> Prop) fact_df driver_df :
  (forall r n, P r -> P (set_driver_count r n)) ->
  Forall P fact_df -> Forall P (driver_count_join fact_df driver_df).
Proof.
  intros Hset Hall. unfold driver_count_join. apply Forall_fmap.
  eapply Forall_impl; [exact Hall |]. intros r Hr. by apply Hset.
Qed.

Lemma merge_yearly_Forall (P : fact_row -> Prop) fact_df :
  (forall r stats, P r -> P (set_yearly r stats)) ->
  Forall P fact_df -> Forall P (merge_yearly fact_df).
Proof.
  intros Hset Hall. unfold merge_yearly. apply Forall_fmap.
  eapply Forall_impl; [exact Hall |]. intros r Hr. by apply Hset.
Qed.

(** The group of a crash in [driver_counts] is the Driver rows of the
    crash. *)
Lemma driver_group id driver_df :
  isna id = false ->
  group_rows (fun d => group_key (d_crash_id d)) id driver_df = drivers_of driver_df id.
Proof.
  intros Hid. unfold group_rows, drivers_of. apply filter_ext. intros d.
  unfold group_key. destruct (isna (d_crash_id d)) eqn:Hna.
  - rewrite bool_decide_eq_false_2 by discriminate.
    rewrite bool_decide_eq_false_2; [done |]. intros Heq. congruence.
  - apply bool_decide_ext. split; congruence.
Qed.

Lemma driver_count_join_counted fact_df driver_df :
  Forall decoded fact_df ->
  Forall (drivers_counted driver_df) (driver_count_join fact_df driver_df).
Proof.
  intros Hall. unfold driver_count_join. apply Forall_fmap.
  eapply Forall_impl; [exact Hall |]. intros r [Hyear _].
  unfold drivers_counted. simpl. f_equal.
  apply decode_year_not_na in Hyear.
  unfold group_key. rewrite Hyear. simpl.
  unfold driver_counts. rewrite groupby_agg_lookup, driver_group by done.
  by destruct (drivers_of driver_df (crash_id r)).
Qed.

Lemma fact_frame_Some crash_df season_df driver_df location_df population_df out :
  fact_frame crash_df season_df driver_df location_df population_df = Some out ->
  exists rows seasons,
    base_rows crash_df = Some rows /\ with_time_id season_df = Some seasons /\
    out = merge_yearly (before_yearly rows seasons driver_df location_df population_df).
Proof.
  unfold fact_frame, merge_driver_count, merge_location, merge_population.
  destruct (base_rows crash_df) as [rows |]; [| discriminate]. simpl.
  destruct (with_time_id season_df) as [seasons |]; [| discriminate]. simpl.
  destruct (crash_id_keys_merge _ _); [| discriminate]. simpl.
  destruct (state_keys_merge _ _); [| discriminate]. simpl.
  destruct (state_keys_merge _ _); [| discriminate]. simpl.
  intros [= <-]. by exists rows, seasons.
Qed.

(** What the copy of [crash_df] satisfies and no later step changes holds of
    the whole frame. *)
Lemma fact_frame_Forall (P : fact_row -> Prop)
    crash_df season_df driver_df location_df population_df out :
  (forall r st, P r -> P (set_season r st)) ->
  (forall r n, P r -> P (set_driver_count r n)) ->
  (forall r l, P r -> P (set_location r l)) ->
  (forall r p, P r -> P (set_population r p)) ->
  (forall r stats, P r -> P (set_yearly r stats)) ->
  (forall rows, base_rows crash_df = Some rows -> Forall P rows) ->
  fact_frame crash_df season_df driver_df location_df population_df = Some out ->
  Forall P out.
Proof.
  intros Hseason Hcount Hlocation Hpopulation Hyearly Hbase.
  intros (rows & seasons & Hrows & _ & ->)%fact_frame_Some.
  apply merge_yearly_Forall; [done |]. unfold before_yearly.
  apply population_join_Forall; [done |].
  apply location_join_Forall; [done |].
  apply driver_count_join_Forall; [done |].
  apply merge_season_Forall; [done |]. by apply Hbase.
Qed.

Lemma before_yearly_invariant rows seasons driver_df location_df population_df :
  Forall decoded rows ->
  Forall (fun r => decoded r /\ drivers_counted driver_df r)
         (before_yearly rows seasons driver_df location_df population_df).
Proof.
  intros Hrows. unfold before_yearly.
  apply population_join_Forall; [by intros r p H |].
  apply location_join_Forall; [by intros r l H |].
  apply Forall_and. split.
  - apply driver_count_join_Forall; [by intros r n H |].
    by apply merge_season_Forall; [by intros r st H |].
  - apply driver_count_join_counted.
    by apply merge_season_Forall; [by intros r st H |].
Qed.

Lemma base_rows_decoded crash_df rows :
  base_rows crash_df = Some rows -> Forall decoded rows.
Proof.
  intros Hrows%base_rows_from_decoded.
  eapply Forall_impl; [exact Hrows |]. by intros r [Hr _].
Qed.

Lemma fact_frame_invariant crash_df season_df driver_df location_df population_df out :
  fact_frame crash_df season_df driver_df location_df population_df = Some out ->
  Forall (fun r => decoded r /\ drivers_counted driver_df r) out.
Proof.
  intros (rows & seasons & Hrows & _ & ->)%fact_frame_Some.
  apply merge_yearly_Forall; [by intros r stats H |].
  apply before_yearly_invariant. by apply (base_rows_decoded crash_df).
Qed.


End FactFrame.

Lemma in_mapM_Some {X Y : Type} (f : X -> option Y) (l : list X) (k : list Y) (y : Y) :
  mapM f l = Some k -> In y k -> exists x, In x l /\ f x = Some y.
Proof.
  intros Hall%mapM_Some. induction Hall as [|x y' l k Hxy _ IH]; [intros [] |].
  intros [<- | Hy].
  - exists x. split; [by left | done].
  - destruct (IH Hy) as (x' & Hx' & Hf). exists x'. split; [by right | done].
Qed.

Lemma in_create_fact_table to_datetime crash_df season_df driver_df location_df
    population_df out o :
  create_fact_table to_datetime crash_df season_df driver_df location_df population_df
    = Some out ->
  In o out ->
  exists frame r date,
    fact_frame crash_df season_df driver_df location_df population_df = Some frame /\
    In r frame /\ to_datetime (crash_date_text r) = Some date /\
    o = select_columns r date.
Proof.
  unfold create_fact_table.
  destruct (fact_frame crash_df season_df driver_df location_df population_df)
    as [frame |]; [| discriminate].
  simpl. unfold with_crash_date. intros Hout Ho.
  destruct (in_mapM_Some _ _ _ _ Hout Ho) as (r & Hr & Hdate).
  destruct (to_datetime (crash_date_text r)) as [date |] eqn:Htext; [| discriminate].
  injection Hdate as <-. by exists frame, r, date.
Qed.

Lemma filter_all {X : Type} (p : X -> bool) (l : list X) :
  Forall (fun x => p x = true) l -> List.filter p l = l.
Proof.
  induction 1 as [|x l Hx _ IH]; simpl; [done |]. by rewrite Hx, IH.
Qed.

(** ** Yearly and monthly aggregates *)

Lemma filter_fmap {X Y : Type} (p : Y -> bool) (f : X -> Y) (l : list X) :
  List.filter p (f <$> l) = f <$> List.filter (fun x => p (f x)) l.
Proof.
  induction l as [|x l IH]; simpl; [done |].
  destruct (p (f x)); simpl; [f_equal |]; exact IH.
Qed.


Lemma count_rows_all {X : Type} (p : X -> bool) (l : list X) :
  Forall (fun x => p x = true) l -> count_rows p l = Z.of_nat (length l).
Proof. intros Hall. unfold count_rows. by rewrite filter_all. Qed.

Lemma Forall_filter_keep {X : Type} (P : X -> Prop) (p : X -> bool) (l : list X) :
  Forall P l -> Forall P (List.filter p l).
Proof.
  rewrite !Forall_forall. intros Hall x Hx%list_elem_of_In.
  apply filter_In in Hx as [Hx _]. by apply Hall, list_elem_of_In.
Qed.


Import Etl.

Lemma in_filter_crashes fatal_crash c :
  In c (filter_crashes fatal_crash) <-> In c fatal_crash /\ in_window (Year c) = true.
Proof. apply filter_In. Qed.

Lemma in_window_bounds year :
  in_window year = true <-> exists y, year = Some y /\ 2001 <= y <= 2023.
Proof.
  destruct year as [y |]; simpl.
  - rewrite andb_true_iff, Z.leb_le, Z.leb_le. split.
    + intros Hy. by exists y.
    + by intros (? & [= <-] & Hy).
  - split; [discriminate | by intros (? & [=] & _)].
Qed.

Lemma in_standardize_time dtype_object fatal_crash c :
  In c (standardize_time dtype_object fatal_crash) ->
  exists c0 time, In c0 fatal_crash /\ c = set_Time c0 time.
Proof.
  unfold standardize_time. destruct dtype_object.
  - intros (c0 & <- & Hc0)%in_map_iff. by exists c0, (standard_time (Time c0)).
  - intros Hc. exists c, (Time c). split; [done | by destruct c].
Qed.

(** A crash of the prepared frame is a loaded crash of the window, its [Time]
    apart. *)
Lemma in_prepare_crashes fatal_crash c :
  In c (prepare_crashes fatal_crash) ->
  exists c0 time, In c0 fatal_crash /\ in_window (Year c0) = true /\ c = set_Time c0 time.
Proof.
  intros (c0 & time & [Hc0 Hy]%in_filter_crashes & ->)%in_standardize_time.
  by exists c0, time.
Qed.

Lemma prepare_crashes_in_window fatal_crash :
  Forall (fun c => in_window (Year c) = true) (prepare_crashes fatal_crash).
Proof.
  apply Forall_forall. intros c Hc%list_elem_of_In.
  by apply in_prepare_crashes in Hc as (c0 & time & _ & Hy & ->).
Qed.


Lemma NoDup_fmap_In_inj {X Y : Type} (f : X -> Y) (l : list X) (a b : X) :
  NoDup (f <$> l) -> In a l -> In b l -> f a = f b -> a = b.
Proof.
  induction l as [|x l IH]; simpl; [by intros _ [] |].
  intros [Hx Hnd]%NoDup_cons [-> | Ha] [-> | Hb] Heq; [done | | |by apply IH].
  - destruct Hx. rewrite Heq. apply list_elem_of_fmap. exists b.
    split; [done | by apply list_elem_of_In].
  - destruct Hx. rewrite <- Heq. apply list_elem_of_fmap. exists a.
    split; [done | by apply list_elem_of_In].
Qed.


(** Every crash has one row in the Season dimension. *)
Lemma season_of_crash fatal_crash c :
  In c fatal_crash ->
  List.filter (fun s => bool_decide (Year c = sea_Year s) && bool_decide (Month c = sea_Month s))
              (season_dim fatal_crash)
  = [season_of (Year c, Month c)].
Proof.
  intros Hc. unfold season_dim. rewrite filter_fmap. cbn [sea_Year sea_Month season_of].
  assert (Hpairs : List.filter (fun ym : option Z * Z => bool_decide ((Year c, Month c) = ym))
                     (year_month_combinations fatal_crash) = [(Year c, Month c)]).
  { apply (filter_own_key id).
    - apply drop_duplicates_NoDup.
    - apply list_elem_of_In. rewrite <- (list_fmap_id (year_month_combinations _)).
      apply (drop_duplicates_complete id _ (Year c, Month c)).
      apply in_map_iff. by exists c. }
  erewrite filter_ext; [by rewrite Hpairs |].
  intros [y m]. simpl. destruct (decide (Year c = y)) as [-> | Hy].
  - destruct (decide (Month c = m)) as [-> | Hm].
    + by rewrite !bool_decide_eq_true_2.
    + rewrite (bool_decide_eq_false_2 (Month c = m)) by done.
      rewrite andb_false_r. symmetry. apply bool_decide_eq_false_2. congruence.
  - rewrite (bool_decide_eq_false_2 (Year c = y)) by done.
    symmetry. apply bool_decide_eq_false_2. congruence.
Qed.

(** With distinct crash identifiers the fact table of [etl.py] has one row per
    crash, in the order of the crashes. *)
Lemma fact_table_one_row_per_crash fatal_crash :
  NoDup (Crash_ID <$> fatal_crash) ->
  (fun r => (fact_Crash_ID r, fact_Year r, fact_Month r))
    <$> fact_table fatal_crash (season_dim fatal_crash)
  = (fun c => (Crash_ID c, Year c, Month c)) <$> fatal_crash.
Proof.
  intros Hnd. unfold fact_table. cbv zeta.
  rewrite (merge_left_one_match _ _ _ fatal_crash fatal_crash id)
    by (intros c Hc; by apply (filter_own_key Crash_ID)).
  rewrite <- list_fmap_compose.
  rewrite (merge_left_one_match _ _ _ _ (season_dim fatal_crash)
             (fun cn => season_of (Year cn.1, Month cn.1))).
  2: { intros cn (c & <- & Hc)%in_map_iff. simpl. by apply season_of_crash. }
  rewrite <- list_fmap_compose.
  rewrite drop_duplicates_id.
  - rewrite <- list_fmap_compose. reflexivity.
  - rewrite list_fmap_id. apply (NoDup_fmap_1 fact_Crash_ID).
    rewrite <- list_fmap_compose. exact Hnd.
Qed.

(** ** The year window *)

Section Window.

Lemma prepared_crash fatal_crash c :
  In c (prepare_crashes fatal_crash) ->
  within_window (Year c) /\
  crash_in_window fatal_crash (Crash_ID c) /\
  area_in_window fatal_crash (National_Remoteness_Areas c) /\
  lga_in_window fatal_crash (National_LGA_Name_2021 c).
Proof.
  intros (c0 & time & Hc0 & Hy%in_window_bounds & ->)%in_prepare_crashes.
  split; [exact Hy |]. repeat split; by exists c0.
Qed.

Lemma in_filter_fatalities fatalities fatal_crash f :
  In f (filter_fatalities fatalities fatal_crash) ->
  In f fatalities /\ within_window (f_Year f) /\
  exists c, In c fatal_crash /\ Crash_ID c = f_Crash_ID f.
Proof.
  unfold filter_fatalities. intros [[Hf Hy]%filter_In Hid]%filter_In.
  split; [done |]. split; [by apply in_window_bounds |].
  apply bool_decide_eq_true_1 in Hid. unfold valid_crash_ids in Hid.
  apply elem_of_list_to_set, list_elem_of_fmap in Hid as (c & Hc & Hin).
  exists c. split; [by apply list_elem_of_In | done].
Qed.

Lemma in_assign_group_medians unknown driver_dim r :
  In r (assign_group_medians unknown driver_dim) ->
  exists r0, In r0 driver_dim /\ drv_Crash_ID r = drv_Crash_ID r0.
Proof.
  intros (r0 & <- & Hr0)%in_map_iff. exists r0. split; [done |].
  by destruct (drv_Age r0).
Qed.

Lemma in_fillna_Age value driver_dim r :
  In r (fillna_Age value driver_dim) ->
  exists r0, In r0 driver_dim /\ drv_Crash_ID r = drv_Crash_ID r0.
Proof.
  intros (r0 & <- & Hr0)%in_map_iff. exists r0. split; [done |].
  by destruct (drv_Age r0).
Qed.

(** The age repair keeps the crash of every row. *)
Lemma in_fix_missing_ages unknown driver_dim r :
  In r (fix_missing_ages unknown driver_dim) ->
  exists r0, In r0 driver_dim /\ drv_Crash_ID r = drv_Crash_ID r0.
Proof.
  unfold fix_missing_ages. destruct (existsb _ driver_dim); [| by exists r].
  intros (r1 & Hr1 & ->)%in_fillna_Age.
  by apply in_assign_group_medians in Hr1.
Qed.

Lemma in_entries_of_strings (unique : list pyval) (f : string -> population_entry)
    (e : population_entry) :
  In e (omap (fun area => match area with
                          | PyStr a => Some (f a)
                          | _ => None
                          end) unique) ->
  exists a, In (PyStr a) unique /\ e = f a.
Proof.
  intros He%list_elem_of_In. apply list_elem_of_omap in He as (v & Hv & He).
  destruct v as [| a | |]; try discriminate He. injection He as <-.
  exists a. split; [by apply list_elem_of_In | done].
Qed.

Lemma in_remoteness_entries unique remoteness_df e :
  In e (remoteness_entries unique remoteness_df) -> In (PyStr (pop_Remoteness_Area e)) unique.
Proof.
  unfold remoteness_entries.
  destruct remoteness_df; intros (a & Ha & ->)%in_entries_of_strings; exact Ha.
Qed.

Lemma in_unique_remoteness fatal_crash area :
  In area (unique_remoteness fatal_crash) ->
  exists c, In c fatal_crash /\ National_Remoteness_Areas c = area.
Proof.
  unfold unique_remoteness. intros Ha%list_elem_of_In.
  apply elem_of_unique, list_elem_of_In, filter_In in Ha as [Ha _].
  apply in_map_iff in Ha as (c & <- & Hc). by exists c.
Qed.

Lemma in_lga_entries regex_search fatal_crash lga_df e :
  In e (lga_entries regex_search (unique_lgas fatal_crash) lga_df) ->
  exists c, In c fatal_crash /\ National_LGA_Name_2021 c = PyStr (lga_LGA_Name e).
Proof.
  unfold lga_entries. intros He%list_elem_of_In.
  apply list_elem_of_omap in He as (v & Hv & He).
  destruct v as [| name | |]; try discriminate He.
  assert (Hname : lga_LGA_Name e = name).
  { destruct (String.eqb name "Unknown"); [discriminate He |].
    destruct (List.filter _ lga_df); by injection He as <-. }
  rewrite Hname. clear He Hname. unfold unique_lgas in Hv.
  apply elem_of_unique, list_elem_of_In, filter_In in Hv as [Hv _].
  apply in_map_iff in Hv as (c & Hc & Hin). by exists c.
Qed.

End Window.

(** C5. In a run on any two loaded frames, every row of the Time and Season
    dimensions and of the fact table has its year from 2001 to 2023; every row
    of the Location, Vehicle, Road Condition and Crash Type dimensions is the
    row of a loaded crash whose year is in that range; every Driver row comes
    from a fatality record whose own year is in the range and whose crash is
    such a crash; every row of the Population and LGA dimensions names the area
    of such a crash. *)
Theorem outputs_within_window regex_search fatal_crash fatalities remoteness_df lga_df :
  let o := run regex_search fatal_crash fatalities remoteness_df lga_df in
  (forall r, In r (out_time o) -> within_window (time_Year r)) /\
  (forall r, In r (out_season o) -> within_window (sea_Year r)) /\
  (forall r, In r (out_fact o) -> within_window (fact_Year r)) /\
  (forall r, In r (out_location o) -> crash_in_window fatal_crash (loc_Crash_ID r)) /\
  (forall r, In r (out_vehicle o) -> crash_in_window fatal_crash (veh_Crash_ID r)) /\
  (forall r, In r (out_road_condition o) -> crash_in_window fatal_crash (road_Crash_ID r)) /\
  (forall r, In r (out_crash_type o) -> crash_in_window fatal_crash (ct_Crash_ID r)) /\
  (forall r, In r (out_driver o) ->
     crash_in_window fatal_crash (drv_Crash_ID r) /\
     exists f, In f fatalities /\ f_Crash_ID f = drv_Crash_ID r /\ within_window (f_Year f)) /\
  (forall area, In area (population_areas (out_population o)) ->
     area_in_window fatal_crash area) /\
  (forall e, In e (out_lga o) -> lga_in_window fatal_crash (PyStr (lga_LGA_Name e))).
Proof.
  cbv zeta. unfold run. cbn [out_time out_season out_fact out_location out_vehicle
    out_road_condition out_crash_type out_driver out_population out_lga].
  pose proof (prepared_crash fatal_crash) as Hprepared.
  set (crashes := prepare_crashes fatal_crash) in *.
  split; [| split; [| split; [| split; [| split; [| split; [| split; [| split; [| split]]]]]]]].
  - intros r (c & <- & Hc)%in_drop_duplicates%in_map_iff. by apply Hprepared.
  - intros r (ym & <- & Hym)%in_map_iff.
    apply in_drop_duplicates, in_map_iff in Hym as (c & <- & Hc). by apply Hprepared.
  - intros r Hr%in_drop_duplicates.
    apply in_merge_left in Hr as (cn & Hcn & Hr).
    assert (Hy : fact_Year r = Year cn.1)
      by by destruct Hr as [(s & _ & _ & ->) | (_ & ->)].
    rewrite Hy. clear Hr Hy.
    apply in_map_iff in Hcn as (ck & <- & Hck).
    apply in_merge_left in Hck as (c & Hc & Hck).
    assert (Hfst : ck.1 = c) by by destruct Hck as [(c' & _ & _ & ->) | (_ & ->)].
    simpl. rewrite Hfst. by apply Hprepared.
  - intros r (c & <- & Hc)%in_drop_duplicates%in_map_iff. by apply Hprepared.
  - intros r (c & <- & Hc)%in_drop_duplicates%in_map_iff. by apply Hprepared.
  - intros r (c & <- & Hc)%in_drop_duplicates%in_map_iff. by apply Hprepared.
  - intros r (c & <- & Hc)%in_drop_duplicates%in_map_iff. by apply Hprepared.
  - intros r Hr. apply in_drop_duplicates, in_fix_missing_ages in Hr as (r0 & Hr0 & ->).
    apply in_map_iff in Hr0 as (f & <- & Hf).
    apply in_filter_fatalities in Hf as (Hf & Hy & c & Hc & Hid).
    cbn [drv_Crash_ID]. split; [rewrite <- Hid; by apply Hprepared |].
    by exists f.
  - intros area. unfold population_dim.
    destruct (remoteness_entries _ remoteness_df) as [|e entries] eqn:Hentries.
    + cbn [population_areas]. intros ([st a] & <- & Hpair)%in_map_iff.
      apply in_drop_duplicates, filter_In in Hpair as [Hpair _].
      apply in_map_iff in Hpair as (c & [= <- <-] & Hc). by apply Hprepared.
    + cbn [population_areas]. intros (e' & <- & He')%in_map_iff.
      rewrite <- Hentries in He'.
      apply in_remoteness_entries, in_unique_remoteness in He' as (c & Hc & <-).
      by apply Hprepared.
  - intros e (c & Hc & <-)%in_lga_entries. by apply Hprepared.
Qed.

Lemma outputs_within_window_witness :
  let o := run contains Samples.loaded_crashes Samples.loaded_fatalities [] Samples.lga_df in
  length (out_time o) = 5%nat /\ length (out_driver o) = 1%nat /\
  (exists r, In r (out_time o) /\ within_window (time_Year r)) /\
  (exists r, In r (out_driver o) /\ crash_in_window Samples.loaded_crashes (drv_Crash_ID r)).
Proof.
  cbv zeta.
  pose proof (outputs_within_window contains Samples.loaded_crashes
                Samples.loaded_fatalities [] Samples.lga_df) as Hall.
  cbv zeta in Hall.
  destruct Hall as (Htime & _ & _ & _ & _ & _ & _ & Hdriver & _).
  split; [vm_compute; reflexivity |]. split; [vm_compute; reflexivity |]. split.
  - destruct (out_time (run contains Samples.loaded_crashes Samples.loaded_fatalities []
                          Samples.lga_df))
      as [|r rows] eqn:Hrows; [vm_compute in Hrows; discriminate Hrows |].
    exists r. split; [by left |]. apply Htime. by left.
  - destruct (out_driver (run contains Samples.loaded_crashes Samples.loaded_fatalities []
                            Samples.lga_df))
      as [|r rows] eqn:Hrows; [vm_compute in Hrows; discriminate Hrows |].
    exists r. split; [by left |]. apply Hdriver. by left.
Defined.

Example window_drops_1999 :
  let o := run contains Samples.loaded_crashes Samples.loaded_fatalities [] Samples.lga_df in
  time_Crash_ID <$> out_time o
  = [PyInt 20101001; PyInt 20101002; PyInt 20101003; PyInt 20101004; PyInt 20101005] /\
  drv_Crash_ID <$> out_driver o = [PyInt 20101001] /\
  (fun e => (lga_LGA_Name e, lga_Data_Source e)) <$> out_lga o
  = [("Cessnock", "Reference Data")].
Proof. repeat split; vm_compute; reflexivity. Qed.

(** ** The repair of missing driver ages *)

Section AgeRepair.

Variable unknown : list string.
Variable driver_dim : list driver_row.

Lemma mapping_loop_lookup (keys : list pyval) (mapping : gmap pyval (option Qc)) g :
  foldl (mapping_step unknown driver_dim) mapping keys !! g =
    if bool_decide (g ∈ keys) && negb (is_unknown unknown g)
    then Some (group_median driver_dim g)
    else mapping !! g.
Proof.
  revert mapping. induction keys as [|k keys IH]; intros mapping; [done |].
  cbn [foldl]. rewrite IH. unfold mapping_step.
  destruct (decide (g = k)) as [-> | Hne].
  - rewrite (bool_decide_eq_true_2 (k ∈ k :: keys)) by by left.
    destruct (is_unknown unknown k) eqn:Hunk.
    + by rewrite !andb_false_r.
    + rewrite !andb_true_r, lookup_insert_eq. by destruct (bool_decide (k ∈ keys)).
  - assert (Hin : bool_decide (g ∈ k :: keys) = bool_decide (g ∈ keys)).
    { apply bool_decide_ext. rewrite elem_of_cons.
      split; [by intros [? | ?] | by right]. }
    rewrite Hin. destruct (_ && _); [done |].
    destruct (is_unknown unknown k); [done |]. by rewrite lookup_insert_ne.
Qed.

(** Every label of the frame that is neither missing nor unknown has its
    group median in [age_group_mapping]. *)
Lemma age_group_mapping_lookup r :
  In r driver_dim ->
  isna (drv_Age_Group r) = false -> is_unknown unknown (drv_Age_Group r) = false ->
  age_group_mapping unknown driver_dim !! drv_Age_Group r
  = Some (group_median driver_dim (drv_Age_Group r)).
Proof.
  intros Hr Hna Hunk. unfold age_group_mapping.
  rewrite mapping_loop_lookup, Hunk, bool_decide_eq_true_2; [done |].
  apply elem_of_unique, list_elem_of_In, filter_In.
  split; [by apply in_map | by rewrite Hna].
Qed.

Lemma get_median_age_group r :
  In r driver_dim ->
  isna (drv_Age_Group r) = false -> is_unknown unknown (drv_Age_Group r) = false ->
  get_median_age unknown driver_dim (age_group_mapping unknown driver_dim) (drv_Age_Group r)
  = group_median driver_dim (drv_Age_Group r).
Proof.
  intros Hr Hna Hunk. unfold get_median_age.
  by rewrite Hna, Hunk, age_group_mapping_lookup.
Qed.

Lemma get_median_age_overall mapping g :
  isna g = true \/ is_unknown unknown g = true ->
  get_median_age unknown driver_dim mapping g = overall_median driver_dim.
Proof.
  intros Hg. unfold get_median_age.
  assert (Hor : isna g || is_unknown unknown g = true)
    by (apply orb_true_iff; exact Hg).
  by rewrite Hor.
Qed.

Lemma assign_group_medians_lookup i r :
  driver_dim !! i = Some r -> drv_Age r = None ->
  assign_group_medians unknown driver_dim !! i
  = Some (set_Age r (get_median_age unknown driver_dim
                       (age_group_mapping unknown driver_dim) (drv_Age_Group r))).
Proof.
  intros Hi Hage. unfold assign_group_medians.
  rewrite list_lookup_fmap, Hi. simpl. by rewrite Hage.
Qed.

Lemma fix_missing_ages_lookup i r :
  driver_dim !! i = Some r -> drv_Age r = None ->
  fix_missing_ages unknown driver_dim !! i =
    Some (match get_median_age unknown driver_dim
                  (age_group_mapping unknown driver_dim) (drv_Age_Group r) with
          | Some m => set_Age r (Some m)
          | None => set_Age r (overall_median (assign_group_medians unknown driver_dim))
          end).
Proof.
  intros Hi Hage. unfold fix_missing_ages.
  assert (Hany : existsb (fun r => bool_decide (drv_Age r = None)) driver_dim = true).
  { apply existsb_exists. exists r. split.
    - apply list_elem_of_In. by eapply list_elem_of_lookup_2.
    - by apply bool_decide_eq_true_2. }
  rewrite Hany. unfold fillna_Age. rewrite list_lookup_fmap.
  rewrite (assign_group_medians_lookup i r Hi Hage). simpl.
  by destruct (get_median_age _ _ _ _).
Qed.

End AgeRepair.

(** C7 (as the code has it). A Driver row without age comes out of the
    repair with every other column as it was and: the median of the known ages
    of its age group, when the group is named and has known ages; the median of
    all known ages of the dimension, when its age group is missing or unknown;
    and, when its group is named but no age is known in it, the median of the
    age column as it stands after the first two kinds of rows were filled.
    The same holds of [fix_driver_age.py], whose only unknown label is
    'Unknown'. *)
Theorem age_backfill (unknown : list string) (driver_dim : list driver_row)
    (i : nat) (r : driver_row) :
  driver_dim !! i = Some r -> drv_Age r = None ->
  exists age,
    fix_missing_ages unknown driver_dim !! i = Some (set_Age r age) /\
    (isna (drv_Age_Group r) = false -> is_unknown unknown (drv_Age_Group r) = false ->
     forall m, group_median driver_dim (drv_Age_Group r) = Some m -> age = Some m) /\
    (isna (drv_Age_Group r) = true \/ is_unknown unknown (drv_Age_Group r) = true ->
     forall m, overall_median driver_dim = Some m -> age = Some m) /\
    (isna (drv_Age_Group r) = false -> is_unknown unknown (drv_Age_Group r) = false ->
     group_median driver_dim (drv_Age_Group r) = None ->
     age = overall_median (assign_group_medians unknown driver_dim)).
Proof.
  intros Hi Hage.
  assert (Hr : In r driver_dim).
  { apply list_elem_of_In. by eapply list_elem_of_lookup_2. }
  rewrite (fix_missing_ages_lookup unknown driver_dim i r Hi Hage).
  destruct (get_median_age unknown driver_dim _ (drv_Age_Group r)) as [m0 |] eqn:Hget.
  - exists (Some m0). split; [done |]. split; [| split].
    + intros Hna Hunk m Hm. rewrite get_median_age_group in Hget by done. congruence.
    + intros Hg m Hm. rewrite get_median_age_overall in Hget by done. congruence.
    + intros Hna Hunk Hnone. rewrite get_median_age_group in Hget by done. congruence.
  - exists (overall_median (assign_group_medians unknown driver_dim)).
    split; [done |]. split; [| split].
    + intros Hna Hunk m Hm. rewrite get_median_age_group in Hget by done. congruence.
    + intros Hg m Hm. rewrite get_median_age_overall in Hget by done. congruence.
    + done.
Qed.

Lemma age_backfill_witness :
  exists r,
    fix_missing_ages unknown_labels Samples.drivers_17_to_25 !! 3%nat = Some r /\
    drv_Age r = Some (Q2Qc 22) /\
    FixDriverAge.fix_driver_age Samples.drivers_17_to_25 !! 3%nat = Some r.
Proof.
  set (r := Samples.driver (PyStr "17_to_25") None).
  assert (Hgroup : group_median Samples.drivers_17_to_25 (drv_Age_Group r) = Some (Q2Qc 22))
    by (vm_compute; reflexivity).
  destruct (age_backfill unknown_labels Samples.drivers_17_to_25 3 r eq_refl eq_refl)
    as (age & Hfix & Hage & _).
  destruct (age_backfill FixDriverAge.unknown_labels Samples.drivers_17_to_25 3 r
              eq_refl eq_refl) as (age' & Hfix' & Hage' & _).
  rewrite (Hage eq_refl eq_refl _ Hgroup) in Hfix.
  rewrite (Hage' eq_refl eq_refl _ Hgroup) in Hfix'.
  exists (set_Age r (Some (Q2Qc 22))). by repeat split.
Defined.

(** C7 (as stated) fails on a dimension with known ages 10 and 30 in group A
    and 90 in group B, two rows without age in A, one in the unknown group and
    one in a group C without known age: the median of the known ages of the
    dimension is 30 and the row of the unknown group gets it, but the row of
    group C gets 25, the median of 10, 20, 20, 30, 30, 90. *)
Lemma empty_group_not_overall_median :
  this <$> overall_median Samples.drivers_mixed = Some (30 # 1) /\
  group_median Samples.drivers_mixed (PyStr "C") = None /\
  age_value <$> fix_missing_ages unknown_labels Samples.drivers_mixed !! 5%nat
    = Some (Some (30 # 1)) /\
  age_value <$> fix_missing_ages unknown_labels Samples.drivers_mixed !! 6%nat
    = Some (Some (25 # 1)) /\
  ~ (forall driver_dim i r r',
       driver_dim !! i = Some r -> drv_Age r = None ->
       group_median driver_dim (drv_Age_Group r) = None ->
       fix_missing_ages unknown_labels driver_dim !! i = Some r' ->
       drv_Age r' = overall_median driver_dim).
Proof.
  split; [vm_compute; reflexivity |]. split; [vm_compute; reflexivity |].
  split; [vm_compute; reflexivity |]. split; [vm_compute; reflexivity |].
  intros Hclaim.
  destruct (fix_missing_ages unknown_labels Samples.drivers_mixed !! 6%nat)
    as [r' |] eqn:Hfix; [| vm_compute in Hfix; discriminate Hfix].
  specialize (Hclaim Samples.drivers_mixed 6%nat
                (Samples.driver (PyStr "C") None) r' eq_refl eq_refl eq_refl Hfix).
  apply (f_equal (fmap this)) in Hclaim.
  vm_compute in Hfix. injection Hfix as <-. vm_compute in Hclaim. discriminate Hclaim.
Qed.

Example median_of_20_22_24 :
  age_value <$> fix_missing_ages unknown_labels Samples.drivers_17_to_25
  = [Some (20 # 1); Some (22 # 1); Some (24 # 1); Some (22 # 1)].
Proof. vm_compute. reflexivity. Qed.

Import Py Etl.

(** * Further properties of the code *)

(** ** The matching loop and the remoteness entries *)

(** The loop as a search: the first row it stops on, or else the last row
    of the fallback test. *)

Lemma match_rows_closed_form area rows best :
  match_rows area rows best =
    match List.find (breaks_on area) rows with
    | Some row => Some row
    | None => match last (List.filter (falls_back_on area) rows) with
              | Some row => Some row
              | None => best
              end
    end.
Proof.
  revert best. induction rows as [|row rows IH]; intros best; [reflexivity |].
  cbn [match_rows List.find List.filter]. unfold breaks_on at 1, falls_back_on at 1.
  destruct (String.eqb area (ref_Remoteness_Area row)); [reflexivity |].
  destruct (contains (ref_Remoteness_Area row) area); [reflexivity |].
  cbn [orb]. rewrite !IH.
  destruct (contains (ref_Remoteness_Category row) area && contains (ref_State row) area);
    [| reflexivity].
  destruct (List.find (breaks_on area) rows); [reflexivity |].
  rewrite last_cons. by destruct (last _).
Qed.

(** X1. The matching loop over the reference rows gives the first row whose
    area is the area sought or is part of it; when there is none, the last row
    whose category and state are both parts of the area sought; and it gives no
    row exactly when no row of the reference passes either test. *)
Theorem match_rows_first_stop_else_last_fallback area rows :
  match_rows area rows None = chosen_row area rows /\
  (match_rows area rows None = None <->
   forall row, In row rows -> breaks_on area row = false /\ falls_back_on area row = false).
Proof.
  assert (Hform : match_rows area rows None = chosen_row area rows).
  { rewrite match_rows_closed_form. unfold chosen_row.
    destruct (List.find _ rows); [reflexivity |]. by destruct (last _). }
  split; [exact Hform |]. rewrite Hform. unfold chosen_row. split.
  - destruct (List.find (breaks_on area) rows) as [r |] eqn:Hfind; [discriminate |].
    intros Hlast row Hrow. split.
    + by apply (find_none _ _ Hfind).
    + apply last_None in Hlast.
      destruct (falls_back_on area row) eqn:Hfb; [| reflexivity].
      assert (Hin : In row (List.filter (falls_back_on area) rows)) by by apply filter_In.
      rewrite Hlast in Hin. destruct Hin.
  - intros Hnone.
    destruct (List.find (breaks_on area) rows) as [r |] eqn:Hfind.
    + apply find_some in Hfind as [Hr Hb]. destruct (Hnone r Hr). congruence.
    + apply last_None. apply filter_none. intros row Hrow. by apply Hnone.
Qed.

Lemma build_mapping_lookup unique remoteness_df mapping a :
  build_mapping unique remoteness_df mapping !! a =
    if bool_decide (PyStr a ∈ unique) then
      match match_rows a remoteness_df None with
      | Some row => Some row
      | None => mapping !! a
      end
    else mapping !! a.
Proof.
  revert mapping. induction unique as [|v unique IH]; intros mapping; [reflexivity |].
  assert (Hskip : forall v', v' <> PyStr a ->
            bool_decide (PyStr a ∈ v' :: unique) = bool_decide (PyStr a ∈ unique)).
  { intros v' Hne. apply bool_decide_ext. rewrite elem_of_cons.
    split; [intros [? | ?]; [congruence | done] | by right]. }
  destruct v as [z | area | |]; cbn [build_mapping];
    try (rewrite IH, Hskip by discriminate; reflexivity).
  destruct (decide (area = a)) as [-> | Hne].
  - rewrite (bool_decide_eq_true_2 (PyStr a ∈ PyStr a :: unique)) by by left.
    destruct (match_rows a remoteness_df None) as [row |] eqn:Hrow; rewrite IH.
    + rewrite ?Hrow, lookup_insert_eq. by destruct (bool_decide _).
    + rewrite ?Hrow. by destruct (bool_decide _).
  - rewrite Hskip by congruence.
    destruct (match_rows area remoteness_df None); rewrite IH; [| reflexivity].
    by rewrite lookup_insert_ne.
Qed.

Lemma omap_ext_in {X Y : Type} (f g : X -> option Y) (l : list X) :
  (forall x, In x l -> f x = g x) -> omap f l = omap g l.
Proof.
  induction l as [|x l IH]; intros Hfg; [reflexivity |].
  cbn [omap list_omap]. rewrite (Hfg x) by by left.
  rewrite IH; [reflexivity |]. intros y Hy. apply Hfg. by right.
Qed.

(** The dict [mapping] is read back where it was written: an entry carries
    the population of the row that the matching loop chooses for its area. *)
Lemma remoteness_entries_closed_form unique remoteness_df :
  remoteness_entries unique remoteness_df = omap (entry_by_matching remoteness_df) unique.
Proof.
  unfold remoteness_entries. destruct remoteness_df as [|row rows].
  - apply omap_ext_in. by intros [] _.
  - apply omap_ext_in. intros [z | a | |] Ha; try reflexivity.
    cbn [entry_by_matching]. rewrite build_mapping_lookup, lookup_empty.
    rewrite bool_decide_eq_true_2 by by apply list_elem_of_In.
    by destruct (match_rows a (row :: rows) None).
Qed.

(** X2. The remoteness entries are one for every text among the areas of the
    crashes, in their order.  The population of an entry is that of the row
    that the matching loop gives for its area; its source is "Reference Data"
    exactly when there is such a row and "Derived" exactly when there is
    none. *)
Theorem remoteness_entries_by_matching unique remoteness_df :
  remoteness_entries unique remoteness_df = omap (entry_by_matching remoteness_df) unique /\
  forall e, In e (remoteness_entries unique remoteness_df) ->
    In (PyStr (pop_Remoteness_Area e)) unique /\
    pop_Population e
      = (ref_Population <$> match_rows (pop_Remoteness_Area e) remoteness_df None) /\
    (pop_Data_Source e = "Reference Data" <-> is_Some (pop_Population e)) /\
    (pop_Data_Source e = "Derived" <-> pop_Population e = None).
Proof.
  split; [apply remoteness_entries_closed_form |].
  rewrite remoteness_entries_closed_form. intros e He%list_elem_of_In.
  apply list_elem_of_omap in He as (v & Hv%list_elem_of_In & He).
  destruct v as [z | a | |]; try discriminate He. injection He as <-.
  cbn [entry_of pop_Remoteness_Area pop_Population pop_Data_Source].
  split; [exact Hv |]. split; [reflexivity |].
  destruct (match_rows a remoteness_df None); cbn; split; split;
    try done; try by eexists.
Qed.

Lemma remoteness_entries_by_matching_witness :
  Forall (fun e => pop_Population e = Some (Q2Qc 31000))
         (remoteness_entries [PyStr "Remote Australia (NSW)"] Samples.remoteness_df_nsw).
Proof.
  apply Forall_forall. intros e He%list_elem_of_In.
  destruct (proj2 (remoteness_entries_by_matching [PyStr "Remote Australia (NSW)"]
                     Samples.remoteness_df_nsw) e He) as (Harea & -> & _).
  destruct Harea as [[= <-] | []]. reflexivity.
Defined.

(** ** The state of an area *)

Lemma state_of_area_in area : In (state_of_area area) ("Unknown" :: states).
Proof.
  unfold state_of_area.
  destruct (List.find (fun s => contains s area) states) as [s |] eqn:Hfind.
  - right. by apply find_some in Hfind as [Hs _].
  - by left.
Qed.

(** X3. The state of an entry is read back from the name of its area:
    [state_of_area] gives one of the eight states or 'Unknown', 'Unknown'
    exactly when no state is part of the name, and on the name that the
    remoteness reference gives to a category and a state it gives that
    state. *)
Theorem state_of_area_recovers_state :
  (forall area, In (state_of_area area) ("Unknown" :: states)) /\
  (forall area, state_of_area area = "Unknown" <->
                forall s, In s states -> contains s area = false) /\
  (forall state category value, In state states -> In category remoteness_categories ->
     ref_Remoteness_Area (remoteness_record state category value) = area_name category state /\
     state_of_area (ref_Remoteness_Area (remoteness_record state category value)) = state).
Proof.
  split; [exact state_of_area_in |]. split.
  - intros area. unfold state_of_area.
    destruct (List.find (fun s => contains s area) states) as [s |] eqn:Hfind.
    + apply find_some in Hfind as [Hs Hc]. split.
      * intros ->. simpl in Hs. repeat (destruct Hs as [Hs | Hs]; [discriminate Hs |]).
        destruct Hs.
      * intros Hnone. rewrite (Hnone s Hs) in Hc. discriminate Hc.
    + split; [| reflexivity]. intros _ s Hs. by apply (find_none _ _ Hfind).
  - intros state category value Hs Hc. split; [reflexivity |].
    cbn [remoteness_record ref_Remoteness_Area].
    assert (Hall : Forall (fun sc : string * string =>
                             state_of_area (sc.2 +:+ " Australia (" +:+ sc.1 +:+ ")") = sc.1)
                          (list_prod states remoteness_categories)).
    { apply (bool_decide_unpack _). vm_compute. exact I. }
    rewrite Forall_forall in Hall.
    apply (Hall (state, category)). apply list_elem_of_In, in_prod; done.
Qed.

Lemma state_of_area_recovers_state_witness :
  state_of_area "Very Remote Australia (NT)" = "NT".
Proof.
  refine (proj2 (proj2 (proj2 state_of_area_recovers_state) "NT" "Very Remote" (Q2Qc 1) _ _)).
  - simpl. tauto.
  - simpl. tauto.
Defined.

Import Py CreatFactTable.

(** ** The rows of the fact table ([create_fact_table]) *)

Section MoreFrames.

Context {A B C : Type}.

(** A left merge in which no left row has two matches keeps the rows one for
    one. *)
Lemma merge_left_at_most_one (on : A -> B -> bool) (matched : A -> B -> C)
    (unmatched : A -> C) (left : list A) (right : list B) :
  (forall a, In a left -> (length (List.filter (on a) right) <= 1)%nat) ->
  merge_left on matched unmatched left right
  = (fun a => match List.filter (on a) right with
              | b :: _ => matched a b
              | [] => unmatched a
              end) <$> left.
Proof.
  unfold merge_left. induction left as [|a left IH]; intros Hone; [done |].
  cbn [flat_map fmap list_fmap]. rewrite IH by (intros a' Ha'; apply Hone; by right).
  specialize (Hone a (or_introl eq_refl)).
  destruct (List.filter (on a) right) as [|b [|b' bs]]; simpl in *; [done | done | lia].
Qed.

(** Every left row has a row in the merged frame. *)
Lemma merge_left_keeps (on : A -> B -> bool) (matched : A -> B -> C)
    (unmatched : A -> C) (left : list A) (right : list B) (a : A) :
  In a left ->
  exists c, In c (merge_left on matched unmatched left right) /\
            (c = unmatched a \/ exists b, c = matched a b).
Proof.
  intros Ha. destruct (List.filter (on a) right) as [|b bs] eqn:Hf.
  - exists (unmatched a). split; [| by left].
    apply in_merge_left. exists a. split; [done |]. by right.
  - exists (matched a b). split; [| right; by exists b].
    apply in_merge_left. exists a. split; [done |]. left. exists b.
    assert (Hb : In b (List.filter (on a) right)) by (rewrite Hf; by left).
    apply filter_In in Hb as [Hb Hon]. by split.
Qed.

Lemma merge_left_length (on : A -> B -> bool) (matched : A -> B -> C)
    (unmatched : A -> C) (left : list A) (right : list B) :
  (length left <= length (merge_left on matched unmatched left right))%nat.
Proof.
  unfold merge_left. induction left as [|a left IH]; [done |].
  cbn [flat_map]. rewrite length_app. cbn [length].
  destruct (List.filter (on a) right) as [|b bs].
  - change (length [unmatched a]) with 1%nat. lia.
  - rewrite length_map. cbn [length]. lia.
Qed.

End MoreFrames.

(** In a frame without two rows of one key, at most one row has a given
    key. *)
Lemma filter_key_at_most_one {X Y : Type} `{EqDecision Y} (f : X -> Y) (l : list X) (k : Y) :
  NoDup (f <$> l) ->
  (length (List.filter (fun b => bool_decide (k = f b)) l) <= 1)%nat.
Proof.
  induction l as [|x l IH]; [simpl; lia |].
  cbn [fmap list_fmap List.filter]. intros [Hx Hnd]%NoDup_cons.
  destruct (bool_decide_reflect (k = f x)) as [-> | Hne]; [| by apply IH].
  rewrite filter_none; [simpl; lia |].
  intros b Hb. apply bool_decide_eq_false_2. intros Heq. apply Hx. rewrite Heq.
  apply list_elem_of_fmap. exists b. split; [done | by apply list_elem_of_In].
Qed.

(** The rows of a key after [drop_duplicates(subset=key)]: the first row of
    the key, if there is one. *)
Lemma filter_drop_duplicates_from {X Y : Type} `{EqDecision Y} (key : X -> Y)
    (seen : list Y) (l : list X) (k : Y) :
  List.filter (fun b => bool_decide (k = key b)) (drop_duplicates_from key seen l)
  = if bool_decide (k ∈ seen) then []
    else match List.find (fun b => bool_decide (k = key b)) l with
         | Some b => [b]
         | None => []
         end.
Proof.
  revert seen. induction l as [|a l IH]; intros seen.
  - simpl. by destruct (bool_decide _).
  - cbn [drop_duplicates_from List.find].
    destruct (bool_decide_reflect (key a ∈ seen)) as [Hseen | Hnew].
    + rewrite IH. destruct (bool_decide_reflect (k ∈ seen)) as [Hk | Hk]; [done |].
      rewrite bool_decide_eq_false_2; [done |]. intros ->. by apply Hk.
    + cbn [List.filter]. rewrite IH.
      destruct (bool_decide_reflect (k = key a)) as [-> | Hne].
      * rewrite (bool_decide_eq_true_2 (key a ∈ key a :: seen)) by by left.
        by rewrite (bool_decide_eq_false_2 (key a ∈ seen)).
      * rewrite (bool_decide_ext (k ∈ key a :: seen) (k ∈ seen)); [done |].
        rewrite elem_of_cons. split; [by intros [? | ?] | by right].
Qed.

Lemma filter_drop_duplicates {X Y : Type} `{EqDecision Y} (key : X -> Y)
    (l : list X) (k : Y) :
  List.filter (fun b => bool_decide (k = key b)) (drop_duplicates key l)
  = match List.find (fun b => bool_decide (k = key b)) l with
    | Some b => [b]
    | None => []
    end.
Proof.
  unfold drop_duplicates. rewrite filter_drop_duplicates_from.
  rewrite bool_decide_eq_false_2; [done | apply not_elem_of_nil].
Qed.

(** *** Row numbers *)

Lemma base_rows_from_numbered i crash_df rows :
  base_rows_from i crash_df = Some rows ->
  Forall (fun r => exists j c, crash_df !! j = Some c /\
                     fact_id r = Z.of_nat (i + j) + 1 /\
                     crash_id r = c_crash_id c /\ fatalities r = c_fatalities c) rows.
Proof.
  revert i rows. induction crash_df as [|c crash_df IH]; intros i rows; simpl.
  - intros [= <-]. constructor.
  - unfold base_row.
    destruct (decode_year (c_crash_id c)) as [y |]; [| discriminate]. simpl.
    destruct (base_rows_from (S i) crash_df) as [rs |] eqn:Hrs; [| discriminate].
    simpl. intros [= <-]. constructor.
    + exists 0%nat, c. cbn. repeat split. f_equal. lia.
    + eapply Forall_impl; [by eapply IH |].
      intros r (j & c' & Hj & Hid & Hrest). exists (S j), c'.
      split; [exact Hj |]. split; [| exact Hrest]. rewrite Hid. f_equal. lia.
Qed.

Lemma base_rows_numbered crash_df rows :
  base_rows crash_df = Some rows -> Forall (numbered crash_df) rows.
Proof. intros Hrows%base_rows_from_numbered. exact Hrows. Qed.

Lemma fact_frame_numbered crash_df season_df driver_df location_df population_df out :
  fact_frame crash_df season_df driver_df location_df population_df = Some out ->
  Forall (numbered crash_df) out.
Proof.
  intros Hframe.
  apply (fact_frame_Forall _ crash_df season_df driver_df location_df population_df out);
    [by intros r x H | by intros r x H | by intros r x H | by intros r x H
    | by intros r x H | | exact Hframe].
  intros rows. apply base_rows_numbered.
Qed.

(** X4. Every row of the fact table carries as [fact_id] the position, counted
    from 1, of a row of the Crash Type dimension, and has that row's
    [crash_id] and fatalities; its [road_condition_id], [vehicle_id] and
    [lga_id] are copies of the [crash_id]. *)
Theorem fact_id_numbers_the_crashes to_datetime crash_df season_df driver_df location_df
    population_df out :
  create_fact_table to_datetime crash_df season_df driver_df location_df population_df
    = Some out ->
  forall o, In o out ->
    exists i c, crash_df !! i = Some c /\
      o_fact_id o = Z.of_nat i + 1 /\
      o_crash_id o = c_crash_id c /\ o_fatalities o = c_fatalities c /\
      o_road_condition_id o = c_crash_id c /\ o_vehicle_id o = c_crash_id c /\
      o_lga_id o = c_crash_id c.
Proof.
  intros Hout o Ho.
  destruct (in_create_fact_table _ _ _ _ _ _ _ _ Hout Ho)
    as (frame & r & date & Hframe & Hr & _ & ->).
  apply fact_frame_numbered in Hframe. rewrite Forall_forall in Hframe.
  destruct (Hframe r) as (i & c & Hi & Hid & Hcrash & Hfat); [by apply list_elem_of_In |].
  exists i, c. cbn. by rewrite Hcrash.
Qed.

Lemma fact_id_numbers_the_crashes_witness :
  exists out,
    create_fact_table Samples.iso_date Samples.crash_df Samples.season_df Samples.driver_df
      Samples.location_df Samples.population_df = Some out /\
    forall o, In o out -> 1 <= o_fact_id o <= 5 /\ o_vehicle_id o = o_crash_id o.
Proof.
  destruct (create_fact_table Samples.iso_date Samples.crash_df Samples.season_df
              Samples.driver_df Samples.location_df Samples.population_df)
    as [out |] eqn:Hout; [| vm_compute in Hout; discriminate Hout].
  exists out. split; [reflexivity |]. intros o Ho.
  destruct (fact_id_numbers_the_crashes _ _ _ _ _ _ _ Hout o Ho)
    as (i & c & Hi & Hid & Hcrash & _ & _ & Hvehicle & _).
  apply lookup_lt_Some in Hi. change (length Samples.crash_df) with 5%nat in Hi.
  split; [lia | congruence].
Defined.

(** *** No crash is lost *)

Lemma Forall2_fmap_eq {X Y D : Type} (R : X -> Y -> Prop) (f : X -> D) (g : Y -> D)
    (l : list X) (k : list Y) :
  (forall x y, R x y -> f x = g y) -> Forall2 R l k -> f <$> l = g <$> k.
Proof.
  intros Hfg. induction 1 as [|x y l k Hxy _ IH]; [done |].
  cbn [fmap list_fmap]. by rewrite (Hfg x y Hxy), IH.
Qed.

(** The rows of the table written are the rows of the frame, in order. *)
Lemma with_crash_date_rows to_datetime frame out :
  with_crash_date to_datetime frame = Some out ->
  Forall2 (fun r o => exists date, o = select_columns r date) frame out.
Proof.
  unfold with_crash_date. intros Hall%mapM_Some.
  eapply Forall2_impl; [exact Hall |]. intros r o Hro. cbv beta in Hro.
  destruct (to_datetime (crash_date_text r)) as [date |]; [| discriminate].
  injection Hro as <-. by exists date.
Qed.

Lemma base_rows_from_columns i crash_df rows :
  base_rows_from i crash_df = Some rows ->
  crash_id <$> rows = c_crash_id <$> crash_df /\
  fact_id <$> rows = (fun j => Z.of_nat j + 1) <$> seq i (length crash_df).
Proof.
  revert i rows. induction crash_df as [|c crash_df IH]; intros i rows; simpl.
  - by intros [= <-].
  - unfold base_row.
    destruct (decode_year (c_crash_id c)) as [y |]; [| discriminate]. simpl.
    destruct (base_rows_from (S i) crash_df) as [rs |] eqn:Hrs; [| discriminate].
    simpl. intros [= <-]. destruct (IH _ _ Hrs) as [Hids Hnums].
    cbn [fmap list_fmap crash_id fact_id]. split; f_equal; done.
Qed.

Section Carried.

Variable id : pyval.

Lemma merge_season_carries fact_df ref :
  carries id fact_df -> carries id (merge_season fact_df ref).
Proof.
  intros (r & Hr & Hid).
  destruct (merge_left_keeps (fun r st => bool_decide (year r = s_year st.1))
              set_season Datatypes.id fact_df ref r Hr) as (r' & Hr' & Hcase).
  exists r'. split; [exact Hr' |]. by destruct Hcase as [-> | [st ->]].
Qed.

Lemma location_join_carries fact_df location_df :
  carries id fact_df -> carries id (location_join fact_df location_df).
Proof.
  intros (r & Hr & Hid).
  destruct (merge_left_keeps (fun r l => bool_decide (state r = l_state l))
              set_location Datatypes.id fact_df location_df r Hr) as (r' & Hr' & Hcase).
  exists r'. split; [exact Hr' |]. by destruct Hcase as [-> | [l ->]].
Qed.

Lemma population_join_carries fact_df population_df :
  carries id fact_df -> carries id (population_join fact_df population_df).
Proof.
  intros (r & Hr & Hid).
  destruct (merge_left_keeps
              (fun r p => bool_decide (state r = p_state p)
                          && bool_decide (Some (year r) = p_year p))
              set_population Datatypes.id fact_df population_df r Hr)
    as (r' & Hr' & Hcase).
  exists r'. split; [exact Hr' |]. by destruct Hcase as [-> | [p ->]].
Qed.

Lemma driver_count_join_carries fact_df driver_df :
  carries id fact_df -> carries id (driver_count_join fact_df driver_df).
Proof.
  intros (r & Hr & Hid). unfold driver_count_join.
  eexists. split; [apply in_map, Hr | exact Hid].
Qed.

Lemma merge_yearly_carries fact_df :
  carries id fact_df -> carries id (merge_yearly fact_df).
Proof.
  intros (r & Hr & Hid). unfold merge_yearly.
  eexists. split; [apply in_map, Hr | exact Hid].
Qed.

End Carried.

Lemma before_yearly_length rows seasons driver_df location_df population_df :
  (length rows
   <= length (before_yearly rows seasons driver_df location_df population_df))%nat.
Proof.
  unfold before_yearly, population_join, location_join, merge_season.
  etrans; [| apply merge_left_length].
  etrans; [| apply merge_left_length].
  unfold driver_count_join. rewrite length_map. apply merge_left_length.
Qed.

(** A left merge without double matches keeps a column that neither way of
    completing a row changes. *)
Lemma merge_left_column {A B C D : Type} (column : C -> D) (column' : A -> D)
    (on : A -> B -> bool) (matched : A -> B -> C) (unmatched : A -> C)
    (left : list A) (right : list B) :
  (forall a, In a left -> (length (List.filter (on a) right) <= 1)%nat) ->
  (forall a b, column (matched a b) = column' a) ->
  (forall a, column (unmatched a) = column' a) ->
  column <$> merge_left on matched unmatched left right = column' <$> left.
Proof.
  intros Hone Hm Hu. rewrite merge_left_at_most_one by done.
  rewrite <- list_fmap_compose. apply list_fmap_ext. intros i a _. unfold compose.
  by destruct (List.filter (on a) right).
Qed.

(** With one row per key in the Location and the Population dimension, every
    step keeps the rows one for one. *)
Lemma before_yearly_columns {D : Type} (column : fact_row -> D)
    rows seasons driver_df location_df population_df :
  (forall r st, column (set_season r st) = column r) ->
  (forall r n, column (set_driver_count r n) = column r) ->
  (forall r l, column (set_location r l) = column r) ->
  (forall r p, column (set_population r p) = column r) ->
  NoDup (l_state <$> location_df) ->
  NoDup (population_key <$> population_df) ->
  column <$> before_yearly rows seasons driver_df location_df population_df
  = column <$> rows.
Proof.
  intros Hseason Hcount Hlocation Hpopulation Hl Hp.
  unfold before_yearly, population_join, location_join, merge_season.
  rewrite (merge_left_column column column); [| | done | done].
  2: { intros r _.
       rewrite (filter_ext _ (fun p => bool_decide ((state r, Some (year r))
                                                    = population_key p))).
       - by apply filter_key_at_most_one.
       - intros p. unfold population_key.
         destruct (bool_decide_reflect (state r = p_state p)) as [Hs | Hs],
                  (bool_decide_reflect (Some (year r) = p_year p)) as [Hy | Hy]; simpl;
           symmetry; (apply bool_decide_eq_true_2 || apply bool_decide_eq_false_2);
           congruence. }
  rewrite (merge_left_column column column);
    [| intros r _; by apply filter_key_at_most_one | done | done].
  unfold driver_count_join. rewrite <- list_fmap_compose.
  erewrite list_fmap_ext; [| intros i r _; apply Hcount].
  apply merge_left_column; [| done | done].
  intros r _. apply (filter_key_at_most_one (fun st => s_year st.1)).
  apply drop_duplicates_NoDup.
Qed.

(** *** The checks of the merges *)

Lemma existsb_members {X : Type} (p : X -> bool) (l l' : list X) :
  (forall x, In x l <-> In x l') -> existsb p l = existsb p l'.
Proof.
  intros Hsame. apply eq_true_iff_eq. rewrite !existsb_exists.
  split; intros (x & Hx & Hp); exists x; (split; [by apply Hsame | done]).
Qed.

Lemma forallb_members {X : Type} (p : X -> bool) (l l' : list X) :
  (forall x, In x l <-> In x l') -> forallb p l = forallb p l'.
Proof.
  intros Hsame. apply eq_true_iff_eq. rewrite !forallb_forall.
  split; intros Hall x Hx; by apply Hall, Hsame.
Qed.


Lemma crash_id_keys_merge_members (left left' driver_column : list pyval) :
  (forall v, In v left <-> In v left') ->
  crash_id_keys_merge left driver_column = crash_id_keys_merge left' driver_column.
Proof.
  intros Hsame. unfold crash_id_keys_merge.
  destruct left as [|v left], left' as [|v' left'].
  - reflexivity.
  - destruct (proj2 (Hsame v') (or_introl eq_refl)).
  - destruct (proj1 (Hsame v) (or_introl eq_refl)).
  - assert (Hobject : object_column (v :: left) = object_column (v' :: left'))
      by apply (existsb_members _ _ _ Hsame).
    by rewrite Hobject, (forallb_members _ _ _ Hsame).
Qed.






(** X5. No crash is lost on the way to the fact table: every row of the Crash
    Type dimension has at least one row in it.  With at most one row per state
    in the Location dimension and per state and year in the Population
    dimension, the fact table has exactly the crashes of the Crash Type
    dimension, in their order, numbered from 1. *)
Theorem every_crash_has_a_fact_row to_datetime crash_df season_df driver_df location_df
    population_df out :
  create_fact_table to_datetime crash_df season_df driver_df location_df population_df
    = Some out ->
  (forall c, In c crash_df -> exists o, In o out /\ o_crash_id o = c_crash_id c) /\
  (length crash_df <= length out)%nat /\
  (NoDup (l_state <$> location_df) -> NoDup (population_key <$> population_df) ->
   o_crash_id <$> out = c_crash_id <$> crash_df /\
   o_fact_id <$> out = (fun i => Z.of_nat i + 1) <$> seq 0 (length crash_df)).
Proof.
  unfold create_fact_table.
  destruct (fact_frame crash_df season_df driver_df location_df population_df)
    as [frame |] eqn:Hframe; [| discriminate].
  cbn [mbind option_bind]. intros Hout%with_crash_date_rows.
  apply fact_frame_Some in Hframe as (rows & seasons & Hrows & _ & ->).
  destruct (base_rows_from_columns _ _ _ Hrows) as [Hids Hnums].
  split; [| split].
  - intros c Hc.
    assert (Hcarried : carries (c_crash_id c)
                         (merge_yearly (before_yearly rows seasons driver_df location_df
                                          population_df))).
    { apply merge_yearly_carries, population_join_carries, location_join_carries,
        driver_count_join_carries, merge_season_carries.
      assert (Hin : c_crash_id c ∈ crash_id <$> rows).
      { rewrite Hids. apply list_elem_of_fmap. exists c.
        split; [done | by apply list_elem_of_In]. }
      apply list_elem_of_fmap in Hin as (r & Hid & Hr%list_elem_of_In). by exists r. }
    destruct Hcarried as (r & Hr%list_elem_of_In & Hid).
    apply list_elem_of_lookup_1 in Hr as [i Hi].
    destruct (Forall2_lookup_l _ _ _ _ _ Hout Hi) as (o & Ho & date & ->).
    exists (select_columns r date). split; [| exact Hid].
    apply list_elem_of_In. by eapply list_elem_of_lookup_2.
  - rewrite <- (Forall2_length _ _ _ Hout). unfold merge_yearly. rewrite length_map.
    etrans; [| apply before_yearly_length].
    apply (f_equal length) in Hids. rewrite !length_fmap in Hids. lia.
  - intros Hl Hp.
    assert (Hcolumn : forall (D : Type) (column : fact_row -> D) (column' : output_row -> D),
              (forall r date, column' (select_columns r date) = column r) ->
              (forall r st, column (set_season r st) = column r) ->
              (forall r n, column (set_driver_count r n) = column r) ->
              (forall r l, column (set_location r l) = column r) ->
              (forall r p, column (set_population r p) = column r) ->
              (forall r stats, column (set_yearly r stats) = column r) ->
              column' <$> out = column <$> rows).
    { intros D column column' Hselect Hseason Hcount Hlocation Hpopulation Hyearly.
      rewrite <- (Forall2_fmap_eq _ column column' _ _
                    (fun r o '(ex_intro _ date Ho) => eq_sym (eq_trans (f_equal column' Ho)
                                                               (Hselect r date))) Hout).
      unfold merge_yearly. rewrite <- list_fmap_compose.
      erewrite list_fmap_ext; [| intros i r _; apply Hyearly].
      by apply before_yearly_columns. }
    split.
    + rewrite <- Hids. by apply Hcolumn.
    + rewrite <- Hnums. by apply Hcolumn.
Qed.

Lemma every_crash_has_a_fact_row_witness :
  exists out,
    create_fact_table Samples.iso_date Samples.crash_df Samples.season_df Samples.driver_df
      Samples.location_df Samples.population_df = Some out /\
    o_fact_id <$> out = [1; 2; 3; 4; 5].
Proof.
  destruct (create_fact_table Samples.iso_date Samples.crash_df Samples.season_df
              Samples.driver_df Samples.location_df Samples.population_df)
    as [out |] eqn:Hout; [| vm_compute in Hout; discriminate Hout].
  exists out. split; [reflexivity |].
  destruct (every_crash_has_a_fact_row _ _ _ _ _ _ _ Hout) as (_ & _ & Hexact).
  destruct Hexact as [_ Hnums].
  - apply (bool_decide_unpack _). vm_compute. exact I.
  - apply (bool_decide_unpack _). vm_compute. exact I.
  - exact Hnums.
Defined.

(** *** The season keys of a fact row *)

(** The season rows with their [time_id], in the order of the Season
    dimension. *)
Lemma with_time_id_rows season_df seasons :
  with_time_id season_df = Some seasons ->
  Forall2 (fun s st => st.1 = s /\ time_id_of s = Some st.2) season_df seasons.
Proof.
  unfold with_time_id. intros Hall%mapM_Some.
  eapply Forall2_impl; [exact Hall |]. intros s st Hst. cbv beta in Hst.
  destruct (time_id_of s) as [t |]; [| discriminate]. by injection Hst as <-.
Qed.

Lemma find_with_time_id season_df seasons y :
  Forall2 (fun s st => st.1 = s /\ time_id_of s = Some st.2) season_df seasons ->
  List.find (fun st : season_row * Z => bool_decide (y = s_year st.1)) seasons
  = s ← first_season_of_year season_df y; t ← time_id_of s; Some (s, t).
Proof.
  unfold first_season_of_year.
  induction 1 as [|s [s' t] season_df seasons [Hs Ht] _ IH]; [reflexivity |].
  simpl in Hs, Ht. subst s'. cbn [List.find fst].
  destruct (bool_decide (y = s_year s)); [| exact IH].
  cbn [mbind option_bind]. by rewrite Ht.
Qed.

Lemma merge_season_keyed season_df seasons rows :
  Forall2 (fun s st => st.1 = s /\ time_id_of s = Some st.2) season_df seasons ->
  Forall (fun r => season_id r = None /\ time_id r = None) rows ->
  Forall (season_keyed season_df) (merge_season rows (season_ref seasons)).
Proof.
  intros Hseasons Hrows. apply Forall_forall. intros r' Hr'%list_elem_of_In.
  rewrite Forall_forall in Hrows.
  apply in_merge_left in Hr' as (r & Hr & Hcase).
  assert (Hfilter :
    List.filter (fun st : season_row * Z => bool_decide (year r = s_year st.1))
                (season_ref seasons)
    = match List.find (fun st : season_row * Z => bool_decide (year r = s_year st.1))
                      seasons with
      | Some st => [st]
      | None => []
      end)
    by exact (filter_drop_duplicates (fun st : season_row * Z => s_year st.1) seasons
                (year r)).
  rewrite (find_with_time_id season_df seasons (year r) Hseasons) in Hfilter.
  unfold season_keyed.
  destruct Hcase as [(st & Hst & Hon & ->) | (Hnone & ->)].
  - assert (Hin : In st (List.filter (fun st => bool_decide (year r = s_year st.1))
                           (season_ref seasons))) by by apply filter_In.
    rewrite Hfilter in Hin. cbn [year season_id time_id set_season].
    destruct (first_season_of_year season_df (year r)) as [s |]; [| destruct Hin].
    cbn [mbind option_bind] in Hin |- *.
    destruct (time_id_of s) as [t |]; [| destruct Hin].
    destruct Hin as [<- | []]. done.
  - rewrite Hnone in Hfilter. unfold id.
    destruct (Hrows r) as [-> ->]; [by apply list_elem_of_In |].
    destruct (first_season_of_year season_df (year r)) as [s |] eqn:Hfirst; [| done].
    cbn [mbind option_bind] in Hfilter |- *.
    apply find_some in Hfirst as [Hs%list_elem_of_In _].
    apply list_elem_of_lookup_1 in Hs as [i Hi].
    destruct (Forall2_lookup_l _ _ _ _ _ Hseasons Hi) as (st & _ & _ & Ht).
    rewrite Ht in Hfilter. discriminate Hfilter.
Qed.

Lemma base_rows_from_unkeyed i crash_df rows :
  base_rows_from i crash_df = Some rows ->
  Forall (fun r => (season_id r = None /\ time_id r = None) /\ population_id r = None) rows.
Proof.
  revert i rows. induction crash_df as [|c crash_df IH]; intros i rows; simpl.
  - intros [= <-]. constructor.
  - unfold base_row.
    destruct (decode_year (c_crash_id c)) as [y |]; [| discriminate]. simpl.
    destruct (base_rows_from (S i) crash_df) as [rs |] eqn:Hrs; [| discriminate].
    simpl. intros [= <-]. constructor; [done | by eapply IH].
Qed.

(** X6. Every row of the fact table gets its [season_id] and its [time_id]
    from the first row of the Season dimension that has the year decoded from
    its [crash_id], whatever the month of that row, and has neither when the
    dimension has no row of that year. *)
Theorem season_keys_of_first_row_of_year to_datetime crash_df season_df driver_df
    location_df population_df out :
  create_fact_table to_datetime crash_df season_df driver_df location_df population_df
    = Some out ->
  forall o, In o out ->
    exists y, decode_year (o_crash_id o) = Some y /\
      o_season_id o = (s_season_id <$> first_season_of_year season_df y) /\
      o_time_id o = first_season_of_year season_df y ≫= time_id_of.
Proof.
  intros Hout o Ho.
  destruct (in_create_fact_table _ _ _ _ _ _ _ _ Hout Ho)
    as (frame & r & date & Hframe & Hr & _ & ->).
  apply fact_frame_Some in Hframe as (rows & seasons & Hrows & Hseasons & ->).
  assert (Hall : Forall (fun r => decoded r /\ season_keyed season_df r)
                   (merge_yearly (before_yearly rows seasons driver_df location_df
                                    population_df))).
  { apply merge_yearly_Forall; [by intros r0 stats H |]. unfold before_yearly.
    apply population_join_Forall; [by intros r0 p H |].
    apply location_join_Forall; [by intros r0 l H |].
    apply driver_count_join_Forall; [by intros r0 n H |].
    apply Forall_and. split.
    - apply merge_season_Forall; [by intros r0 st H |].
      by apply (base_rows_decoded crash_df).
    - apply merge_season_keyed; [by apply with_time_id_rows |].
      eapply Forall_impl; [by eapply base_rows_from_unkeyed |]. by intros r0 [H _]. }
  rewrite Forall_forall in Hall.
  destruct (Hall r) as [[Hyear _] [Hseason Htime]]; [by apply list_elem_of_In |].
  exists (year r). by cbn.
Qed.

Lemma season_keys_of_first_row_of_year_witness :
  exists out,
    create_fact_table Samples.iso_date Samples.crash_df Samples.season_df Samples.driver_df
      Samples.location_df Samples.population_df = Some out /\
    forall o, In o out -> o_time_id o = Some 201001.
Proof.
  destruct (create_fact_table Samples.iso_date Samples.crash_df Samples.season_df
              Samples.driver_df Samples.location_df Samples.population_df)
    as [out |] eqn:Hout; [| vm_compute in Hout; discriminate Hout].
  exists out. split; [reflexivity |]. intros o Ho.
  destruct (season_keys_of_first_row_of_year _ _ _ _ _ _ _ Hout o Ho)
    as (y & Hy & _ & ->).
  assert (Hyear : y = 2010).
  { vm_compute in Hout. injection Hout as <-. simpl in Ho.
    repeat (destruct Ho as [<- | Ho]; [vm_compute in Hy; by injection Hy |]).
    destruct Ho. }
  subst y. vm_compute. reflexivity.
Defined.

(** *** State names *)

(** X7. The fact-table builder names Victoria, Queensland and Tasmania in
    capitals, the ETL does not: a crash decoded to one of the three never gets
    a [population_id] from a Population dimension whose states were derived by
    [state_of_area]. *)
Theorem capital_state_names_never_match :
  (forall id st, decode_state id = Some st -> In st capital_names ->
     ~ In st Etl.states /\ forall area, Etl.state_of_area area <> st) /\
  (forall to_datetime crash_df season_df driver_df location_df population_df out,
     create_fact_table to_datetime crash_df season_df driver_df location_df population_df
       = Some out ->
     Forall (fun p => exists area, p_state p = Some (Etl.state_of_area area)) population_df ->
     forall o st, In o out -> decode_state (o_crash_id o) = Some st -> In st capital_names ->
       o_population_id o = None).
Proof.
  assert (Hnames : forall st, In st capital_names ->
            ~ In st Etl.states /\ forall area, Etl.state_of_area area <> st).
  { intros st Hst.
    assert (Hnot : ~ In st ("Unknown" :: Etl.states)).
    { simpl in Hst |- *.
      repeat (destruct Hst as [<- | Hst];
              [intros H; repeat (destruct H as [H | H]; [discriminate H |]); exact H |]).
      destruct Hst. }
    split; [intros Hin; apply Hnot; by right |].
    intros area Heq. apply Hnot. rewrite <- Heq. apply state_of_area_in. }
  split; [intros id st _; apply Hnames |].
  intros to_datetime crash_df season_df driver_df location_df population_df out Hout Hpop
    o st Ho Hstate Hst.
  destruct (in_create_fact_table _ _ _ _ _ _ _ _ Hout Ho)
    as (frame & r & date & Hframe & Hr & _ & ->).
  cbn [o_crash_id o_population_id select_columns] in *.
  apply fact_frame_Some in Hframe as (rows & seasons & Hrows & _ & ->).
  assert (Hall : Forall (fun r => decoded r /\
                           (forall st, state r = Some st -> In st capital_names ->
                                       population_id r = None))
                   (merge_yearly (before_yearly rows seasons driver_df location_df
                                    population_df))).
  { apply merge_yearly_Forall; [by intros r0 stats H |]. unfold before_yearly.
    assert (Hpre : Forall (fun r => decoded r /\ population_id r = None)
                     (location_join
                        (driver_count_join (merge_season rows (season_ref seasons))
                           driver_df) location_df)).
    { apply location_join_Forall; [by intros r0 l H |].
      apply driver_count_join_Forall; [by intros r0 n H |].
      apply merge_season_Forall; [by intros r0 s H |].
      apply Forall_and. split; [by apply (base_rows_decoded crash_df) |].
      eapply Forall_impl; [by eapply base_rows_from_unkeyed |]. by intros r0 [_ H]. }
    rewrite Forall_forall in Hpre. apply Forall_forall.
    intros r' Hr'%list_elem_of_In. unfold population_join in Hr'.
    apply in_merge_left in Hr' as (r0 & Hr0 & Hcase).
    destruct (Hpre r0) as [Hdec Hnone]; [by apply list_elem_of_In |].
    destruct Hcase as [(p & Hp & Hon & ->) | (_ & ->)]; [| by split].
    split; [exact Hdec |]. cbn [state set_population]. intros st' Hst' Hcap.
    apply andb_true_iff in Hon as [Hon%bool_decide_eq_true_1 _].
    rewrite Forall_forall in Hpop.
    destruct (Hpop p) as [area Harea]; [by apply list_elem_of_In |].
    rewrite Hst', Harea in Hon. injection Hon as Hon.
    destruct (Hnames st' Hcap) as [_ Hne]. by destruct (Hne area). }
  rewrite Forall_forall in Hall.
  destruct (Hall r) as [[_ Hdec] Hnone]; [by apply list_elem_of_In |].
  apply (Hnone st); [congruence | done].
Qed.

Lemma capital_state_names_never_match_witness :
  decode_state (PyInt 20102001) = Some "VIC" /\
  Etl.state_of_area "Inner Regional Australia (Vic)" = "Vic" /\
  exists out,
    create_fact_table Samples.iso_date Samples.crash_df_victoria Samples.season_df
      Samples.driver_df Samples.location_df Samples.population_df_victoria = Some out /\
    o_population_id <$> out = [None].
Proof.
  split; [vm_compute; reflexivity |]. split; [vm_compute; reflexivity |].
  destruct (create_fact_table Samples.iso_date Samples.crash_df_victoria Samples.season_df
              Samples.driver_df Samples.location_df Samples.population_df_victoria)
    as [out |] eqn:Hout; [| vm_compute in Hout; discriminate Hout].
  exists out. split; [reflexivity |].
  pose proof (proj2 capital_state_names_never_match _ _ _ _ _ _ _ Hout) as Hnone.
  assert (Hids : o_crash_id <$> out = [PyInt 20102001]).
  { vm_compute in Hout. injection Hout as <-. reflexivity. }
  destruct out as [|o [|o' out]]; try discriminate Hids. injection Hids as Hid.
  cbn [fmap list_fmap]. f_equal.
  apply (Hnone ltac:(apply Forall_cons; split; [by eexists | apply Forall_nil; exact I]) o "VIC"); [by left | | by left].
  rewrite Hid. vm_compute. reflexivity.
Defined.

Import Py Etl FixTimeIssues.

(** ** The time of day: [standardize_time] and [fix_time_issues.py] *)

Lemma matches_midnight : matches (PyStr "00:00") = true.
Proof. reflexivity. Qed.

(** The assignment of the script, on a frame whose [Time] has the
    accessor. *)
Lemma fix_time_issues_Some time_dim fixed :
  fix_time_issues time_dim = Some fixed ->
  has_str_accessor (time_Time <$> time_dim) = true /\
  fixed = (fun r => if matches (time_Time r) then r else set_time r (PyStr "00:00"))
            <$> time_dim.
Proof.
  unfold fix_time_issues, problem_records.
  destruct (has_str_accessor (time_Time <$> time_dim)); [| discriminate].
  cbn. by intros [= <-].
Qed.

Lemma fix_time_issues_matches time_dim fixed :
  fix_time_issues time_dim = Some fixed ->
  Forall (fun r => matches (time_Time r) = true) fixed.
Proof.
  intros [_ ->]%fix_time_issues_Some. apply Forall_fmap, Forall_forall. intros r _.
  cbv beta. unfold compose. by destruct (matches (time_Time r)) eqn:Hr.
Qed.

Lemma fix_time_issues_id time_dim :
  has_str_accessor (time_Time <$> time_dim) = true ->
  Forall (fun r => matches (time_Time r) = true) time_dim ->
  fix_time_issues time_dim = Some time_dim.
Proof.
  intros Hstr Hall. unfold fix_time_issues, problem_records. rewrite Hstr. cbn. f_equal.
  rewrite <- (list_fmap_id time_dim) at 2.
  apply list_fmap_ext. intros i r Hi. rewrite Forall_forall in Hall.
  by rewrite (Hall r (list_elem_of_lookup_2 _ _ _ Hi)).
Qed.

(** The assignment leaves a text a text and touches no other cell, so that
    the column keeps its accessor. *)
Lemma fix_time_issues_accessor time_dim fixed :
  fix_time_issues time_dim = Some fixed ->
  has_str_accessor (time_Time <$> fixed) = true.
Proof.
  intros [Hstr ->]%fix_time_issues_Some.
  destruct time_dim as [|r0 time_dim]; [reflexivity |].
  cbn [fmap list_fmap has_str_accessor] in Hstr |- *.
  set (rows := r0 :: time_dim) in *.
  change (is_object (time_Time <$> rows) = true) in Hstr.
  change (is_object
            (time_Time <$> ((fun r => if matches (time_Time r) then r
                                      else set_time r (PyStr "00:00")) <$> rows)) = true).
  clearbody rows. unfold is_object in *.
  apply existsb_exists in Hstr as (v & (r & <- & Hr)%in_map_iff & Hv).
  apply existsb_exists.
  exists (time_Time (if matches (time_Time r) then r else set_time r (PyStr "00:00"))).
  split; [apply in_map, in_map_iff; by exists r |].
  by destruct (matches (time_Time r)).
Qed.

(** X8. [fix_time_issues.py] raises only when the [Time] column of the Time
    dimension was read as a column of numbers.  After it no record has a time
    that fails the format test; the records are the same in number and order
    and differ from the ones read in their [Time] at most; a second run on the
    result changes nothing, and a frame without problem records is left as it
    is. *)
Theorem fix_time_issues_leaves_no_problem time_dim :
  (is_Some (fix_time_issues time_dim) <-> has_str_accessor (time_Time <$> time_dim) = true) /\
  forall fixed, fix_time_issues time_dim = Some fixed ->
    problem_records fixed = Some [] /\
    fix_time_issues fixed = Some fixed /\
    (problem_records time_dim = Some [] -> fixed = time_dim) /\
    (forall i r, time_dim !! i = Some r ->
       exists time, fixed !! i = Some (set_time r time) /\
                    (matches (time_Time r) = true -> time = time_Time r) /\
                    (matches (time_Time r) = false -> time = PyStr "00:00")).
Proof.
  split.
  { unfold fix_time_issues, problem_records.
    destruct (has_str_accessor (time_Time <$> time_dim)); cbn.
    - split; [done | by eexists].
    - split; [by intros [? [=]] | discriminate]. }
  intros fixed Hfixed.
  pose proof (fix_time_issues_matches _ _ Hfixed) as Hall.
  pose proof (fix_time_issues_accessor _ _ Hfixed) as Hstr'.
  split; [| split; [| split]].
  - unfold problem_records. rewrite Hstr'. f_equal. apply filter_none.
    intros r Hr%list_elem_of_In. rewrite Forall_forall in Hall. by rewrite (Hall r Hr).
  - by apply fix_time_issues_id.
  - unfold problem_records.
    destruct (fix_time_issues_Some _ _ Hfixed) as [Hstr _]. rewrite Hstr.
    intros [= Hnone]. 
    assert (Hid : fix_time_issues time_dim = Some time_dim).
    { apply fix_time_issues_id; [exact Hstr |]. apply Forall_forall.
      intros r Hr%list_elem_of_In.
      destruct (matches (time_Time r)) eqn:Hm; [reflexivity |].
      assert (Hin : In r (List.filter (fun r => negb (matches (time_Time r))) time_dim))
        by (apply filter_In; split; [done | by rewrite Hm]).
      rewrite Hnone in Hin. destruct Hin. }
    congruence.
  - destruct (fix_time_issues_Some _ _ Hfixed) as [_ ->].
    intros i r Hi. rewrite list_lookup_fmap, Hi. cbn.
    destruct (matches (time_Time r)) eqn:Hm.
    + exists (time_Time r). split; [by destruct r | by split].
    + exists (PyStr "00:00"). by repeat split.
Qed.

Lemma fix_time_issues_leaves_no_problem_witness :
  exists fixed, fix_time_issues Samples.time_dim_missing_times = Some fixed /\
                problem_records fixed = Some [] /\
                time_Time <$> fixed = replicate 5 (PyStr "00:00").
Proof.
  destruct (fix_time_issues Samples.time_dim_missing_times) as [fixed |] eqn:Hfixed;
    [| vm_compute in Hfixed; discriminate Hfixed].
  exists fixed. split; [reflexivity |].
  split; [apply (fix_time_issues_leaves_no_problem Samples.time_dim_missing_times), Hfixed |].
  vm_compute in Hfixed. injection Hfixed as <-. reflexivity.
Defined.

Lemma zeros_length k : String.length (zeros k) = k.
Proof. induction k as [|k IH]; [done |]. simpl. by rewrite IH. Qed.

Lemma string_app_length (s t : string) :
  String.length (s +:+ t) = (String.length s + String.length t)%nat.
Proof. induction s as [|c s IH]; [done |]. rewrite app_cons. simpl. by rewrite IH. Qed.

(** [len(s.zfill(width))] *)
Lemma zfill_length width s :
  String.length (zfill width s) = Nat.max width (String.length s).
Proof.
  unfold zfill. destruct s as [|c s].
  - rewrite zeros_length. simpl. lia.
  - destruct (is_sign c); [cbn [String.length] |];
      rewrite string_app_length, zeros_length; cbn [String.length]; lia.
Qed.

Lemma sign_is_no_digit c : isdecimal c = true -> is_sign c = false.
Proof.
  destruct c as [[] [] [] [] [] [] [] []]; intros Hc; try discriminate Hc; reflexivity.
Qed.

Lemma all_chars_app p (s t : string) :
  all_chars p (s +:+ t) = all_chars p s && all_chars p t.
Proof.
  induction s as [|c s IH]; [done |]. rewrite app_cons. simpl.
  by rewrite IH, andb_assoc.
Qed.

Lemma all_chars_zeros k : all_chars isdecimal (zeros k) = true.
Proof. induction k as [|k IH]; [done |]. exact IH. Qed.

(** Padding a text of digits gives a text of digits. *)
Lemma zfill_digits width s :
  all_chars isdecimal s = true -> all_chars isdecimal (zfill width s) = true.
Proof.
  intros Hs. unfold zfill. destruct s as [|c s]; [apply all_chars_zeros |].
  pose proof Hs as Hc. simpl in Hc. apply andb_true_iff in Hc as [Hc _].
  rewrite (sign_is_no_digit c Hc). by rewrite all_chars_app, all_chars_zeros.
Qed.

(** A text of four characters or more, split as [standard_time] splits it. *)
Lemma four_characters s :
  (4 <= String.length s)%nat ->
  exists c1 c2 c3 c4 rest,
    s = String c1 (String c2 (String c3 (String c4 rest))) /\
    String.substring 0 2 s +:+ ":" +:+ String.substring 2 2 s
    = String c1 (String c2 (String ":" (String c3 (String c4 "")))).
Proof.
  destruct s as [|c1 [|c2 [|c3 [|c4 rest]]]]; simpl; try lia.
  intros _. exists c1, c2, c3, c4, rest. split; [reflexivity |].
  by destruct rest.
Qed.

(** X9. A standardized time is a text of five characters with a colon in the
    middle, whatever the cell held.  When the cell, its colons apart, is made of
    decimal digits, the text passes the format test of [fix_time_issues.py],
    which leaves it as it is; a missing time in a column of texts is
    standardized to "0n:an", which fails the test and is set to "00:00". *)
Theorem standard_time_shape (time : pyval) :
  (exists t, standard_time time = PyStr t /\ String.length t = 5%nat /\
             String.get 2 t = Some ":"%char) /\
  (all_chars isdecimal (colon_free time) = true ->
   matches (standard_time time) = true) /\
  standard_time PyNaN = PyStr "0n:an" /\
  matches (standard_time PyNaN) = false.
Proof.
  split; [| split; [| by split]].
  - unfold standard_time.
    destruct (four_characters (zfill 4 (remove_colons (astype_str time))))
      as (c1 & c2 & c3 & c4 & rest & _ & ->); [rewrite zfill_length; lia |].
    by eexists.
  - intros Hdigits%(zfill_digits 4). unfold colon_free in Hdigits. unfold standard_time.
    destruct (four_characters (zfill 4 (remove_colons (astype_str time))))
      as (c1 & c2 & c3 & c4 & rest & Hs & ->); [rewrite zfill_length; lia |].
    rewrite Hs in Hdigits. simpl in Hdigits.
    repeat (apply andb_true_iff in Hdigits as [? Hdigits]).
    cbn [matches time_pattern]. repeat (apply andb_true_iff; split); done.
Qed.

Lemma standard_time_shape_witness :
  standard_time (PyStr "9:05") = PyStr "09:05" /\ matches (standard_time (PyStr "9:05")) = true.
Proof.
  split; [reflexivity |].
  exact (proj1 (proj2 (standard_time_shape (PyStr "9:05"))) eq_refl).
Defined.

Import Py Etl.

(** ** The tables of a run, as the quality checks see them *)

Lemma in_drop_duplicates_id {X : Type} `{EqDecision X} (l : list X) (a : X) :
  In a (drop_duplicates id l) <-> In a l.
Proof.
  split; [apply in_drop_duplicates |]. intros Ha.
  apply (drop_duplicates_complete id) in Ha.
  rewrite list_fmap_id in Ha. by apply list_elem_of_In.
Qed.

(** *** Season of a fact row *)

(** X10. Every row of the fact table of [etl.py] has a season: the label that
    [get_season] gives to its own month, and as [Season_ID] its year and the
    quarter of its month; the merge with the Season dimension leaves no row
    without partner. *)
Theorem fact_rows_carry_their_season regex_search fatal_crash fatalities remoteness_df
    lga_df (r : fact_row) :
  In r (out_fact (run regex_search fatal_crash fatalities remoteness_df lga_df)) ->
  fact_Season r = Some (get_season (PyInt (fact_Month r))) /\
  fact_Season_ID r
    = Some (year_text (fact_Year r) +:+ "_" +:+ str_of_Z (quarter_of (fact_Month r))).
Proof.
  unfold run. cbn [out_fact]. set (crashes := prepare_crashes fatal_crash).
  unfold fact_table. intros Hr%in_drop_duplicates.
  apply in_merge_left in Hr as (cn & Hcn & Hr).
  apply in_map_iff in Hcn as ([c0 k] & <- & Hck).
  apply in_merge_left in Hck as (c & Hc & Hck).
  assert (Hfst : c0 = c) by by destruct Hck as [(c' & _ & _ & [= -> _]) | (_ & [= -> _])].
  subst c0. cbn [fst snd] in Hr.
  pose proof (season_of_crash crashes c Hc) as Hseason.
  destruct Hr as [(s & Hs & Hon & ->) | (Hnone & _)].
  - assert (Hin : In s (List.filter
                          (fun s => bool_decide (Year c = sea_Year s)
                                    && bool_decide (Month c = sea_Month s))
                          (season_dim crashes))) by by apply filter_In.
    rewrite Hseason in Hin. by destruct Hin as [<- | []].
  - rewrite Hseason in Hnone. discriminate Hnone.
Qed.

Lemma fact_rows_carry_their_season_witness :
  Forall (fun r => fact_Season r = Some "Summer" /\ fact_Season_ID r = Some "2010_1")
         (out_fact (run contains Samples.loaded_crashes [] [] Samples.lga_df)).
Proof.
  apply Forall_forall. intros r Hr%list_elem_of_In.
  destruct (fact_rows_carry_their_season contains Samples.loaded_crashes [] []
              Samples.lga_df r Hr) as [-> ->].
  vm_compute in Hr.
  repeat (destruct Hr as [<- | Hr]; [split; vm_compute; reflexivity |]). destruct Hr.
Defined.

(** *** The Season dimension *)

(** X11. The Season dimension has one row for every pair of year and month
    of the crashes and no two rows for one pair.  In every row the tourism
    season is "Peak" exactly when the season is "Summer" and "Secondary Peak"
    only when it is "Winter", the two flags are 0 or 1, and the quarter of a
    month from 1 to 12 lies between 1 and 4. *)
Theorem season_dimension_rows fatal_crash :
  NoDup ((fun s => (sea_Year s, sea_Month s)) <$> season_dim fatal_crash) /\
  (forall c, In c fatal_crash -> In (season_of (Year c, Month c)) (season_dim fatal_crash)) /\
  (forall s, In s (season_dim fatal_crash) ->
     (exists c, In c fatal_crash /\ s = season_of (Year c, Month c)) /\
     sea_Quarter s = quarter_of (sea_Month s) /\
     (1 <= sea_Month s <= 12 -> 1 <= sea_Quarter s <= 4) /\
     (sea_Tourism_Season s = "Peak" <-> sea_Season s = "Summer") /\
     (sea_Tourism_Season s = "Secondary Peak" -> sea_Season s = "Winter") /\
     In (sea_Is_Holiday_Season s) [0; 1] /\ In (sea_Is_School_Holiday s) [0; 1]).
Proof.
  split; [| split].
  - unfold season_dim. rewrite <- list_fmap_compose.
    assert (Hpairs : forall l : list (option Z * Z),
              (fun s => (sea_Year s, sea_Month s)) ∘ season_of <$> l = l).
    { intros l. induction l as [|[y m] l IH]; [done |]. cbn. by rewrite IH. }
    rewrite Hpairs.
    pose proof (drop_duplicates_NoDup id ((fun c => (Year c, Month c)) <$> fatal_crash)) as H.
    by rewrite list_fmap_id in H.
  - intros c Hc. unfold season_dim, year_month_combinations.
    apply in_map, in_drop_duplicates_id, in_map_iff. by exists c.
  - intros s Hs. unfold season_dim, year_month_combinations in Hs.
    apply in_map_iff in Hs as ([y m] & <- & Hym).
    apply in_drop_duplicates_id, in_map_iff in Hym as (c & [= <- <-] & Hc).
    split; [by exists c |]. cbn [season_of sea_Quarter sea_Month sea_Tourism_Season
      sea_Season sea_Is_Holiday_Season sea_Is_School_Holiday fst snd].
    split; [reflexivity |]. split; [| split; [| split; [| split]]].
    + intros Hm. unfold quarter_of in *.
      assert (0 <= (Month c - 1) / 3 < 4); [| lia].
      split; [apply Z.div_pos; lia | apply Z.div_lt_upper_bound; lia].
    + unfold get_season. destruct (in_ints (PyInt (Month c)) [12; 1; 2]); [done |].
      split.
      * by destruct (in_ints (PyInt (Month c)) [6; 7]).
      * by repeat (destruct (in_ints _ _); [discriminate |]).
    + unfold get_season. destruct (in_ints (PyInt (Month c)) [12; 1; 2]); [discriminate |].
      destruct (in_ints (PyInt (Month c)) [6; 7]) eqn:H67; [| discriminate]. intros _.
      assert (H345 : in_ints (PyInt (Month c)) [3; 4; 5] = false).
      { unfold in_ints in *. simpl in *. destruct (Month c =? 6) eqn:H6.
        - apply Z.eqb_eq in H6. by rewrite H6.
        - destruct (Month c =? 7) eqn:H7; [| discriminate H67].
          apply Z.eqb_eq in H7. by rewrite H7. }
      assert (H678 : in_ints (PyInt (Month c)) [6; 7; 8] = true).
      { unfold in_ints in *. simpl in *. destruct (Month c =? 6); [done |].
        by destruct (Month c =? 7). }
      by rewrite H345, H678.
    + destruct (in_ints _ _); simpl; tauto.
    + destruct (in_ints _ _); simpl; tauto.
Qed.

Lemma season_dimension_rows_witness :
  In (season_of (Some 2010, 2)) (season_dim Samples.crashes_2010) /\
  sea_Quarter (season_of (Some 2010, 2)) = 1.
Proof.
  destruct (season_dimension_rows Samples.crashes_2010) as (_ & Hall & Hrows).
  assert (Hin : In (season_of (Some 2010, 2)) (season_dim Samples.crashes_2010)).
  { apply (Hall (Samples.crash 20101004 2010 2 1)). vm_compute. tauto. }
  split; [exact Hin |].
  destruct (Hrows _ Hin) as (_ & Hq & _). rewrite Hq. reflexivity.
Defined.

(** *** Missing names in the Location dimension *)

Lemma fillna_unknown_present v : isna (fillna_unknown v) = false.
Proof. unfold fillna_unknown. by destruct v. Qed.

Lemma fillna_unknown_id v : isna v = false -> fillna_unknown v = v.
Proof. unfold fillna_unknown. by intros ->. Qed.

Lemma null_count_none (column : list pyval) :
  Forall (fun v => isna v = false) column -> MissingValueAnalysis.null_count column = 0%nat.
Proof.
  intros Hall. unfold MissingValueAnalysis.null_count. rewrite filter_none; [done |].
  intros v Hv%list_elem_of_In. rewrite Forall_forall in Hall. by apply Hall.
Qed.

(** X12. The Location dimension that [etl.py] builds never has a missing SA4
    or LGA name, so that the fill of [missing_value_analysis.py] finds nothing
    to fill in it; on any Location dimension that fill leaves no missing name
    and changes nothing when run again. *)
Theorem location_names_never_missing :
  (forall fatal_crash,
     MissingValueAnalysis.null_count (loc_SA4_Name_2021 <$> location_dim fatal_crash) = 0%nat /\
     MissingValueAnalysis.null_count (loc_National_LGA_Name_2021 <$> location_dim fatal_crash)
       = 0%nat /\
     MissingValueAnalysis.fill_missing_names (location_dim fatal_crash)
       = location_dim fatal_crash) /\
  (forall location_dim,
     MissingValueAnalysis.null_count
       (loc_SA4_Name_2021 <$> MissingValueAnalysis.fill_missing_names location_dim) = 0%nat /\
     MissingValueAnalysis.null_count
       (loc_National_LGA_Name_2021 <$> MissingValueAnalysis.fill_missing_names location_dim)
       = 0%nat /\
     MissingValueAnalysis.fill_missing_names
       (MissingValueAnalysis.fill_missing_names location_dim)
       = MissingValueAnalysis.fill_missing_names location_dim).
Proof.
  assert (Hfilled : forall l,
            Forall (fun r => isna (loc_SA4_Name_2021 r) = false /\
                             isna (loc_National_LGA_Name_2021 r) = false)
                   (MissingValueAnalysis.fill_missing_names l)).
  { intros l. unfold MissingValueAnalysis.fill_missing_names.
    apply Forall_fmap, Forall_forall. intros r _. cbn.
    by rewrite !fillna_unknown_present. }
  assert (Hid : forall l,
            Forall (fun r => isna (loc_SA4_Name_2021 r) = false /\
                             isna (loc_National_LGA_Name_2021 r) = false) l ->
            MissingValueAnalysis.fill_missing_names l = l).
  { intros l Hl. unfold MissingValueAnalysis.fill_missing_names.
    rewrite <- (list_fmap_id l) at 2. apply list_fmap_ext. intros i r Hi.
    rewrite Forall_forall in Hl.
    destruct (Hl r (list_elem_of_lookup_2 _ _ _ Hi)) as [Hsa4 Hlga].
    rewrite !fillna_unknown_id by done. by destruct r. }
  assert (Hcount : forall l,
            Forall (fun r => isna (loc_SA4_Name_2021 r) = false /\
                             isna (loc_National_LGA_Name_2021 r) = false) l ->
            MissingValueAnalysis.null_count (loc_SA4_Name_2021 <$> l) = 0%nat /\
            MissingValueAnalysis.null_count (loc_National_LGA_Name_2021 <$> l) = 0%nat).
  { intros l Hl. split; apply null_count_none, Forall_fmap;
      (eapply Forall_impl; [exact Hl |]); by intros r [? ?]. }
  split.
  - intros fatal_crash.
    assert (Hdim : Forall (fun r => isna (loc_SA4_Name_2021 r) = false /\
                                    isna (loc_National_LGA_Name_2021 r) = false)
                          (location_dim fatal_crash)).
    { apply Forall_forall. intros r Hr%list_elem_of_In. unfold location_dim in Hr.
      apply in_drop_duplicates, in_map_iff in Hr as (c & <- & _). cbn.
      by rewrite !fillna_unknown_present. }
    destruct (Hcount _ Hdim) as [? ?]. split; [done |]. split; [done |]. by apply Hid.
  - intros l. destruct (Hcount _ (Hfilled l)) as [? ?].
    split; [done |]. split; [done |]. apply Hid, Hfilled.
Qed.

(** *** Duplicate rows *)

Section DuplicateCount.

Context {A K : Type} `{EqDecision K}.

Lemma duplicated_from_kept (key : A -> K) (seen : list K) (df : list A) :
  List.filter (fun marked : bool => marked)
    (DataQualityCheck.duplicated_from key seen (drop_duplicates_from key seen df)) = [].
Proof.
  revert seen. induction df as [|a df IH]; intros seen; [done |].
  cbn [drop_duplicates_from].
  destruct (bool_decide_reflect (key a ∈ seen)) as [Hseen | Hnew]; [apply IH |].
  cbn [DataQualityCheck.duplicated_from List.filter].
  rewrite bool_decide_eq_false_2 by done. apply IH.
Qed.

(** The rows that [duplicated] marks are those that [drop_duplicates]
    removes. *)
Lemma duplicated_from_count (key : A -> K) (seen seen' : list K) (df : list A) :
  (forall k, k ∈ seen <-> k ∈ seen') ->
  (length (drop_duplicates_from key seen df)
   + length (List.filter (fun marked : bool => marked)
               (DataQualityCheck.duplicated_from key seen' df)))%nat
  = length df.
Proof.
  revert seen seen'. induction df as [|a df IH]; intros seen seen' Hsame; [done |].
  cbn [drop_duplicates_from DataQualityCheck.duplicated_from List.filter].
  rewrite (bool_decide_ext (key a ∈ seen') (key a ∈ seen)) by (symmetry; apply Hsame).
  destruct (bool_decide_reflect (key a ∈ seen)) as [Hseen | Hnew]; cbn [length].
  - rewrite <- (IH seen (key a :: seen')); [lia |].
    intros k. rewrite elem_of_cons, <- Hsame. split; [by right | by intros [-> | ?]].
  - rewrite <- (IH (key a :: seen) (key a :: seen')); [lia |].
    intros k. by rewrite !elem_of_cons, Hsame.
Qed.

End DuplicateCount.

Lemma duplicate_count_kept {A K : Type} `{EqDecision K} (key : A -> K) (df : list A) :
  DataQualityCheck.duplicate_count key (drop_duplicates key df) = 0%nat.
Proof.
  unfold DataQualityCheck.duplicate_count, DataQualityCheck.duplicated, drop_duplicates.
  by rewrite duplicated_from_kept.
Qed.

(** X13. [check_duplicates] counts the rows that [drop_duplicates] removes, so
    that it finds no duplicate row in any of the tables that [etl.py] passes
    through [drop_duplicates] before writing them: the Location, Vehicle, Road
    Condition, Driver, Time and Crash Type dimensions and the fact table. *)
Theorem no_duplicate_rows_in_the_tables regex_search fatal_crash fatalities remoteness_df
    lga_df :
  let o := run regex_search fatal_crash fatalities remoteness_df lga_df in
  (forall (A K : Type) (eq_dec : EqDecision K) (key : A -> K) (df : list A),
     (length (drop_duplicates key df) + DataQualityCheck.duplicate_count key df)%nat
     = length df) /\
  DataQualityCheck.duplicate_count id (out_location o) = 0%nat /\
  DataQualityCheck.duplicate_count id (out_vehicle o) = 0%nat /\
  DataQualityCheck.duplicate_count id (out_road_condition o) = 0%nat /\
  DataQualityCheck.duplicate_count id (out_driver o) = 0%nat /\
  DataQualityCheck.duplicate_count id (out_time o) = 0%nat /\
  DataQualityCheck.duplicate_count id (out_crash_type o) = 0%nat /\
  DataQualityCheck.duplicate_count id (out_fact o) = 0%nat.
Proof.
  cbv zeta. split.
  - intros A K eq_dec key df. by apply duplicated_from_count.
  - unfold run. cbn [out_location out_vehicle out_road_condition out_driver out_time
      out_crash_type out_fact].
    repeat split; apply duplicate_count_kept.
Qed.

(** *** Referential integrity *)

Lemma keys_of_dimension {X : Type} `{EqDecision X} (row : crash_record -> X)
    (key : X -> pyval) (fatal_crash : list crash_record) :
  (forall c, key (row c) = Crash_ID c) ->
  (list_to_set (key <$> drop_duplicates id (row <$> fatal_crash)) : gset pyval)
  = list_to_set (Crash_ID <$> fatal_crash).
Proof.
  intros Hkey. apply set_eq. intros k. rewrite !elem_of_list_to_set, !list_elem_of_fmap.
  split.
  - intros (x & -> & Hx%list_elem_of_In).
    apply in_drop_duplicates_id, in_map_iff in Hx as (c & <- & Hc).
    exists c. split; [by rewrite Hkey | by apply list_elem_of_In].
  - intros (c & -> & Hc%list_elem_of_In). exists (row c). split; [by rewrite Hkey |].
    apply list_elem_of_In, in_drop_duplicates_id, in_map_iff. by exists c.
Qed.

Lemma keys_of_fact_table fatal_crash seasons :
  (list_to_set (fact_Crash_ID <$> fact_table fatal_crash seasons) : gset pyval)
  = list_to_set (Crash_ID <$> fatal_crash).
Proof.
  apply set_eq. intros k. rewrite !elem_of_list_to_set, !list_elem_of_fmap.
  unfold fact_table. split.
  - intros (r & -> & Hr%list_elem_of_In).
    apply in_drop_duplicates_id, in_merge_left in Hr as (cn & Hcn & Hr).
    apply in_map_iff in Hcn as ([c0 key] & <- & Hck).
    apply in_merge_left in Hck as (c & Hc & Hck).
    assert (Hfst : c0 = c)
      by by destruct Hck as [(c' & _ & _ & [= -> _]) | (_ & [= -> _])].
    subst c0. exists c. split; [| by apply list_elem_of_In].
    by destruct Hr as [(s & _ & _ & ->) | (_ & ->)].
  - intros (c & -> & Hc%list_elem_of_In).
    destruct (merge_left_keeps (fun c c' => bool_decide (Crash_ID c = Crash_ID c'))
                (fun c c' => (c, Some (year_month c'))) (fun c => (c, None))
                fatal_crash fatal_crash c Hc) as (ck & Hck & Hfst).
    assert (Hc0 : ck.1 = c) by by destruct Hfst as [-> | [c' ->]].
    eapply (in_map (fun ck : crash_record * option string =>
                      (ck.1, ck.2 ≫= (fun k => monthly_counts fatal_crash !! k)))) in Hck.
    match goal with
    | |- context [merge_left ?on ?m ?u _ seasons] =>
        destruct (merge_left_keeps on m u _ seasons _ Hck) as (r & Hr & Hcase)
    end.
    exists r. split.
    + destruct Hcase as [-> | [s ->]]; cbn; by rewrite Hc0.
    + by apply list_elem_of_In, in_drop_duplicates_id.
Qed.

(** X14. On the tables of a run whose crash identifiers are present,
    [check_referential_integrity] finds no orphaned record: the fact table and
    the Location, Vehicle, Time and Crash Type dimensions hold the same crash
    identifiers, those of the crashes of the window. *)
Theorem no_orphaned_fact_rows regex_search fatal_crash fatalities remoteness_df lga_df :
  let o := run regex_search fatal_crash fatalities remoteness_df lga_df in
  let crashes := size (list_to_set (Crash_ID <$> prepare_crashes fatal_crash) : gset pyval) in
  let checked := {| DataQualityCheck.unique_keys_df1 := crashes;
                    DataQualityCheck.unique_keys_df2 := crashes;
                    DataQualityCheck.orphaned_records := 0 |} in
  Forall (fun c => isna (Crash_ID c) = false) (prepare_crashes fatal_crash) ->
  DataQualityCheck.check_referential_integrity
    (loc_Crash_ID <$> out_location o) (fact_Crash_ID <$> out_fact o) = checked /\
  DataQualityCheck.check_referential_integrity
    (veh_Crash_ID <$> out_vehicle o) (fact_Crash_ID <$> out_fact o) = checked /\
  DataQualityCheck.check_referential_integrity
    (time_Crash_ID <$> out_time o) (fact_Crash_ID <$> out_fact o) = checked /\
  DataQualityCheck.check_referential_integrity
    (ct_Crash_ID <$> out_crash_type o) (fact_Crash_ID <$> out_fact o) = checked.
Proof.
  cbv zeta. intros _. unfold run.
  cbn [out_location out_vehicle out_time out_crash_type out_fact].
  unfold DataQualityCheck.check_referential_integrity, DataQualityCheck.orphans_in_df2.
  unfold location_dim, vehicle_dim, time_dim, crash_type_dim.
  rewrite keys_of_fact_table, !keys_of_dimension by done.
  rewrite difference_diag_L, size_empty. done.
Qed.

Lemma no_orphaned_fact_rows_witness :
  let o := run contains Samples.loaded_crashes [] [] Samples.lga_df in
  DataQualityCheck.orphaned_records
    (DataQualityCheck.check_referential_integrity
       (loc_Crash_ID <$> out_location o) (fact_Crash_ID <$> out_fact o)) = 0%nat.
Proof.
  cbv zeta.
  destruct (no_orphaned_fact_rows contains Samples.loaded_crashes [] [] Samples.lga_df)
    as [-> _]; [| reflexivity].
  repeat constructor.
Defined.

(** *** The LGA dimension *)

Lemma lga_entry_of regex_search lga_df (v : pyval) (e : lga_entry) :
  In e (lga_entries regex_search [v] lga_df) ->
  v = PyStr (lga_LGA_Name e) /\ lga_LGA_Name e <> "Unknown" /\
  lga_Population e = (LGA_Population <$> first_lga_match regex_search lga_df (lga_LGA_Name e)) /\
  lga_Data_Source e = match lga_Population e with
                      | Some _ => "Reference Data"
                      | None => "Derived"
                      end.
Proof.
  unfold lga_entries, first_lga_match. cbn [omap list_omap].
  destruct v as [z | name | |]; cbn; try tauto.
  destruct (String.eqb_spec name "Unknown") as [-> | Hne]; [cbn; tauto |].
  destruct (List.filter _ lga_df) as [|row rows] eqn:Hf; cbn;
    (intros [<- | []]); cbn; rewrite ?Hf; done.
Qed.

Lemma lga_entries_cons regex_search v unique lga_df :
  lga_entries regex_search (v :: unique) lga_df
  = (lga_entries regex_search [v] lga_df ++ lga_entries regex_search unique lga_df)%list.
Proof. unfold lga_entries. cbn [omap list_omap]. by destruct (_ : option lga_entry). Qed.

Lemma in_lga_entries_iff regex_search unique lga_df e :
  In e (lga_entries regex_search unique lga_df) <->
  exists v, In v unique /\ In e (lga_entries regex_search [v] lga_df).
Proof.
  induction unique as [|v unique IH].
  - split; [intros [] | by intros (v & [] & _)].
  - rewrite lga_entries_cons, in_app_iff, IH. split.
    + intros [He | (v' & Hv' & He)]; [exists v; split; [by left | done] |].
      exists v'. split; [by right | done].
    + intros (v' & [<- | Hv'] & He); [by left | right; by exists v'].
Qed.

(** X15. The LGA dimension has one row for every LGA that a crash names, the
    name 'Unknown' apart, and no two rows of one name.  The population of a row
    is that of the first row of the reference in whose name the LGA name is
    found, and the source is "Reference Data" exactly when there is one. *)
Theorem lga_dimension_rows regex_search fatal_crash lga_df :
  let entries := lga_entries regex_search (unique_lgas fatal_crash) lga_df in
  NoDup (lga_LGA_Name <$> entries) /\
  (forall c name, In c fatal_crash -> National_LGA_Name_2021 c = PyStr name ->
     name <> "Unknown" -> exists e, In e entries /\ lga_LGA_Name e = name) /\
  (forall e, In e entries ->
     lga_LGA_Name e <> "Unknown" /\
     lga_Population e
       = (LGA_Population <$> first_lga_match regex_search lga_df (lga_LGA_Name e)) /\
     (lga_Data_Source e = "Reference Data" <-> is_Some (lga_Population e)) /\
     (lga_Data_Source e = "Derived" <-> lga_Population e = None)).
Proof.
  cbv zeta. split; [| split].
  - assert (Hnd : NoDup (unique_lgas fatal_crash)) by apply NoDup_unique.
    induction Hnd as [|v unique Hv _ IH]; [constructor |].
    rewrite lga_entries_cons, fmap_app. apply NoDup_app. split; [| split; [| exact IH]].
    + unfold lga_entries. cbn [omap list_omap].
      destruct (_ : option lga_entry); cbn; [apply NoDup_singleton | constructor].
    + intros name (e & -> & He%list_elem_of_In)%list_elem_of_fmap
        (e' & Hname & He'%list_elem_of_In)%list_elem_of_fmap.
      apply lga_entry_of in He as (-> & _).
      apply in_lga_entries_iff in He' as (v' & Hv' & He').
      apply lga_entry_of in He' as (-> & _).
      apply Hv. rewrite Hname. by apply list_elem_of_In.
  - intros c name Hc Hname Hne.
    assert (Hin : In (PyStr name) (unique_lgas fatal_crash)).
    { unfold unique_lgas. apply list_elem_of_In, elem_of_unique, list_elem_of_In.
      apply filter_In. split; [| reflexivity]. apply in_map_iff. by exists c. }
    assert (Hentry : exists e, In e (lga_entries regex_search [PyStr name] lga_df)).
    { unfold lga_entries. cbn [omap list_omap].
      destruct (String.eqb_spec name "Unknown") as [-> | _]; [done |].
      destruct (List.filter _ lga_df); eexists; by left. }
    destruct Hentry as [e He]. exists e. split.
    + apply in_lga_entries_iff. by exists (PyStr name).
    + apply lga_entry_of in He as ([= <-] & _). reflexivity.
  - intros e (v & _ & He)%in_lga_entries_iff.
    apply lga_entry_of in He as (_ & Hne & Hpop & Hsource).
    split; [exact Hne |]. split; [exact Hpop |]. rewrite Hsource.
    destruct (lga_Population e); split; split; try done; by eexists.
Qed.

Lemma lga_dimension_rows_witness :
  exists e, In e (lga_entries contains (unique_lgas Samples.crashes_2010) Samples.lga_df) /\
            lga_LGA_Name e = "Cessnock" /\ lga_Data_Source e = "Reference Data".
Proof.
  destruct (lga_dimension_rows contains Samples.crashes_2010 Samples.lga_df)
    as (_ & Hall & Hrows).
  destruct (Hall (Samples.crash 20101001 2010 1 1) "Cessnock") as (e & He & Hname).
  { vm_compute. tauto. }
  { reflexivity. }
  { discriminate. }
  exists e. split; [exact He |]. split; [exact Hname |].
  destruct (Hrows e He) as (_ & Hpop & Hsource & _). apply Hsource. rewrite Hpop, Hname.
  vm_compute. by eexists.
Defined.

(** *** The time validity check *)

(** The first row of a frame is never dropped. *)
Lemma drop_duplicates_head {A K : Type} `{EqDecision K} (key : A -> K) (a : A) (df : list A) :
  drop_duplicates key (a :: df) = a :: drop_duplicates_from key [key a] df.
Proof. reflexivity. Qed.

(** When the loaded [Time] column holds a text, the Time dimension of the run
    has a column of texts. *)
Lemma time_dim_accessor fatal_crash :
  is_object (Time <$> filter_crashes fatal_crash) = true ->
  FixTimeIssues.has_str_accessor (time_Time <$> time_dim (prepare_crashes fatal_crash)) = true.
Proof.
  intros Hobject.
  assert (Hloaded : is_object (Time <$> fatal_crash) = true).
  { unfold is_object in *.
    apply existsb_exists in Hobject as (v & (c & <- & Hc%in_filter_crashes)%in_map_iff & Hv).
    apply existsb_exists. exists (Time c). split; [apply in_map; tauto | done]. }
  unfold prepare_crashes, standardize_time. rewrite Hloaded.
  destruct (filter_crashes fatal_crash) as [|c crashes]; [discriminate Hobject |].
  unfold time_dim. cbn [fmap list_fmap]. rewrite drop_duplicates_head.
  cbn [fmap list_fmap FixTimeIssues.has_str_accessor is_object existsb time_Time id].
  cbn [set_Time Time]. unfold standard_time. reflexivity.
Qed.

(** X16. On the Time dimension of a run, the time validity check of
    [data_quality_check.py] finds no record outside the years 2001 to 2023,
    before and after [fix_time_issues.py], and after it no record with a time
    format issue.  [fix_time_issues.py] does not raise on it when the [Time]
    column of the crashes of the window held a text. *)
Theorem time_validity_check_passes regex_search fatal_crash fatalities remoteness_df lga_df :
  let time_dim := out_time (run regex_search fatal_crash fatalities remoteness_df lga_df) in
  DataQualityCheck.year_check time_dim = [] /\
  (is_object (Time <$> filter_crashes fatal_crash) = true ->
   is_Some (FixTimeIssues.fix_time_issues time_dim)) /\
  (forall fixed, FixTimeIssues.fix_time_issues time_dim = Some fixed ->
     DataQualityCheck.year_check fixed = [] /\
     DataQualityCheck.time_format_issues fixed = Some []).
Proof.
  cbv zeta.
  assert (Hyears : forall r,
            In r (out_time (run regex_search fatal_crash fatalities remoteness_df lga_df)) ->
            in_window (time_Year r) = true).
  { unfold run. cbn [out_time]. unfold time_dim.
    intros r (c & <- & Hc)%in_drop_duplicates%in_map_iff. cbn [time_Year].
    pose proof (prepare_crashes_in_window fatal_crash) as Hwin.
    rewrite Forall_forall in Hwin. by apply Hwin, list_elem_of_In. }
  assert (Hcheck : forall rows,
            (forall r, In r rows -> in_window (time_Year r) = true) ->
            DataQualityCheck.year_check rows = []).
  { intros rows Hrows. unfold DataQualityCheck.year_check. apply filter_none.
    intros r Hr. specialize (Hrows r Hr). unfold in_window in Hrows.
    destruct (time_Year r) as [y |]; [| done].
    apply andb_true_iff in Hrows as [H1%Z.leb_le H2%Z.leb_le].
    apply orb_false_iff. split; apply Z.ltb_ge; lia. }
  split; [by apply Hcheck |]. split.
  - intros Hobject. unfold FixTimeIssues.fix_time_issues, FixTimeIssues.problem_records.
    unfold run. cbn [out_time]. rewrite (time_dim_accessor _ Hobject). cbn. by eexists.
  - intros fixed Hfixed. split.
    + destruct (fix_time_issues_Some _ _ Hfixed) as [_ ->].
      apply Hcheck. intros r (r0 & <- & Hr0)%in_map_iff.
      destruct (FixTimeIssues.matches (time_Time r0));
        [by apply Hyears | exact (Hyears r0 Hr0)].
    + unfold DataQualityCheck.time_format_issues, FixTimeIssues.problem_records.
      rewrite (fix_time_issues_accessor _ _ Hfixed). f_equal.
      apply filter_none. intros r Hr%list_elem_of_In.
      pose proof (fix_time_issues_matches _ _ Hfixed) as Hall.
      rewrite Forall_forall in Hall. by rewrite (Hall r Hr).
Qed.

Lemma time_validity_check_passes_witness :
  exists fixed,
    FixTimeIssues.fix_time_issues
      (out_time (run contains Samples.loaded_crashes [] [] Samples.lga_df)) = Some fixed /\
    DataQualityCheck.time_format_issues fixed = Some [].
Proof.
  destruct (proj1 (proj2 (time_validity_check_passes contains Samples.loaded_crashes [] []
                            Samples.lga_df)) ltac:(vm_compute; reflexivity))
    as [fixed Hfixed].
  exists fixed. split; [exact Hfixed |].
  apply (time_validity_check_passes contains Samples.loaded_crashes [] [] Samples.lga_df),
    Hfixed.
Defined.

(** ** The repair of missing ages, as a whole *)

Lemma median_nil : median [] = None.
Proof. reflexivity. Qed.

(** The median of at least one value exists. *)
Lemma median_is_Some (values : list Qc) : values <> [] -> is_Some (median values).
Proof.
  intros Hne. unfold median.
  assert (Hlen : length (merge_sort Qcle values) = length values)
    by apply Permutation_length, merge_sort_Permutation.
  set (sorted := merge_sort Qcle values) in *.
  assert (Hpos : (0 < length sorted)%nat).
  { rewrite Hlen. destruct values; [done | simpl; lia]. }
  assert (Hhalf : (length sorted / 2 < length sorted)%nat)
    by (apply Nat.div_lt; lia).
  destruct (Nat.even (length sorted)).
  - destruct (length sorted) as [|n] eqn:Hn; [lia |]. rewrite <- Hn in *.
    destruct (lookup_lt_is_Some_2 sorted (length sorted / 2 - 1)) as [lo ->]; [lia |].
    destruct (lookup_lt_is_Some_2 sorted (length sorted / 2)) as [hi ->]; [lia |].
    by eexists.
  - by apply lookup_lt_is_Some_2.
Qed.

Lemma omap_nil_iff {X Y : Type} (f : X -> option Y) (l : list X) :
  omap f l = [] <-> Forall (fun x => f x = None) l.
Proof.
  induction l as [|x l IH]; [by split |].
  cbn [omap list_omap]. rewrite Forall_cons, <- IH.
  destruct (f x); split; try done; by intros [? ?].
Qed.

Lemma overall_median_is_Some driver_dim :
  Exists has_age driver_dim -> is_Some (overall_median driver_dim).
Proof.
  intros Hknown. apply median_is_Some. intros Hnil%omap_nil_iff.
  apply Exists_exists in Hknown as (r & Hr & [a Ha]).
  rewrite Forall_forall in Hnil. specialize (Hnil r Hr). congruence.
Qed.

Lemma overall_median_None driver_dim :
  Forall lacks_age driver_dim -> overall_median driver_dim = None.
Proof.
  intros Hall. unfold overall_median.
  by rewrite (proj2 (omap_nil_iff drv_Age driver_dim) Hall).
Qed.

Lemma group_median_None driver_dim g :
  Forall lacks_age driver_dim -> group_median driver_dim g = None.
Proof.
  intros Hall. unfold group_median.
  rewrite (proj2 (omap_nil_iff drv_Age _)); [done |].
  by apply Forall_filter_keep.
Qed.

Lemma fmap_id_in {X : Type} (f : X -> X) (l : list X) :
  (forall x, In x l -> f x = x) -> f <$> l = l.
Proof.
  induction l as [|x l IH]; intros Hf; [done |].
  cbn [fmap list_fmap]. rewrite (Hf x) by by left.
  f_equal. apply IH. intros y Hy. apply Hf. by right.
Qed.

Lemma set_Age_same r : set_Age r (drv_Age r) = r.
Proof. by destruct r. Qed.

Lemma ages_known_or_not driver_dim :
  Exists has_age driver_dim \/ Forall lacks_age driver_dim.
Proof.
  induction driver_dim as [|r l IH]; [right; constructor |].
  destruct (drv_Age r) as [a |] eqn:Ha; [left; left; by exists a |].
  destruct IH as [IH | IH]; [left; by right | right; by constructor].
Qed.

Lemma existsb_missing_false driver_dim :
  Forall has_age driver_dim ->
  existsb (fun r => bool_decide (drv_Age r = None)) driver_dim = false.
Proof.
  intros Hall. apply not_true_iff_false. intros (r & Hr%list_elem_of_In & Hnone)%existsb_exists.
  apply bool_decide_eq_true_1 in Hnone. rewrite Forall_forall in Hall.
  destruct (Hall r Hr) as [a Ha]. congruence.
Qed.

Section Repair.

Variable unknown : list string.

Lemma get_median_age_None driver_dim mapping g :
  Forall lacks_age driver_dim ->
  (forall k m, mapping !! k = Some m -> m = None) ->
  get_median_age unknown driver_dim mapping g = None.
Proof.
  intros Hall Hmap. unfold get_median_age. rewrite (overall_median_None _ Hall).
  destruct (_ || _); [done |].
  destruct (mapping !! g) as [m |] eqn:Hg; [| done]. exact (Hmap g m Hg).
Qed.

Lemma age_group_mapping_None driver_dim k m :
  Forall lacks_age driver_dim ->
  age_group_mapping unknown driver_dim !! k = Some m -> m = None.
Proof.
  intros Hall. unfold age_group_mapping. rewrite mapping_loop_lookup.
  destruct (_ && _); [| by rewrite lookup_empty].
  intros [= <-]. by apply group_median_None.
Qed.

(** Without any known age the repair changes nothing. *)
Lemma fix_missing_ages_nothing_known driver_dim :
  Forall lacks_age driver_dim -> fix_missing_ages unknown driver_dim = driver_dim.
Proof.
  intros Hall.
  assert (Hassign : assign_group_medians unknown driver_dim = driver_dim).
  { unfold assign_group_medians. apply fmap_id_in. intros r Hr.
    destruct (drv_Age r) eqn:Hage; [done |].
    rewrite get_median_age_None; [by rewrite <- Hage, set_Age_same | done |].
    intros k m. by apply age_group_mapping_None. }
  unfold fix_missing_ages. destruct (existsb _ driver_dim); [| done].
  rewrite Hassign, (overall_median_None _ Hall). unfold fillna_Age.
  apply fmap_id_in. intros r Hr.
  destruct (drv_Age r) eqn:Hage; [done |]. by rewrite <- Hage, set_Age_same.
Qed.

Lemma assign_group_medians_keeps driver_dim :
  Exists has_age driver_dim -> Exists has_age (assign_group_medians unknown driver_dim).
Proof.
  intros (r & Hr & [a Ha])%Exists_exists. apply Exists_exists. exists r. split.
  - unfold assign_group_medians. apply list_elem_of_fmap. exists r. by rewrite Ha.
  - by exists a.
Qed.

(** With a known age the repair leaves no age missing. *)
Lemma fix_missing_ages_all_known driver_dim :
  Exists has_age driver_dim -> Forall has_age (fix_missing_ages unknown driver_dim).
Proof.
  intros Hknown. unfold fix_missing_ages.
  destruct (existsb _ driver_dim) eqn:Hmissing.
  - destruct (overall_median_is_Some _ (assign_group_medians_keeps _ Hknown)) as [m ->].
    unfold fillna_Age. apply Forall_fmap, Forall_forall. intros r _. cbv beta.
    unfold compose, has_age. destruct (drv_Age r) eqn:Hage; [by rewrite Hage | by eexists].
  - apply Forall_forall. intros r Hr%list_elem_of_In. unfold has_age.
    destruct (drv_Age r) eqn:Hage; [by eexists |].
    assert (Hex : existsb (fun r => bool_decide (drv_Age r = None)) driver_dim = true).
    { apply existsb_exists. exists r. split; [done | by apply bool_decide_eq_true_2]. }
    congruence.
Qed.

End Repair.

(** X17. When at least one age of the Driver dimension is known, the repair
    leaves no age missing; when none is, it leaves the dimension as it is.  The
    same holds of [fix_driver_age.py]. *)
Theorem age_repair_is_complete (unknown : list string) (driver_dim : list driver_row) :
  (Exists has_age driver_dim -> Forall has_age (fix_missing_ages unknown driver_dim)) /\
  (Forall lacks_age driver_dim -> fix_missing_ages unknown driver_dim = driver_dim) /\
  (Exists has_age driver_dim -> Forall has_age (FixDriverAge.fix_driver_age driver_dim)) /\
  (Forall lacks_age driver_dim -> FixDriverAge.fix_driver_age driver_dim = driver_dim).
Proof.
  split; [apply fix_missing_ages_all_known |].
  split; [apply fix_missing_ages_nothing_known |].
  split; [apply fix_missing_ages_all_known | apply fix_missing_ages_nothing_known].
Qed.

Lemma age_repair_is_complete_witness :
  Forall has_age (fix_missing_ages unknown_labels Samples.drivers_mixed).
Proof.
  apply (proj1 (age_repair_is_complete unknown_labels Samples.drivers_mixed)).
  left. by eexists.
Defined.

(** X18. The repair keeps the rows of the Driver dimension in number and
    order, changes no column but [Age], and changes no age that is known. *)
Theorem age_repair_keeps_known_ages (unknown : list string) (driver_dim : list driver_row) :
  length (fix_missing_ages unknown driver_dim) = length driver_dim /\
  forall i r, driver_dim !! i = Some r ->
    exists age, fix_missing_ages unknown driver_dim !! i = Some (set_Age r age) /\
                forall a, drv_Age r = Some a -> age = Some a.
Proof.
  unfold fix_missing_ages.
  destruct (existsb _ driver_dim); [| split; [done |]].
  - unfold fillna_Age, assign_group_medians. split; [by rewrite !length_fmap |].
    intros i r Hi. rewrite !list_lookup_fmap, Hi. cbn.
    destruct (drv_Age r) as [a |] eqn:Hage.
    + rewrite Hage. exists (Some a). by rewrite <- Hage, set_Age_same.
    + cbn. destruct (get_median_age _ _ _ _); eexists; (split; [reflexivity | done]).
  - intros i r Hi. exists (drv_Age r). by rewrite set_Age_same.
Qed.

Lemma age_repair_keeps_known_ages_witness :
  fix_missing_ages unknown_labels Samples.drivers_mixed !! 2%nat
  = Some (Samples.driver (PyStr "B") (Some (Q2Qc 90))).
Proof.
  destruct (proj2 (age_repair_keeps_known_ages unknown_labels Samples.drivers_mixed) 2%nat
              (Samples.driver (PyStr "B") (Some (Q2Qc 90))) eq_refl) as (age & -> & Hage).
  by rewrite (Hage _ eq_refl).
Defined.

(** *** Running the repair again *)

Lemma fix_missing_ages_again (unknown unknown' : list string) driver_dim :
  fix_missing_ages unknown (fix_missing_ages unknown' driver_dim)
  = fix_missing_ages unknown' driver_dim.
Proof.
  destruct (ages_known_or_not driver_dim) as [Hknown | Hnone].
  - pose proof (fix_missing_ages_all_known unknown' _ Hknown) as Hall.
    unfold fix_missing_ages at 1. by rewrite existsb_missing_false.
  - rewrite (fix_missing_ages_nothing_known unknown' _ Hnone).
    by apply fix_missing_ages_nothing_known.
Qed.

(** X19. Once the ages are repaired, a second repair finds nothing to do,
    with either list of unknown labels: [fix_driver_age.py] leaves the Driver
    dimension that [etl.py] builds as it is, and both repairs are idempotent. *)
Theorem age_repair_runs_once (fatalities : list fatality_record)
    (driver_dim : list driver_row) :
  FixDriverAge.fix_driver_age (Etl.driver_dim fatalities) = Etl.driver_dim fatalities /\
  FixDriverAge.fix_driver_age (FixDriverAge.fix_driver_age driver_dim)
    = FixDriverAge.fix_driver_age driver_dim /\
  fix_missing_ages unknown_labels (fix_missing_ages unknown_labels driver_dim)
    = fix_missing_ages unknown_labels driver_dim /\
  FixDriverAge.fix_driver_age (fix_missing_ages unknown_labels driver_dim)
    = fix_missing_ages unknown_labels driver_dim.
Proof.
  split; [| repeat split; apply fix_missing_ages_again].
  unfold Etl.driver_dim, FixDriverAge.fix_driver_age.
  set (rows := (fun f => _) <$> fatalities).
  destruct (ages_known_or_not rows) as [Hknown | Hnone].
  - pose proof (fix_missing_ages_all_known unknown_labels _ Hknown) as Hall.
    unfold fix_missing_ages at 1. rewrite existsb_missing_false; [done |].
    apply Forall_forall. intros r Hr%list_elem_of_In%in_drop_duplicates.
    rewrite Forall_forall in Hall. by apply Hall, list_elem_of_In.
  - rewrite (fix_missing_ages_nothing_known unknown_labels _ Hnone).
    apply fix_missing_ages_nothing_known.
    apply Forall_forall. intros r Hr%list_elem_of_In%in_drop_duplicates.
    rewrite Forall_forall in Hnone. by apply Hnone, list_elem_of_In.
Qed.

(** *** The two lists of unknown labels *)

Lemma is_unknown_labels_agree g :
  g <> PyStr "-9" ->
  is_unknown FixDriverAge.unknown_labels g = is_unknown unknown_labels g.
Proof.
  intros Hg. destruct g as [z | s | |]; try reflexivity. cbn [is_unknown].
  apply bool_decide_ext. unfold FixDriverAge.unknown_labels, unknown_labels.
  rewrite !elem_of_cons, !elem_of_nil. split; [tauto |].
  intros [? | [-> | []]]; [by left | done].
Qed.

(** X20. [fix_driver_age.py] takes the label 'Unknown' alone for unknown,
    [etl.py] the label '-9' as well: on a Driver dimension without the label
    '-9' the two repairs give the same ages; with it they can differ, the
    script filling a row of that label with the median of the label and the
    ETL with the median of all known ages. *)
Theorem repairs_agree_without_minus_nine :
  (forall driver_dim,
     Forall (fun r => drv_Age_Group r <> PyStr "-9") driver_dim ->
     FixDriverAge.fix_driver_age driver_dim = fix_missing_ages unknown_labels driver_dim) /\
  age_value <$> FixDriverAge.fix_driver_age Samples.drivers_minus_nine
    = [Some (10 # 1); Some (10 # 1); Some (50 # 1)] /\
  age_value <$> fix_missing_ages unknown_labels Samples.drivers_minus_nine
    = [Some (10 # 1); Some (30 # 1); Some (50 # 1)].
Proof.
  split; [| split; vm_compute; reflexivity].
  intros driver_dim Hall. unfold FixDriverAge.fix_driver_age, fix_missing_ages.
  assert (Hassign : assign_group_medians FixDriverAge.unknown_labels driver_dim
                    = assign_group_medians unknown_labels driver_dim).
  { unfold assign_group_medians. apply list_fmap_ext. intros i r Hi.
    destruct (drv_Age r); [| f_equal]; [done |].
    rewrite Forall_forall in Hall.
    pose proof (Hall r (list_elem_of_lookup_2 _ _ _ Hi)) as Hg.
    unfold get_median_age, age_group_mapping.
    rewrite !mapping_loop_lookup, (is_unknown_labels_agree _ Hg). reflexivity. }
  by rewrite Hassign.
Qed.

Lemma repairs_agree_without_minus_nine_witness :
  FixDriverAge.fix_driver_age Samples.drivers_mixed
  = fix_missing_ages unknown_labels Samples.drivers_mixed.
Proof.
  apply (proj1 repairs_agree_without_minus_nine).
  repeat constructor; discriminate.
Defined.

(** ** Reading the remoteness reference *)

Lemma parse_digits_nonneg s acc n :
  0 <= acc -> parse_digits s acc = Some n -> 0 <= n.
Proof.
  revert acc. induction s as [|c s IH]; intros acc Hacc; simpl.
  - by intros [= <-].
  - destruct (digit_val c) as [d |] eqn:Hd; [| discriminate].
    apply IH. unfold digit_val in Hd.
    destruct (_ && _) eqn:Hc; [| discriminate]. injection Hd as <-.
    apply andb_true_iff in Hc as [H48%Z.leb_le _]. lia.
Qed.

(** A number read by [float_of_decimal] is not negative. *)
Lemma float_of_decimal_nonneg value q :
  float_of_decimal value = Some q -> (0 <= q)%Qc.
Proof.
  unfold float_of_decimal.
  destruct (split_on "." value) as [|whole [|fraction [|? ?]]]; try discriminate.
  - destruct (nonempty whole); [| discriminate].
    destruct (parse_digits whole 0) as [n |] eqn:Hn; [| discriminate].
    intros [= <-]. apply parse_digits_nonneg in Hn; [| lia].
    unfold Qcle. cbn [this Q2Qc]. rewrite !Qred_correct.
    unfold Qle. simpl. lia.
  - destruct (_ || _); [| discriminate].
    destruct (parse_digits whole 0) as [n |] eqn:Hn; [| discriminate].
    destruct (parse_digits fraction 0) as [m |] eqn:Hm; [| discriminate].
    cbn [mbind option_bind]. intros [= <-].
    apply parse_digits_nonneg in Hn; [| lia]. apply parse_digits_nonneg in Hm; [| lia].
    unfold Qcle. cbn [this Q2Qc]. rewrite !Qred_correct.
    apply (Qle_trans _ (inject_Z n + 0)%Q).
    + unfold Qle. simpl. lia.
    + apply Qplus_le_compat; [apply Qle_refl |]. unfold Qle. simpl. lia.
Qed.

(** *** The dict of the states *)

Lemma dict_set_keys state i d :
  fst <$> dict_set state i d
  = if bool_decide (state ∈ fst <$> d) then fst <$> d else ((fst <$> d) ++ [state])%list.
Proof.
  induction d as [|[s j] d IH]; [reflexivity |].
  cbn [dict_set fmap list_fmap fst].
  destruct (String.eqb_spec s state) as [-> | Hne].
  - by rewrite bool_decide_eq_true_2 by by left.
  - cbn [fmap list_fmap fst]. rewrite IH.
    rewrite (bool_decide_ext (state ∈ s :: (fst <$> d)) (state ∈ fst <$> d)).
    + by destruct (bool_decide _).
    + rewrite elem_of_cons. split; [by intros [? | ?] | by right].
Qed.

Lemma find_states_keys i lines d :
  NoDup (fst <$> d) -> Forall (fun s => In s states) (fst <$> d) ->
  NoDup (fst <$> find_states i lines d) /\
  Forall (fun s => In s states) (fst <$> find_states i lines d).
Proof.
  revert i d. induction lines as [|line lines IH]; intros i d Hnd Hin; [done |].
  cbn [find_states]. apply IH.
  - destruct (List.find _ states) as [state |]; [| done].
    rewrite dict_set_keys. destruct (bool_decide_reflect (state ∈ fst <$> d)); [done |].
    apply NoDup_app. split; [done |]. split; [| apply NoDup_singleton].
    intros s Hs ->%list_elem_of_singleton. done.
  - destruct (List.find _ states) as [state |] eqn:Hfind; [| done].
    rewrite dict_set_keys. destruct (bool_decide _); [done |].
    apply Forall_app. split; [done |]. apply Forall_singleton.
    by apply find_some in Hfind as [? _].
Qed.

Lemma state_indices_keys lines :
  NoDup (fst <$> state_indices lines) /\
  Forall (fun s => In s states) (fst <$> state_indices lines).
Proof. apply find_states_keys; constructor. Qed.

(** *** The rows of a state *)

Lemma category_record_Some lines state start_idx category row :
  category_record lines state start_idx category = Some row ->
  row = remoteness_record state category (ref_Population row) /\
  (0 <= ref_Population row)%Qc.
Proof.
  unfold category_record. destruct (List.find _ _) as [line |]; [| discriminate].
  unfold first_population. destruct (List.find _ _) as [value |]; [| discriminate].
  destruct (float_of_decimal value) as [q |] eqn:Hq; [| discriminate].
  intros [= <-]. split; [reflexivity |]. by apply float_of_decimal_nonneg in Hq.
Qed.

Lemma in_remoteness_data lines row :
  In row (remoteness_data lines) <->
  exists state start_idx category,
    In (state, start_idx) (state_indices lines) /\ In category remoteness_categories /\
    category_record lines state start_idx category = Some row.
Proof.
  unfold remoteness_data. rewrite in_flat_map. split.
  - intros ([state start_idx] & Hsi & Hrow%list_elem_of_In).
    apply list_elem_of_omap in Hrow as (category & Hc%list_elem_of_In & Hrow).
    by exists state, start_idx, category.
  - intros (state & start_idx & category & Hsi & Hc & Hrow).
    exists (state, start_idx). split; [done |].
    apply list_elem_of_In, list_elem_of_omap. exists category.
    split; [by apply list_elem_of_In | done].
Qed.

Lemma NoDup_omap_key {X Y K : Type} (f : X -> option Y) (g : Y -> K) (h : X -> K)
    (l : list X) :
  (forall x y, f x = Some y -> g y = h x) -> NoDup (h <$> l) -> NoDup (g <$> omap f l).
Proof.
  intros Hkey. induction l as [|x l IH]; [constructor |].
  cbn [fmap list_fmap omap list_omap]. intros [Hx Hnd]%NoDup_cons.
  destruct (f x) as [y |] eqn:Hy; [| by apply IH].
  cbn [fmap list_fmap]. constructor; [| by apply IH].
  intros (y' & Heq & Hy')%list_elem_of_fmap. apply Hx.
  apply list_elem_of_omap in Hy' as (x' & Hx' & Hfx').
  rewrite <- (Hkey x y Hy), Heq, (Hkey x' y' Hfx').
  apply list_elem_of_fmap. by exists x'.
Qed.

Lemma NoDup_flat_map_key {X Y K K' : Type} (block : X -> list Y) (key : Y -> K * K')
    (h : X -> K) (l : list X) :
  (forall x y, In y (block x) -> (key y).1 = h x) ->
  (forall x, NoDup (key <$> block x)) ->
  NoDup (h <$> l) -> NoDup (key <$> flat_map block l).
Proof.
  intros Hkey Hblock. induction l as [|x l IH]; [constructor |].
  cbn [fmap list_fmap flat_map]. intros [Hx Hnd]%NoDup_cons.
  rewrite fmap_app. apply NoDup_app. split; [apply Hblock |]. split; [| by apply IH].
  intros k (y & -> & Hy%list_elem_of_In)%list_elem_of_fmap
    (y' & Heq & Hy'%list_elem_of_In)%list_elem_of_fmap.
  apply in_flat_map in Hy' as (x' & Hx' & Hy'). apply Hx.
  rewrite <- (Hkey x y Hy), Heq, (Hkey x' y' Hy').
  apply list_elem_of_fmap. exists x'. split; [done | by apply list_elem_of_In].
Qed.

Lemma remoteness_data_keys lines :
  NoDup (reference_key <$> remoteness_data lines).
Proof.
  unfold remoteness_data.
  apply (NoDup_flat_map_key _ reference_key fst).
  - intros [state start_idx] row Hrow%list_elem_of_In.
    apply list_elem_of_omap in Hrow as (category & _ & Hrow).
    apply category_record_Some in Hrow as [-> _]. reflexivity.
  - intros [state start_idx].
    apply (NoDup_omap_key _ reference_key (fun category => (state, category))).
    + intros category row Hrow. apply category_record_Some in Hrow as [-> _]. reflexivity.
    + assert (Hinj : Inj eq eq (fun category : string => (state, category)))
        by by intros c1 c2 [= ->].
      apply (NoDup_fmap_2 _). apply (bool_decide_unpack _). vm_compute. exact I.
  - apply state_indices_keys.
Qed.

Lemma reference_names_decode :
  Forall (fun sc : string * string =>
            state_of_area (sc.2 +:+ " Australia (" +:+ sc.1 +:+ ")") = sc.1)
         (list_prod states remoteness_categories).
Proof. apply (bool_decide_unpack _). vm_compute. exact I. Qed.

Lemma in_remoteness_data_key lines row :
  In row (remoteness_data lines) ->
  In (ref_State row) states /\ In (ref_Remoteness_Category row) remoteness_categories /\
  row = remoteness_record (ref_State row) (ref_Remoteness_Category row) (ref_Population row) /\
  (0 <= ref_Population row)%Qc.
Proof.
  intros (state & start_idx & category & Hsi & Hc & Hrow)%in_remoteness_data.
  apply category_record_Some in Hrow as [Hrow Hpos].
  assert (Hs : ref_State row = state) by (rewrite Hrow; reflexivity).
  assert (Hc' : ref_Remoteness_Category row = category) by (rewrite Hrow; reflexivity).
  rewrite Hs, Hc'. split; [| done].
  destruct (state_indices_keys lines) as [_ Hstates]. rewrite Forall_forall in Hstates.
  apply Hstates, list_elem_of_fmap. exists (state, start_idx).
  split; [done | by apply list_elem_of_In].
Qed.

(** X21. The rows read from the remoteness file: no two of them have the same
    state and category, so that there are at most forty; the state of a row is
    one of the eight states and its category one of the five categories; its
    area is named by the category and the state, and [state_of_area] finds the
    state again in that name; its population is not negative. *)
Theorem remoteness_reference_rows (lines : list string) :
  NoDup (reference_key <$> remoteness_data lines) /\
  (length (remoteness_data lines) <= 40)%nat /\
  forall row, In row (remoteness_data lines) ->
    In (ref_State row) states /\
    In (ref_Remoteness_Category row) remoteness_categories /\
    ref_Remoteness_Area row = area_name (ref_Remoteness_Category row) (ref_State row) /\
    state_of_area (ref_Remoteness_Area row) = ref_State row /\
    (0 <= ref_Population row)%Qc.
Proof.
  assert (Hrows : forall row, In row (remoteness_data lines) ->
            In (ref_State row) states /\
            In (ref_Remoteness_Category row) remoteness_categories /\
            ref_Remoteness_Area row = area_name (ref_Remoteness_Category row) (ref_State row) /\
            state_of_area (ref_Remoteness_Area row) = ref_State row /\
            (0 <= ref_Population row)%Qc).
  { intros row (Hs & Hc & Hrow & Hpos)%in_remoteness_data_key.
    split; [done |]. split; [done |].
    assert (Harea : ref_Remoteness_Area row
                    = area_name (ref_Remoteness_Category row) (ref_State row))
      by (rewrite Hrow; reflexivity).
    split; [exact Harea |]. split; [| done].
    rewrite Harea. pose proof reference_names_decode as Hall.
    rewrite Forall_forall in Hall.
    apply (Hall (ref_State row, ref_Remoteness_Category row)).
    by apply list_elem_of_In, in_prod. }
  split; [apply remoteness_data_keys |]. split; [| exact Hrows].
  change 40%nat with (length (list_prod states remoteness_categories)).
  rewrite <- (length_fmap reference_key). apply submseteq_length, NoDup_submseteq.
  - apply remoteness_data_keys.
  - intros [s c] (row & [= -> ->] & Hrow%list_elem_of_In)%list_elem_of_fmap.
    destruct (Hrows row Hrow) as (Hs & Hc & _). by apply list_elem_of_In, in_prod.
Qed.

Lemma remoteness_reference_rows_witness :
  (fun row => (ref_Remoteness_Area row, ref_State row)) <$> remoteness_data Samples.remoteness_lines
  = [("Major Cities Australia (NSW)", "NSW"); ("Inner Regional Australia (NSW)", "NSW");
     ("Outer Regional Australia (NSW)", "NSW"); ("Remote Australia (NSW)", "NSW");
     ("Very Remote Australia (NSW)", "NSW")] /\
  forall row, In row (remoteness_data Samples.remoteness_lines) ->
    state_of_area (ref_Remoteness_Area row) = "NSW".
Proof.
  split; [vm_compute; reflexivity |]. intros row Hrow.
  destruct (proj2 (proj2 (remoteness_reference_rows Samples.remoteness_lines)) row Hrow)
    as (_ & _ & _ & -> & _).
  vm_compute in Hrow.
  repeat (destruct Hrow as [<- | Hrow]; [reflexivity |]). destruct Hrow.
Defined.

(** *** The exact row of a very remote area *)

(** Among the reference names, the only ones on which the loop stops for the
    very remote area of a state are the remote and the very remote area of
    that state. *)
Lemma stops_for_very_remote :
  Forall (fun ssc : string * string * string =>
            let '(s, st, cat) := ssc in
            breaks_on (area_name "Very Remote" s) (remoteness_record st cat (Q2Qc 0))
            = String.eqb st s && (String.eqb cat "Remote" || String.eqb cat "Very Remote"))
         (list_prod (list_prod states states) remoteness_categories).
Proof. apply (bool_decide_unpack _). vm_compute. exact I. Qed.

Lemma breaks_on_reference_row area state category value :
  breaks_on area (remoteness_record state category value)
  = breaks_on area (remoteness_record state category (Q2Qc 0)).
Proof. reflexivity. Qed.

Lemma breaks_on_very_remote s st cat value :
  In s states -> In st states -> In cat remoteness_categories ->
  breaks_on (area_name "Very Remote" s) (remoteness_record st cat value)
  = String.eqb st s && (String.eqb cat "Remote" || String.eqb cat "Very Remote").
Proof.
  intros Hs Hst Hcat. rewrite breaks_on_reference_row.
  pose proof stops_for_very_remote as Hall. rewrite Forall_forall in Hall.
  apply (Hall (s, st, cat)). apply list_elem_of_In, in_prod; [by apply in_prod | done].
Qed.

Lemma dict_lookup_unique {K V : Type} (d : list (K * V)) k v1 v2 :
  NoDup (fst <$> d) -> In (k, v1) d -> In (k, v2) d -> v1 = v2.
Proof.
  intros Hnd H1 H2.
  assert (Heq : (k, v1) = (k, v2)) by by apply (NoDup_fmap_In_inj fst d).
  by injection Heq.
Qed.

(** X22. Whatever the remoteness file holds, when both the remote and the very
    remote area of a state are read from it, the area "Very Remote Australia
    (state)" of the crash data is not matched to the row of that very name: the
    row of the remote area of the state stands before it and its name is part
    of the name sought, so that the loop stops there and the population entry
    of the very remote area carries the population of the remote area. *)
Theorem very_remote_area_gets_remote_population (lines : list string) (state : string)
    (remote very_remote : Qc) :
  let df := remoteness_data lines in
  let area := area_name "Very Remote" state in
  In (remoteness_record state "Remote" remote) df ->
  In (remoteness_record state "Very Remote" very_remote) df ->
  ref_Remoteness_Area (remoteness_record state "Very Remote" very_remote) = area /\
  match_rows area df None = Some (remoteness_record state "Remote" remote) /\
  forall unique e, In e (remoteness_entries unique df) -> pop_Remoteness_Area e = area ->
    pop_Population e = Some remote.
Proof.
  cbv zeta. intros Hremote Hvery. split; [reflexivity |].
  assert (Hmatch : match_rows (area_name "Very Remote" state) (remoteness_data lines) None
                   = Some (remoteness_record state "Remote" remote)).
  { apply in_remoteness_data in Hremote as (s1 & i1 & c1 & Hsi1 & Hc1 & Hrow1).
    apply in_remoteness_data in Hvery as (s2 & i2 & c2 & Hsi2 & Hc2 & Hrow2).
    pose proof (category_record_Some _ _ _ _ _ Hrow1) as [[= <- <-] _].
    pose proof (category_record_Some _ _ _ _ _ Hrow2) as [[= <- <-] _].
    destruct (state_indices_keys lines) as [Hnd Hstates].
    assert (i2 = i1) as -> by by apply (dict_lookup_unique (state_indices lines) state).
    assert (Hstate : In state states).
    { rewrite Forall_forall in Hstates. apply Hstates, list_elem_of_fmap.
      exists (state, i1). split; [done | by apply list_elem_of_In]. }
    apply in_split in Hsi1 as (d1 & d2 & Hd).
    unfold remoteness_data. rewrite Hd, flat_map_app. cbn [flat_map fst snd].
    change remoteness_categories
      with (["Major Cities"; "Inner Regional"; "Outer Regional"] ++ ["Remote"; "Very Remote"])%list.
    rewrite omap_app.
    assert (Hlast : omap (category_record lines state i1) ["Remote"; "Very Remote"]
                    = [remoteness_record state "Remote" remote;
                       remoteness_record state "Very Remote" very_remote]).
    { cbn [omap list_omap]. by rewrite Hrow1, Hrow2. }
    rewrite Hlast.
    set (block := fun si : string * nat =>
                    omap (category_record lines si.1 si.2)
                         (["Major Cities"; "Inner Regional"; "Outer Regional"]
                            ++ ["Remote"; "Very Remote"])%list).
    set (first_three := omap (category_record lines state i1)
                          ["Major Cities"; "Inner Regional"; "Outer Regional"]).
    rewrite <- (app_assoc first_three), (app_assoc (flat_map block d1) first_three).
    cbn [app].
    apply match_rows_first_break.
    - apply forallb_forall. intros row Hrow. apply negb_true_iff.
      rewrite Hd, fmap_app in Hnd. cbn [fmap list_fmap fst] in Hnd.
      apply NoDup_app in Hnd as (_ & Hdisjoint & _).
      apply in_app_iff in Hrow as [Hrow | Hrow].
      + apply in_flat_map in Hrow as ([st i] & Hsi & Hrow%list_elem_of_In).
        apply list_elem_of_omap in Hrow as (cat & Hcat%list_elem_of_In & Hrow).
        apply category_record_Some in Hrow as [-> _]. cbn [fst snd].
        assert (Hst : In st states).
        { rewrite Forall_forall in Hstates. apply Hstates, list_elem_of_fmap.
          exists (st, i). split; [done |]. rewrite Hd. apply list_elem_of_In, in_app_iff.
          by left. }
        rewrite breaks_on_very_remote by done.
        destruct (String.eqb_spec st state) as [-> | _]; [| done].
        destruct (Hdisjoint state).
        * apply list_elem_of_fmap. exists (state, i). split; [done | by apply list_elem_of_In].
        * by left.
      + apply list_elem_of_In, list_elem_of_omap in Hrow as (cat & Hcat%list_elem_of_In & Hrow).
        apply category_record_Some in Hrow as [-> _].
        rewrite breaks_on_very_remote by (done || (simpl in Hcat |- *; tauto)).
        simpl in Hcat. rewrite andb_false_iff. right.
        by repeat (destruct Hcat as [<- | Hcat]; [reflexivity |]).
    - rewrite breaks_on_very_remote by (done || (simpl; tauto)).
      by rewrite String.eqb_refl. }
  split; [exact Hmatch |].
  intros unique e He Harea. rewrite remoteness_entries_closed_form in He.
  apply list_elem_of_In, list_elem_of_omap in He as (v & _ & He).
  destruct v as [z | a | |]; try discriminate He. injection He as <-.
  cbn [entry_of pop_Remoteness_Area pop_Population] in *. subst a. by rewrite Hmatch.
Qed.

Lemma very_remote_area_gets_remote_population_witness :
  (fun e => this <$> pop_Population e)
    <$> remoteness_entries [PyStr "Very Remote Australia (NSW)"]
          (remoteness_data Samples.remoteness_lines)
  = [Some (31000 # 1)].
Proof.
  destruct (very_remote_area_gets_remote_population Samples.remoteness_lines "NSW"
              (Q2Qc 31000) (Q2Qc 8000)) as (_ & _ & Hentries).
  - vm_compute. tauto.
  - vm_compute. tauto.
  - destruct (remoteness_entries [PyStr "Very Remote Australia (NSW)"]
                (remoteness_data Samples.remoteness_lines)) as [|e [|e' entries]] eqn:He;
      try (vm_compute in He; discriminate He).
    cbn [fmap list_fmap].
    rewrite (Hentries [PyStr "Very Remote Australia (NSW)"] e).
    + reflexivity.
    + rewrite He. by left.
    + vm_compute in He. by injection He as <-.
Defined.

(** ** Column names and the LGA reference *)

Lemma lstrip_head s :
  lstrip s = "" \/ exists c rest, lstrip s = String c rest /\ isspace c = false.
Proof.
  induction s as [|c s IH]; [by left |]. simpl.
  destruct (isspace c) eqn:Hc; [exact IH |]. right. by exists c, s.
Qed.

Lemma lstrip_id c s : isspace c = false -> lstrip (String c s) = String c s.
Proof. intros Hc. simpl. by rewrite Hc. Qed.

Lemma rstrip_cons c s :
  isspace c = false -> exists rest, rstrip (String c s) = String c rest.
Proof.
  intros Hc. simpl. destruct (rstrip s); [rewrite Hc |]; by eexists.
Qed.

Lemma rstrip_idem s : rstrip (rstrip s) = rstrip s.
Proof.
  induction s as [|c s IH]; [done |]. simpl.
  destruct (rstrip s) as [|c' rest] eqn:Hs.
  - destruct (isspace c) eqn:Hc; [done |]. simpl. by rewrite Hc.
  - change (rstrip (String c (String c' rest)))
      with (match rstrip (String c' rest) with
            | "" => if isspace c then "" else String c ""
            | rest' => String c rest'
            end).
    by rewrite IH.
Qed.

(** [s.strip()] has no white space at either end. *)
Lemma strip_stripped s : lstrip (strip s) = strip s /\ rstrip (strip s) = strip s.
Proof.
  unfold strip. split; [| apply rstrip_idem].
  destruct (lstrip_head s) as [-> | (c & rest & -> & Hc)]; [done |].
  destruct (rstrip_cons c rest Hc) as [rest' ->]. by apply lstrip_id.
Qed.

Lemma strip_idem s : strip (strip s) = strip s.
Proof.
  destruct (strip_stripped s) as [Hl Hr]. unfold strip at 1. by rewrite Hl, Hr.
Qed.

Section Replace.

Variables old new : ascii.
Hypothesis old_space : isspace old = true.
Hypothesis new_space : isspace new = true.

Lemma replaced_space c : isspace (if Ascii.eqb c old then new else c) = isspace c.
Proof. destruct (Ascii.eqb_spec c old) as [-> | _]; [| done]. by rewrite old_space. Qed.

(** Replacing a white space by a white space and stripping commute. *)
Lemma lstrip_replace_char s :
  lstrip (replace_char old new s) = replace_char old new (lstrip s).
Proof.
  induction s as [|c s IH]; [done |]. simpl. rewrite replaced_space.
  by destruct (isspace c).
Qed.

Lemma rstrip_replace_char s :
  rstrip (replace_char old new s) = replace_char old new (rstrip s).
Proof.
  induction s as [|c s IH]; [done |]. simpl. rewrite IH, replaced_space.
  destruct (rstrip s); simpl; [by destruct (isspace c) | done].
Qed.

Lemma strip_replace_char s :
  strip (replace_char old new s) = replace_char old new (strip s).
Proof. unfold strip. by rewrite lstrip_replace_char, rstrip_replace_char. Qed.

End Replace.

Lemma replace_char_free old new s :
  old <> new -> free_of old (replace_char old new s).
Proof.
  intros Hne. unfold free_of. induction s as [|c s IH]; [done |]. simpl. rewrite IH.
  destruct (Ascii.eqb_spec c old) as [-> | Hc].
  - rewrite (proj2 (Ascii.eqb_neq new old)); [done | congruence].
  - by rewrite (proj2 (Ascii.eqb_neq c old)).
Qed.

Lemma replace_char_id old new s : free_of old s -> replace_char old new s = s.
Proof.
  unfold free_of. induction s as [|c s IH]; [done |]. simpl.
  intros [Hc Hs]%andb_true_iff. rewrite IH by done.
  by destruct (Ascii.eqb c old).
Qed.

(** X23. A cleaned column name holds no line feed and no white space at
    either end; cleaning it again changes nothing, and a name that had neither
    is left as it is. *)
Theorem clean_column_names_normal_form (col : string) :
  free_of newline (clean_column_name col) /\
  stripped (clean_column_name col) /\
  clean_column_name (clean_column_name col) = clean_column_name col /\
  (stripped col -> free_of newline col -> clean_column_name col = col).
Proof.
  assert (Hstripped : stripped (clean_column_name col)).
  { unfold stripped, clean_column_name.
    by rewrite strip_replace_char, strip_idem by reflexivity. }
  assert (Hfree : free_of newline (clean_column_name col))
    by by apply replace_char_free.
  split; [exact Hfree |]. split; [exact Hstripped |]. split.
  - unfold clean_column_name at 1. rewrite Hstripped. by apply replace_char_id.
  - intros Hs Hf. unfold clean_column_name. rewrite Hs. by apply replace_char_id.
Qed.

Lemma clean_column_names_normal_form_witness :
  clean_column_name "Crash ID" = "Crash ID".
Proof.
  apply (proj2 (proj2 (proj2 (clean_column_names_normal_form "Crash ID"))));
    reflexivity.
Defined.

(** *** The rows of the LGA reference *)

Lemma split_on_free sep s : Forall (free_of sep) (split_on sep s).
Proof.
  induction s as [|c s IH]; [by repeat constructor |]. simpl.
  destruct (Ascii.eqb c sep) eqn:Hc; [by constructor |].
  destruct (split_on sep s) as [|field fields].
  - repeat constructor. unfold free_of. simpl. by rewrite Hc.
  - apply Forall_cons in IH as [Hfield Hfields]. constructor; [| done].
    unfold free_of in *. simpl. by rewrite Hc, Hfield.
Qed.

Lemma lstrip_free c s : free_of c s -> free_of c (lstrip s).
Proof.
  unfold free_of. induction s as [|c' s IH]; [done |]. simpl.
  intros [Hc Hs]%andb_true_iff. destruct (isspace c'); [by apply IH |].
  simpl. by rewrite Hc, Hs.
Qed.

Lemma rstrip_free c s : free_of c s -> free_of c (rstrip s).
Proof.
  unfold free_of. induction s as [|c' s IH]; [done |]. simpl.
  intros [Hc Hs]%andb_true_iff. specialize (IH Hs).
  destruct (rstrip s); [destruct (isspace c'); [done |] |]; simpl in *; by rewrite Hc, ?IH.
Qed.

Lemma strip_free c s : free_of c s -> free_of c (strip s).
Proof. intros Hs. unfold strip. by apply rstrip_free, lstrip_free. Qed.

Lemma nonempty_true s : nonempty s = true -> s <> "".
Proof. by destruct s. Qed.

Lemma lines_after_header_Some lines rest :
  lines_after_header lines = Some rest ->
  exists before header,
    lines = (before ++ header :: rest)%list /\ is_lga_header header = true /\
    Forall (fun line => is_lga_header line = false) before.
Proof.
  revert rest. induction lines as [|line lines IH]; intros rest; [discriminate |]. simpl.
  destruct (is_lga_header line) eqn:Hline.
  - intros [= <-]. by exists [], line.
  - intros (before & header & -> & Hheader & Hbefore)%IH.
    exists (line :: before), header. split; [done |]. split; [done | by constructor].
Qed.

Lemma lga_record_Some line row :
  lga_record line = Some row ->
  LGA_Code row <> "" /\ LGA_Name row <> "" /\
  stripped (LGA_Code row) /\ stripped (LGA_Name row) /\
  free_of "," (LGA_Code row) /\ free_of "," (LGA_Name row) /\
  (0 <= LGA_Population row)%Qc.
Proof.
  unfold lga_record. pose proof (split_on_free "," (strip line)) as Hfields.
  destruct (split_on "," (strip line)) as [|code [|name [|population fields]]];
    try discriminate.
  apply Forall_cons in Hfields as [Hcode Hfields].
  apply Forall_cons in Hfields as [Hname _].
  destruct (nonempty (strip code)) eqn:Hc; [| discriminate].
  destruct (nonempty (strip name)) eqn:Hn; [| discriminate].
  destruct (looks_numeric (strip population)); [| discriminate]. cbn [andb].
  destruct (float_of_decimal (strip population)) as [value |] eqn:Hvalue; [| discriminate].
  intros [= <-]. cbn.
  split; [by apply nonempty_true |]. split; [by apply nonempty_true |].
  split; [apply strip_idem |]. split; [apply strip_idem |].
  split; [by apply strip_free |]. split; [by apply strip_free |].
  by apply float_of_decimal_nonneg in Hvalue.
Qed.

(** X24. The rows read from the LGA file: without a line that holds 'LGA',
    'Code' and 'Name' there is none; every row comes from a line after the
    first such line; its code and its name are not empty, hold no comma and no
    white space at either end, and its population is not negative. *)
Theorem lga_reference_rows (lines : list string) :
  (Forall (fun line => is_lga_header line = false) lines -> lga_data lines = []) /\
  forall row, In row (lga_data lines) ->
    (exists before header between line after,
       lines = (before ++ header :: between ++ line :: after)%list /\
       is_lga_header header = true /\
       Forall (fun line => is_lga_header line = false) before /\
       lga_record line = Some row) /\
    LGA_Code row <> "" /\ LGA_Name row <> "" /\
    stripped (LGA_Code row) /\ stripped (LGA_Name row) /\
    free_of "," (LGA_Code row) /\ free_of "," (LGA_Name row) /\
    (0 <= LGA_Population row)%Qc.
Proof.
  unfold lga_data. split.
  - intros Hnone. destruct (lines_after_header lines) as [rest |] eqn:Hrest; [| done].
    apply lines_after_header_Some in Hrest as (before & header & -> & Hheader & _).
    apply Forall_app in Hnone as [_ Hnone]. apply Forall_cons in Hnone as [Hnone _].
    congruence.
  - intros row Hrow.
    destruct (lines_after_header lines) as [rest |] eqn:Hrest; [| destruct Hrow].
    apply lines_after_header_Some in Hrest as (before & header & -> & Hheader & Hbefore).
    apply list_elem_of_In, list_elem_of_omap in Hrow as (line & Hline & Hrow).
    apply list_elem_of_In, in_split in Hline as (between & after & ->).
    split; [by exists before, header, between, line, after |].
    by apply (lga_record_Some line).
Qed.

Lemma lga_reference_rows_witness :
  (fun row => (LGA_Code row, LGA_Name row, this (LGA_Population row))) <$> lga_data Samples.lga_lines
  = [("10050", "Albury", 56093 # 1)] /\
  lga_data ["10050,Albury,56093"] = [].
Proof.
  split; [vm_compute; reflexivity |].
  apply (proj1 (lga_reference_rows ["10050,Albury,56093"])).
  by repeat constructor.
Defined.

Import Py CreatFactTable.

(** ** When the fact-table builder returns a table *)











(** Every crash has a row in the frame. *)
Lemma fact_frame_carries crash_df season_df driver_df location_df population_df frame c :
  fact_frame crash_df season_df driver_df location_df population_df = Some frame ->
  In c crash_df -> carries (c_crash_id c) frame.
Proof.
  intros (rows & seasons & Hrows & _ & ->)%fact_frame_Some Hc.
  destruct (base_rows_from_columns _ _ _ Hrows) as [Hids _].
  apply merge_yearly_carries, population_join_carries, location_join_carries,
    driver_count_join_carries, merge_season_carries.
  assert (Hin : c_crash_id c ∈ crash_id <$> rows).
  { rewrite Hids. apply list_elem_of_fmap. exists c.
    split; [done | by apply list_elem_of_In]. }
  apply list_elem_of_fmap in Hin as (r & Hid & Hr%list_elem_of_In). by exists r.
Qed.


(** ** The claims on the fact-table builder *)

(** Every crash has a row in the table written. *)
Lemma create_fact_table_carries to_datetime crash_df season_df driver_df location_df
    population_df out c :
  create_fact_table to_datetime crash_df season_df driver_df location_df population_df
    = Some out ->
  In c crash_df -> exists o, In o out /\ o_crash_id o = c_crash_id c.
Proof.
  unfold create_fact_table.
  destruct (fact_frame crash_df season_df driver_df location_df population_df)
    as [frame |] eqn:Hframe; [| discriminate].
  cbn [mbind option_bind]. intros Hout%with_crash_date_rows Hc.
  destruct (fact_frame_carries _ _ _ _ _ _ c Hframe Hc) as (r & Hr & Hid).
  apply list_elem_of_In, list_elem_of_lookup in Hr as [i Hi].
  destruct (Forall2_lookup_l _ _ _ _ _ Hout Hi) as (o & Ho & date & ->).
  exists (select_columns r date). split; [| exact Hid].
  by apply list_elem_of_In, (list_elem_of_lookup_2 _ i).
Qed.

(** *** Driver counts *)

(** C4 (as the code has it). Every crash has a row in the fact table, and on
    every row [driver_count] is the number of rows of the Driver dimension
    with the row's [crash_id] that have a [driver_id], which is what [count]
    counts: 0 when the crash has no Driver row, and the number of its Driver
    rows when none of them lacks its [driver_id]. *)
Theorem driver_count_consistent to_datetime crash_df season_df driver_df location_df
    population_df out :
  create_fact_table to_datetime crash_df season_df driver_df location_df population_df
    = Some out ->
  (forall c, In c crash_df -> exists o, In o out /\ o_crash_id o = c_crash_id c) /\
  forall o, In o out ->
    o_driver_count o
      = Some (count_rows has_driver_id (drivers_of driver_df (o_crash_id o))) /\
    (drivers_of driver_df (o_crash_id o) = [] -> o_driver_count o = Some 0) /\
    (Forall (fun d => isna (d_driver_id d) = false) (drivers_of driver_df (o_crash_id o)) ->
     o_driver_count o = Some (Z.of_nat (length (drivers_of driver_df (o_crash_id o))))).
Proof.
  intros Hout. split; [intros c; by apply (create_fact_table_carries _ _ _ _ _ _ _ _ Hout) |].
  intros o Ho.
  destruct (in_create_fact_table _ _ _ _ _ _ _ _ Hout Ho)
    as (frame & r & date & Hframe & Hr & _ & ->).
  apply fact_frame_invariant in Hframe. rewrite Forall_forall in Hframe.
  destruct (Hframe r) as [_ Hcount]; [by apply list_elem_of_In |].
  unfold drivers_counted in Hcount. simpl. split; [exact Hcount |]. split.
  - intros Hnone. by rewrite Hcount, Hnone.
  - intros Hids. rewrite Hcount. f_equal. apply count_rows_all.
    eapply Forall_impl; [exact Hids |]. intros d Hd. unfold has_driver_id. by rewrite Hd.
Qed.

Lemma driver_count_consistent_witness :
  exists out,
    create_fact_table Samples.iso_date Samples.crash_df Samples.season_df Samples.driver_df
      Samples.location_df Samples.population_df = Some out /\
    (fun o => (o_crash_id o, o_driver_count o)) <$> out
      = [(PyInt 20101001, Some 2); (PyInt 20101002, Some 0); (PyInt 20101003, Some 1);
         (PyInt 20101004, Some 0); (PyInt 20101005, Some 0)] /\
    forall o, In o out ->
      o_driver_count o
        = Some (Z.of_nat (length (drivers_of Samples.driver_df (o_crash_id o)))).
Proof.
  eexists. split; [vm_compute; reflexivity |]. split; [vm_compute; reflexivity |].
  intros o Ho.
  refine (proj2 (proj2 (proj2 (driver_count_consistent Samples.iso_date Samples.crash_df
            Samples.season_df Samples.driver_df Samples.location_df Samples.population_df
            _ _) o Ho)) _).
  - vm_compute. reflexivity.
  - apply Forall_filter_keep. repeat constructor.
Defined.

(** C4 (as stated) fails: of the two Driver rows of a crash one has no
    [driver_id]; [count] skips it and the crash gets a [driver_count] of 1. *)
Lemma driver_count_skips_missing_driver_id :
  exists out,
    create_fact_table Samples.iso_date (take 1 Samples.crash_df) Samples.season_df
      Samples.driver_df_missing_driver_id Samples.location_df Samples.population_df
    = Some out /\
    (fun o => (o_crash_id o, o_driver_count o,
               length (drivers_of Samples.driver_df_missing_driver_id (o_crash_id o))))
      <$> out = [(PyInt 20101001, Some 1, 2%nat)] /\
    ~ (forall o, In o out ->
         o_driver_count o
         = Some (Z.of_nat (length (drivers_of Samples.driver_df_missing_driver_id
                                     (o_crash_id o))))).
Proof.
  eexists. split; [vm_compute; reflexivity |]. split; [vm_compute; reflexivity |].
  intros Hall. specialize (Hall _ (or_introl eq_refl)). vm_compute in Hall.
  discriminate Hall.
Qed.

(** *** Decoding the crash identifier *)




Example unmapped_state_is_null :
  map (fun o => (o_crash_id o, o_location_id o, o_population_id o, o_crash_date o))
    <$> create_fact_table Samples.iso_date Samples.crash_df_unmapped_state
          Samples.season_df Samples.driver_df Samples.location_df Samples.population_df
  = Some [(PyInt 20109001, None, None, "2010-01-01")].
Proof. vm_compute. reflexivity. Qed.

(** *** Yearly and monthly aggregates *)







Import Py Etl.

(** ** The range of the repaired ages *)

Section Range.

Variables lo hi : Qc.

Lemma mean_between (x y : Qc) :
  (lo <= x)%Qc /\ (x <= hi)%Qc -> (lo <= y)%Qc /\ (y <= hi)%Qc ->
  (lo <= (x + y) / Q2Qc 2)%Qc /\ ((x + y) / Q2Qc 2 <= hi)%Qc.
Proof.
  intros [Hlx Hxh] [Hly Hyh].
  assert (H2 : Q2Qc 2 = (1 + 1)%Qc) by (apply Qc_is_canon; reflexivity).
  assert (Hhalf : forall z : Qc, ((z + z) / Q2Qc 2 = z)%Qc).
  { intros z. rewrite H2. field. discriminate. }
  assert (Hpos : (0 <= / Q2Qc 2)%Qc) by (unfold Qcle; simpl; unfold Qle; simpl; lia).
  split.
  - rewrite <- (Hhalf lo) at 1. unfold Qcdiv.
    apply Qcmult_le_compat_r; [by apply Qcplus_le_compat | done].
  - rewrite <- (Hhalf hi) at 1. unfold Qcdiv.
    apply Qcmult_le_compat_r; [by apply Qcplus_le_compat | done].
Qed.

(** The median lies between the bounds of the values. *)
Lemma median_between (values : list Qc) (m : Qc) :
  Forall (fun a => (lo <= a)%Qc /\ (a <= hi)%Qc) values ->
  median values = Some m -> (lo <= m)%Qc /\ (m <= hi)%Qc.
Proof.
  intros Hall. unfold median.
  assert (Hsorted : Forall (fun a => (lo <= a)%Qc /\ (a <= hi)%Qc) (merge_sort Qcle values)).
  { apply Forall_forall. intros a Ha. rewrite Forall_forall in Hall. apply Hall.
    by rewrite <- (merge_sort_Permutation Qcle values). }
  set (sorted := merge_sort Qcle values) in *. rewrite Forall_forall in Hsorted.
  destruct (Nat.even (length sorted)).
  - destruct (length sorted) as [|n]; [discriminate |].
    destruct (sorted !! (S n / 2 - 1)%nat) as [x |] eqn:Hx; [| discriminate].
    destruct (sorted !! (S n / 2)%nat) as [y |] eqn:Hy; [| discriminate].
    cbn [mbind option_bind]. intros [= <-].
    apply mean_between; apply Hsorted; by eapply list_elem_of_lookup_2.
  - intros Hm. apply Hsorted. by eapply list_elem_of_lookup_2.
Qed.

Lemma known_ages_between (driver_dim : list driver_row) :
  Forall (age_between lo hi) driver_dim ->
  Forall (fun a => (lo <= a)%Qc /\ (a <= hi)%Qc) (omap drv_Age driver_dim).
Proof.
  intros Hall. apply Forall_forall. intros a (r & Hr & Ha)%list_elem_of_omap.
  rewrite Forall_forall in Hall. by apply (Hall r Hr).
Qed.

Lemma overall_median_between driver_dim m :
  Forall (age_between lo hi) driver_dim ->
  overall_median driver_dim = Some m -> (lo <= m)%Qc /\ (m <= hi)%Qc.
Proof. intros Hall. by apply median_between, known_ages_between. Qed.

Lemma group_median_between driver_dim g m :
  Forall (age_between lo hi) driver_dim ->
  group_median driver_dim g = Some m -> (lo <= m)%Qc /\ (m <= hi)%Qc.
Proof.
  intros Hall. apply median_between, known_ages_between. by apply Forall_filter_keep.
Qed.

Lemma set_Age_between r age :
  (forall a, age = Some a -> (lo <= a)%Qc /\ (a <= hi)%Qc) ->
  age_between lo hi (set_Age r age).
Proof. intros Hage a Ha. by apply Hage. Qed.

Lemma fix_missing_ages_between unknown driver_dim :
  Forall (age_between lo hi) driver_dim ->
  Forall (age_between lo hi) (fix_missing_ages unknown driver_dim).
Proof.
  intros Hall. unfold fix_missing_ages. destruct (existsb _ driver_dim); [| done].
  assert (Hassigned : Forall (age_between lo hi) (assign_group_medians unknown driver_dim)).
  { unfold assign_group_medians. apply Forall_fmap.
    eapply Forall_impl; [exact Hall |]. intros r Hr. cbv beta. unfold compose.
    destruct (drv_Age r) eqn:Hage; [done |]. apply set_Age_between.
    unfold get_median_age, age_group_mapping. rewrite mapping_loop_lookup, lookup_empty.
    intros a.
    destruct (_ || _); [by apply overall_median_between |].
    destruct (_ && _); cbn [default]; [by apply group_median_between |].
    by apply overall_median_between. }
  unfold fillna_Age. apply Forall_fmap.
  eapply Forall_impl; [exact Hassigned |]. intros r Hr. cbv beta. unfold compose.
  destruct (drv_Age r) eqn:Hage; [done |]. apply set_Age_between.
  intros a. by apply overall_median_between.
Qed.

End Range.

(** X26. The repair invents no age outside the range of the known ages: when
    the known ages of the Driver dimension lie between two bounds, so do all
    ages after the repair, of [etl.py] as of [fix_driver_age.py]. *)
Theorem repaired_ages_within_range (lo hi : Qc) (unknown : list string)
    (driver_dim : list driver_row) :
  Forall (age_between lo hi) driver_dim ->
  Forall (age_between lo hi) (fix_missing_ages unknown driver_dim) /\
  Forall (age_between lo hi) (FixDriverAge.fix_driver_age driver_dim).
Proof. intros Hall. split; by apply fix_missing_ages_between. Qed.

Lemma repaired_ages_within_range_witness :
  Forall (age_between (Q2Qc 10) (Q2Qc 90))
         (fix_missing_ages unknown_labels Samples.drivers_mixed).
Proof.
  apply (repaired_ages_within_range (Q2Qc 10) (Q2Qc 90) unknown_labels
           Samples.drivers_mixed).
  repeat (apply Forall_cons; split); try (by apply Forall_nil);
    intros a Ha; vm_compute in Ha; try discriminate Ha; injection Ha as <-;
    split; vm_compute; discriminate.
Defined.

(** ** The [Time] column and the Population dimension of a run *)

Lemma standard_time_text time :
  exists t, standard_time time = PyStr t /\ String.length t = 5%nat /\
            String.get 2 t = Some ":"%char.
Proof.
  unfold standard_time.
  destruct (four_characters (zfill 4 (remove_colons (astype_str time))))
    as (c1 & c2 & c3 & c4 & rest & _ & ->); [rewrite zfill_length; lia |].
  by eexists.
Qed.

(** X27. The [Time] column of the crashes of the window is standardized
    exactly when the loaded column, in or out of the window, holds a text:
    then every crash of the window gets a [Time] of five characters with a
    colon in the middle, a missing time the text "0n:an"; otherwise the
    crashes of the window are left as they are.  In both cases they keep their
    number, their order and every other column. *)
Theorem standardize_time_column (fatal_crash : list crash_record) :
  (is_object (Time <$> fatal_crash) = false ->
   prepare_crashes fatal_crash = filter_crashes fatal_crash) /\
  (is_object (Time <$> fatal_crash) = true ->
   Forall timed (prepare_crashes fatal_crash) /\
   forall c, In c (filter_crashes fatal_crash) -> Time c = PyNaN ->
     In (set_Time c (PyStr "0n:an")) (prepare_crashes fatal_crash)) /\
  length (prepare_crashes fatal_crash) = length (filter_crashes fatal_crash) /\
  (forall i c, filter_crashes fatal_crash !! i = Some c ->
     exists time, prepare_crashes fatal_crash !! i = Some (set_Time c time)).
Proof.
  unfold prepare_crashes, standardize_time. destruct (is_object _).
  - split; [discriminate |]. split; [| split].
    + intros _. split.
      * apply Forall_fmap, Forall_forall. intros c _. cbv beta.
        unfold compose, timed. cbn [Time set_Time]. apply standard_time_text.
      * intros c Hc Htime. apply in_map_iff. exists c. split; [| exact Hc].
        by rewrite Htime.
    + by rewrite length_fmap.
    + intros i c Hi. rewrite list_lookup_fmap, Hi. by eexists.
  - split; [done |]. split; [discriminate |]. split; [done |].
    intros i c Hi. exists (Time c). rewrite Hi. by destruct c.
Qed.

Lemma standardize_time_column_witness :
  Time <$> prepare_crashes Samples.crashes_text_out_of_window = [PyStr "0n:an"].
Proof.
  destruct (proj1 (proj2 (standardize_time_column Samples.crashes_text_out_of_window)))
    as [_ Hmissing]; [reflexivity |].
  specialize (Hmissing (Samples.crash_at 20101001 2010 1 PyNaN)
                ltac:(left; reflexivity) eq_refl).
  assert (Hlen : length (prepare_crashes Samples.crashes_text_out_of_window) = 1%nat)
    by by rewrite (proj1 (proj2 (proj2 (standardize_time_column _)))).
  destruct (prepare_crashes Samples.crashes_text_out_of_window) as [|c [|c' rest]];
    try discriminate Hlen.
  destruct Hmissing as [-> | []]. reflexivity.
Defined.

Lemma in_unique_remoteness_iff fatal_crash area :
  In area (unique_remoteness fatal_crash) <->
  isna area = false /\ exists c, In c fatal_crash /\ National_Remoteness_Areas c = area.
Proof.
  unfold unique_remoteness.
  rewrite <- list_elem_of_In, elem_of_unique, list_elem_of_In, filter_In, in_map_iff.
  split.
  - intros [(c & <- & Hc) Hna%negb_true_iff]. split; [done | by exists c].
  - intros [Hna (c & Hc & <-)]. split; [by exists c | by rewrite Hna].
Qed.

Lemma NoDup_omap_inj {X Y K : Type} (f : X -> option Y) (g : Y -> K) (l : list X) :
  NoDup l ->
  (forall x x' y y', f x = Some y -> f x' = Some y' -> g y = g y' -> x = x') ->
  NoDup (g <$> omap f l).
Proof.
  intros Hnd Hinj. induction Hnd as [|x l Hx _ IH]; [constructor |].
  cbn [omap list_omap]. destruct (f x) as [y |] eqn:Hy; [| exact IH].
  cbn [fmap list_fmap]. constructor; [| exact IH].
  intros (y' & Heq & Hy')%list_elem_of_fmap.
  apply list_elem_of_omap in Hy' as (x' & Hx' & Hfx').
  by rewrite (Hinj x x' y y' Hy Hfx' Heq) in Hx.
Qed.

Lemma entry_by_matching_area remoteness_df v e :
  entry_by_matching remoteness_df v = Some e -> v = PyStr (pop_Remoteness_Area e).
Proof. destruct v; try discriminate. by intros [= <-]. Qed.

(** X28. The Population dimension has one entry for every remoteness area
    that a crash names as a text, and no two entries of one area; only when no
    crash names one is it made of the pairs of state and area, which are then
    distinct and without missing value. *)
Theorem population_dimension_rows (fatal_crash : list crash_record)
    (remoteness_df : list remoteness_row) :
  match population_dim fatal_crash remoteness_df with
  | PopulationEntries entries =>
      entries <> [] /\
      NoDup (pop_Remoteness_Area <$> entries) /\
      (forall c area, In c fatal_crash -> National_Remoteness_Areas c = PyStr area ->
         exists e, In e entries /\ pop_Remoteness_Area e = area) /\
      (forall e, In e entries ->
         exists c, In c fatal_crash /\
                   National_Remoteness_Areas c = PyStr (pop_Remoteness_Area e))
  | PopulationBasic pairs =>
      (forall c area, In c fatal_crash -> National_Remoteness_Areas c <> PyStr area) /\
      NoDup pairs /\
      (forall p, In p pairs ->
         isna p.1 = false /\ isna p.2 = false /\
         exists c, In c fatal_crash /\ State c = p.1 /\ National_Remoteness_Areas c = p.2)
  end.
Proof.
  unfold population_dim. rewrite remoteness_entries_closed_form.
  assert (Hcomplete : forall c area, In c fatal_crash ->
            National_Remoteness_Areas c = PyStr area ->
            exists e, In e (omap (entry_by_matching remoteness_df)
                              (unique_remoteness fatal_crash)) /\
                      pop_Remoteness_Area e = area).
  { intros c area Hc Harea.
    exists (entry_of area (ref_Population <$> match_rows area remoteness_df None)).
    split; [| reflexivity].
    apply list_elem_of_In, list_elem_of_omap. exists (PyStr area). split; [| reflexivity].
    apply list_elem_of_In, in_unique_remoteness_iff. split; [done | by exists c]. }
  destruct (omap (entry_by_matching remoteness_df) (unique_remoteness fatal_crash))
    as [|e entries] eqn:Hentries.
  - split; [| split].
    + intros c area Hc Harea. by destruct (Hcomplete c area Hc Harea) as (e & [] & _).
    + pose proof (drop_duplicates_NoDup id
                    (List.filter (fun sa : pyval * pyval => negb (isna sa.1) && negb (isna sa.2))
                       ((fun c => (State c, National_Remoteness_Areas c)) <$> fatal_crash)))
        as Hnd.
      by rewrite list_fmap_id in Hnd.
    + intros p Hp%in_drop_duplicates%filter_In. destruct Hp as [Hp Hna].
      apply andb_true_iff in Hna as [H1%negb_true_iff H2%negb_true_iff].
      apply in_map_iff in Hp as (c & <- & Hc). split; [done |]. split; [done |].
      by exists c.
  - rewrite <- Hentries in Hcomplete. rewrite <- Hentries.
    split; [by rewrite Hentries |]. split; [| split; [exact Hcomplete |]].
    + apply NoDup_omap_inj; [apply NoDup_unique |].
      intros v v' e1 e2 He1 He2 Heq.
      by rewrite (entry_by_matching_area _ _ _ He1), (entry_by_matching_area _ _ _ He2), Heq.
    + intros e' (v & Hv%list_elem_of_In & He')%list_elem_of_In%list_elem_of_omap.
      rewrite (entry_by_matching_area _ _ _ He') in Hv.
      apply in_unique_remoteness_iff in Hv as [_ Hc]. exact Hc.
Qed.

(** ** The primary key of the tables of a run *)

Section KeyDuplicates.

Context {A K : Type} `{EqDecision K}.

Lemma drop_duplicates_from_length (key : A -> K) (seen : list K) (df : list A) :
  (length (drop_duplicates_from key seen df) <= length df)%nat.
Proof.
  revert seen. induction df as [|a df IH]; intros seen; [done |].
  cbn [drop_duplicates_from]. destruct (bool_decide (key a ∈ seen)); cbn [length].
  - specialize (IH seen). lia.
  - specialize (IH (key a :: seen)). lia.
Qed.

(** A frame from which [drop_duplicates] removes no row is left as it is. *)
Lemma drop_duplicates_from_all (key : A -> K) (seen : list K) (df : list A) :
  length (drop_duplicates_from key seen df) = length df ->
  drop_duplicates_from key seen df = df.
Proof.
  revert seen. induction df as [|a df IH]; intros seen; [done |].
  cbn [drop_duplicates_from]. destruct (bool_decide (key a ∈ seen)); cbn [length].
  - pose proof (drop_duplicates_from_length key seen df). lia.
  - intros Hlen. f_equal. apply IH. lia.
Qed.

(** The key check finds nothing exactly when no two rows share a key. *)
Lemma duplicate_count_zero_iff (key : A -> K) (df : list A) :
  DataQualityCheck.duplicate_count key df = 0%nat <-> NoDup (key <$> df).
Proof.
  pose proof (duplicated_from_count key [] [] df (fun k => iff_refl _)) as Hcount.
  fold (drop_duplicates key df) in Hcount.
  change (length (List.filter (fun marked : bool => marked)
                    (DataQualityCheck.duplicated_from key [] df)))
    with (DataQualityCheck.duplicate_count key df) in Hcount.
  split.
  - intros Hzero.
    rewrite <- (drop_duplicates_from_all key [] df) by (fold (drop_duplicates key df); lia).
    apply drop_duplicates_NoDup.
  - intros Hnd. rewrite (drop_duplicates_id key df Hnd) in Hcount. lia.
Qed.

End KeyDuplicates.

(** A table that is the distinct rows of a projection of the crashes has the
    crash identifier for key when the crashes have. *)
Lemma projected_dimension_key {R : Type} `{EqDecision R}
    (project : crash_record -> R) (key : R -> pyval) (crashes : list crash_record) :
  (forall c, key (project c) = Crash_ID c) ->
  NoDup (Crash_ID <$> crashes) ->
  NoDup (key <$> drop_duplicates id (project <$> crashes)).
Proof.
  intros Hkey Hnd.
  assert (Hkeys : key <$> (project <$> crashes) = Crash_ID <$> crashes).
  { rewrite <- list_fmap_compose. apply list_fmap_ext. intros i c _. apply Hkey. }
  rewrite drop_duplicates_id.
  - by rewrite Hkeys.
  - rewrite list_fmap_id. apply (NoDup_fmap_1 key). by rewrite Hkeys.
Qed.

Lemma standardize_time_ids dtype_object fatal_crash :
  Crash_ID <$> standardize_time dtype_object fatal_crash = Crash_ID <$> fatal_crash.
Proof.
  unfold standardize_time. destruct dtype_object; [| reflexivity].
  rewrite <- list_fmap_compose. by apply list_fmap_ext.
Qed.

(** X29. The duplicate check on a key finds nothing exactly when no two rows
    of the table share the key.  When the crashes of the window have distinct
    identifiers, the check on [Crash ID] finds nothing in the Location,
    Vehicle, Road Condition, Time and Crash Type dimensions and in the fact
    table of the run. *)
Theorem crash_id_is_a_key regex_search fatal_crash fatalities remoteness_df lga_df :
  let o := run regex_search fatal_crash fatalities remoteness_df lga_df in
  NoDup (Crash_ID <$> filter_crashes fatal_crash) ->
  (forall (A K : Type) (eq_dec : EqDecision K) (key : A -> K) (df : list A),
     DataQualityCheck.duplicate_count key df = 0%nat <-> NoDup (key <$> df)) /\
  DataQualityCheck.duplicate_count loc_Crash_ID (out_location o) = 0%nat /\
  DataQualityCheck.duplicate_count veh_Crash_ID (out_vehicle o) = 0%nat /\
  DataQualityCheck.duplicate_count road_Crash_ID (out_road_condition o) = 0%nat /\
  DataQualityCheck.duplicate_count time_Crash_ID (out_time o) = 0%nat /\
  DataQualityCheck.duplicate_count ct_Crash_ID (out_crash_type o) = 0%nat /\
  DataQualityCheck.duplicate_count fact_Crash_ID (out_fact o) = 0%nat.
Proof.
  cbv zeta. intros Hnd.
  assert (Hids : NoDup (Crash_ID <$> prepare_crashes fatal_crash))
    by (unfold prepare_crashes; by rewrite standardize_time_ids).
  split; [intros A K eq_dec key df; apply duplicate_count_zero_iff |].
  unfold run. cbn [out_location out_vehicle out_road_condition out_time out_crash_type
    out_fact].
  repeat split; apply duplicate_count_zero_iff.
  - by apply projected_dimension_key.
  - by apply projected_dimension_key.
  - by apply projected_dimension_key.
  - by apply projected_dimension_key.
  - by apply projected_dimension_key.
  - pose proof (fact_table_one_row_per_crash _ Hids) as Hrows.
    apply (f_equal (fmap (fun t : pyval * option Z * Z => t.1.1))) in Hrows.
    rewrite <- !list_fmap_compose in Hrows.
    erewrite list_fmap_ext; [rewrite Hrows; exact Hids |]. by intros i r _.
Qed.

Lemma crash_id_is_a_key_witness :
  DataQualityCheck.duplicate_count fact_Crash_ID
    (out_fact (run contains Samples.loaded_crashes [] [] Samples.lga_df)) = 0%nat.
Proof.
  apply (crash_id_is_a_key contains Samples.loaded_crashes [] [] Samples.lga_df).
  apply (bool_decide_unpack _). vm_compute. exact I.
Defined.
